(** * yarn.build audit engine: freshness catalog, workspace auditor,
      project auditor and report inspector

    A shallow embedding of the TypeScript classes [FreshnessDetector],
    [FreshnessCatalog], [WorkspaceReport], [WorkspaceAuditor],
    [ProjectAuditor] and [ReportInspector], followed by the properties the
    specification states about them.

    Conventions of the embedding.
    - A JavaScript [Map] is an association list in insertion order
      ([JsMap]); [set] on a key that is present replaces the value where the
      key stands, otherwise the pair is appended.
    - A field of type [boolean | undefined] is an [option bool]; [None] is
      [undefined].  [truthy] is the test an [if] performs on it.
    - Objects compared by reference ([Descriptor], [Workspace]) are records
      compared with [=]; a descriptor carries its reference explicitly.
    - Timestamps are milliseconds, taken in [Z].
    - The mutable state of one run (catalog, traversal path, clock, and a
      trace of the detector's invocations) is the record [Run.t], threaded
      through every call.  The recursion of the auditor carries fuel; [None]
      means the fuel ran out.
    - The file system is read as it stands when the run starts, and every
      folder asked for can be listed.  The auditors are followed on the
      schedule in which each [await] is resumed before anything else runs;
      the one suspension point that matters for the catalog is split out in
      [FreshnessCatalog.isFresh_enter] and [isFresh_resume], and calls of
      the catalog that are under way together are followed in
      [Interleaving].
    - [FreshnessCatalog] and [WorkspaceAuditor] are followed over a log of
      the previous run whose [get] returns ([RunLog]), as their types have
      it.  [ProjectAuditor] loads the configuration of the project in that
      place, whose [get] throws on a key it does not hold; the catalog and
      the auditor are followed over it in [OverConfiguration], with what is
      thrown made explicit ([outcome]). *)

From Stdlib Require Import List String ZArith Bool Arith Lia.
Import ListNotations.

Set Implicit Arguments.
Local Set Warnings "-register-all".

(* ------------------------------------------------------------------ *)
(** ** JavaScript [Map] *)

Module JsMap.
Section Ops.
Variables K V : Type.
Variable K_eq_dec : forall a b : K, {a = b} + {a <> b}.

Definition t := list (K * V).

Definition empty : t := [].

Fixpoint get (k : K) (m : t) : option V :=
  match m with
  | [] => None
  | (k', v) :: m' => if K_eq_dec k k' then Some v else get k m'
  end.

Definition has (k : K) (m : t) : bool :=
  match get k m with Some _ => true | None => false end.

Fixpoint set (k : K) (v : V) (m : t) : t :=
  match m with
  | [] => [(k, v)]
  | (k', v') :: m' =>
      if K_eq_dec k k' then (k', v) :: m' else (k', v') :: set k v m'
  end.

Definition keys (m : t) : list K := map fst m.
Definition values (m : t) : list V := map snd m.
End Ops.
End JsMap.

(** The test of [if (x)] and [!x] on a [boolean | undefined]. *)
Definition truthy (x : option bool) : bool :=
  match x with Some true => true | _ => false end.

(* ------------------------------------------------------------------ *)
(** ** The project model (@yarnpkg/core, taken at its interface) *)

Module Descriptor.
(** [ref] is the identity of the object: [path.includes(descriptor)]
    compares references, so two descriptors naming the same package in two
    manifests are different edges. *)
Record t := mk { ref : nat; name : string; range : string }.

Definition eq_dec : forall a b : t, {a = b} + {a <> b}.
Proof. decide equality; auto using string_dec, Nat.eq_dec. Defined.
End Descriptor.

Module Workspace.
(** [dependencies] lists [workspace.dependencies.values()] in the order of
    the map. *)
Record t := mk {
  relativeCwd : string;
  cwd : string;
  dependencies : list Descriptor.t
}.

Definition eq_dec : forall a b : t, {a = b} + {a <> b}.
Proof.
  decide equality; try apply string_dec.
  apply (list_eq_dec Descriptor.eq_dec).
Defined.
End Workspace.

(** Modelled from the spec: the type [RunLog] of the supervisor, whose
    declaration is not among these files.  The log of the previous run is a
    key-value store keyed by ["<relativeCwd>#build"]; a value carries a
    [lastModified] timestamp, which [isFresh] reads with [?.] and [??], so
    it may be missing. *)
Module RunLog.
Record entry := mkEntry { lastModified : option Z }.
Definition t := string -> option entry.
End RunLog.

(** [Configuration] of @yarnpkg/core, taken at its [get]: a key that names
    a setting has a value, and [get] throws on any other key.  A value is
    kept as [isFresh] reads it when the configuration stands where a log is
    expected: falsy ([None]), or an object with or without a
    [lastModified]. *)
Module Configuration.
Inductive answer :=
| Value (value : option RunLog.entry)
| Throws (message : string).

Definition t := string -> answer.

(** What a configuration holds where [get] returns. *)
Definition asLog (configuration : t) : RunLog.t :=
  fun key =>
    match configuration key with
    | Value value => value
    | Throws _ => None
    end.

(** An object that answers every key as a log does. *)
Definition ofLog (log : RunLog.t) : t := fun key => Value (log key).
End Configuration.

Module Project.
Record t := mk {
  workspaces : list Workspace.t;
  topLevelWorkspace : Workspace.t;
  tryWorkspaceByDescriptor : Descriptor.t -> option Workspace.t;
  configuration : Configuration.t
}.

(** Every workspace a descriptor resolves to is one of the project's
    workspaces: the dependency graph is finite. *)
Definition closed (p : t) : Prop :=
  forall d w, tryWorkspaceByDescriptor p d = Some w -> In w (workspaces p).

(** Every dependency edge of the project. *)
Definition descriptors (p : t) : list Descriptor.t :=
  flat_map Workspace.dependencies (workspaces p).
End Project.

(* ------------------------------------------------------------------ *)
(** ** The file system and the clock *)

Module Fs.
(** What [readdirPromise] and [statPromise] show of a folder: the entries
    with their names; an entry is a file with its [mtimeMs], a directory,
    or something that is neither. *)
Inductive folder : Type :=
| Listing (files : list (string * stats))
with stats : Type :=
| File (mtimeMs : Z)
| Directory (content : folder)
| Other.

Definition join (a b : string) : string := (a ++ "/" ++ b)%string.

(** The modification times of the files of a folder and of the folders
    below it. *)
Fixpoint mtimes (f : folder) : list Z :=
  match f with
  | Listing files =>
      flat_map
        (fun file : string * stats =>
           match snd file with
           | File mtimeMs => [mtimeMs]
           | Directory content => mtimes content
           | Other => []
           end)
        files
  end.
End Fs.

Module Env.
(** [xfs] gives the listing found at a path; [clock k] is the value of the
    k-th [new Date().getTime()] of the run. *)
Record t := mk {
  xfs : string -> Fs.folder;
  clock : nat -> Z
}.
End Env.

(* ------------------------------------------------------------------ *)
(** ** FreshnessDetector *)

Module FreshnessDetector.

Fixpoint _getLastModifiedForFolder (folder : Fs.folder) : Z :=
  match folder with
  | Fs.Listing files =>
      fold_left
        (fun (lastModified : Z) (file : string * Fs.stats) =>
           let stat := snd file in
           let lastModified :=
             match stat with
             | Fs.File mtimeMs =>
                 if (mtimeMs >? lastModified)%Z then mtimeMs else lastModified
             | _ => lastModified
             end in
           match stat with
           | Fs.Directory content =>
               let folderLastModified := _getLastModifiedForFolder content in
               if (folderLastModified >? lastModified)%Z
               then folderLastModified else lastModified
           | _ => lastModified
           end)
        files 0%Z
  end.

Definition sourceDirectory (workspace : Workspace.t) : string :=
  Fs.join (Workspace.cwd workspace) "source".

(** The scan of line 202. *)
Definition timeSource (env : Env.t) (workspace : Workspace.t) : Z :=
  _getLastModifiedForFolder (Env.xfs env (sourceDirectory workspace)).

Definition isFresh (env : Env.t) (workspace : Workspace.t)
    (lastModified : Z) : bool :=
  let changeAge := (lastModified - timeSource env workspace)%Z in
  (changeAge =? 0)%Z.

End FreshnessDetector.

(* ------------------------------------------------------------------ *)
(** ** The state of a run *)

Module Run.
Record t := mk {
  _catalog : JsMap.t Workspace.t bool;
  _previousState : option RunLog.t;
  path : list Descriptor.t;
  dateReads : nat;
  detectorRuns : list Workspace.t
}.

Definition with_catalog (c : JsMap.t Workspace.t bool) (s : t) : t :=
  mk c (_previousState s) (path s) (dateReads s) (detectorRuns s).
Definition with_previousState (l : option RunLog.t) (s : t) : t :=
  mk (_catalog s) l (path s) (dateReads s) (detectorRuns s).
Definition with_path (p : list Descriptor.t) (s : t) : t :=
  mk (_catalog s) (_previousState s) p (dateReads s) (detectorRuns s).
Definition with_dateReads (n : nat) (s : t) : t :=
  mk (_catalog s) (_previousState s) (path s) n (detectorRuns s).
Definition with_detectorRuns (l : list Workspace.t) (s : t) : t :=
  mk (_catalog s) (_previousState s) (path s) (dateReads s) l.

(** [new Date().getTime()]. *)
Definition getTime (env : Env.t) (s : t) : Z * t :=
  (Env.clock env (dateReads s), with_dateReads (S (dateReads s)) s).

(** Nothing checked, nothing read, nothing on the path. *)
Definition initial : t := mk (JsMap.empty _ _) None [] 0 [].
End Run.

(** Computations that may run out of fuel. *)
Definition M (A : Type) : Type := Run.t -> option (A * Run.t).

Definition ret {A} (a : A) : M A := fun s => Some (a, s).

Definition bind {A B} (m : M A) (k : A -> M B) : M B :=
  fun s => match m s with
           | Some (a, s') => k a s'
           | None => None
           end.

Definition lift {A} (f : Run.t -> A * Run.t) : M A := fun s => Some (f s).

Definition outOfFuel {A} : M A := fun _ => None.

Declare Scope audit_scope.
Delimit Scope audit_scope with audit.
Notation "x <- m ;; k" := (bind m (fun x => k))
  (at level 61, m at next level, right associativity) : audit_scope.
Notation "m ;;; k" := (bind m (fun _ => k))
  (at level 61, right associativity) : audit_scope.

(** The result of a call that may throw. *)
Inductive outcome (A : Type) : Type :=
| Returned (value : A)
| Threw (message : string).
Arguments Returned {A} value.
Arguments Threw {A} message.

(** Computations that may run out of fuel and may throw.  Nothing here
    catches: what is thrown ends every call under way. *)
Definition E (A : Type) : Type := Run.t -> option (outcome A * Run.t).

Definition retE {A} (a : A) : E A := fun s => Some (Returned a, s).

Definition bindE {A B} (m : E A) (k : A -> E B) : E B :=
  fun s => match m s with
           | Some (Returned a, s') => k a s'
           | Some (Threw message, s') => Some (Threw message, s')
           | None => None
           end.

Definition liftE {A} (f : Run.t -> A * Run.t) : E A :=
  fun s => let (a, s') := f s in Some (Returned a, s').

Declare Scope throwing_scope.
Delimit Scope throwing_scope with throwing.
Notation "x <- m ;; k" := (bindE m (fun x => k))
  (at level 61, m at next level, right associativity) : throwing_scope.
Notation "m ;;; k" := (bindE m (fun _ => k))
  (at level 61, right associativity) : throwing_scope.

(* ------------------------------------------------------------------ *)
(** ** FreshnessCatalog *)

Module FreshnessCatalog.

Definition create (s : Run.t) : Run.t :=
  Run.with_previousState None (Run.with_catalog (JsMap.empty _ _) s).

Definition loadPreviousState (runLog : RunLog.t) (s : Run.t) : Run.t :=
  Run.with_previousState (Some runLog) s.

Definition wasChecked (workspace : Workspace.t) (s : Run.t) : bool * Run.t :=
  (JsMap.has Workspace.eq_dec workspace (Run._catalog s), s).

(** [isFresh] is an [async] function with one suspension point, the
    [await] of the detector on line 47.  [isFresh_enter] runs the body up
    to it, [isFresh_resume] runs the rest. *)
Inductive entered :=
| Cached (result : bool)
| Detecting (isFresh : bool).

Definition isFresh_enter (env : Env.t) (workspace : Workspace.t)
    (s : Run.t) : entered * Run.t :=
  let (checked, s) := wasChecked workspace s in
  if checked then
    (Cached match JsMap.get Workspace.eq_dec workspace (Run._catalog s) with
            | Some b => b
            | None => false
            end, s)
  else
    let (lastModified, s) := Run.getTime env s in
    let yarnBuildKey := (Workspace.relativeCwd workspace ++ "#build")%string in
    let (lastModified, s) :=
      match Run._previousState s with
      | Some log =>
          match log yarnBuildKey with
          | Some e =>
              match RunLog.lastModified e with
              | Some t => (t, s)
              | None => Run.getTime env s
              end
          | None => (lastModified, s)
          end
      | None => (lastModified, s)
      end in
    let s := Run.with_detectorRuns (Run.detectorRuns s ++ [workspace]) s in
    (Detecting (FreshnessDetector.isFresh env workspace lastModified), s).

Definition isFresh_resume (workspace : Workspace.t) (isFresh : bool)
    (s : Run.t) : bool * Run.t :=
  (isFresh,
   Run.with_catalog
     (JsMap.set Workspace.eq_dec workspace isFresh (Run._catalog s)) s).

(** A call that is awaited before anything else touches the catalog. *)
Definition isFresh (env : Env.t) (workspace : Workspace.t)
    (s : Run.t) : bool * Run.t :=
  match isFresh_enter env workspace s with
  | (Cached result, s) => (result, s)
  | (Detecting isFresh, s) => isFresh_resume workspace isFresh s
  end.

End FreshnessCatalog.

(* ------------------------------------------------------------------ *)
(** ** WorkspaceReport *)

Module WorkspaceReport.

(** [dependencies] is a [Map<string, WorkspaceReport>]. *)
Inductive t : Type := mk {
  workspace : Workspace.t;
  isFresh : option bool;
  loopsBackToParent : option bool;
  dependenciesWereFresh : option bool;
  filesWereFresh : option bool;
  fileFreshnessFromCache : option bool;
  dependencies : list (string * t)
}.

(** [new WorkspaceReport(workspace)]. *)
Definition create (workspace : Workspace.t) : t :=
  mk workspace None None None None None [].

(** Assignments to the fields. *)
Definition set_isFresh (v : option bool) (r : t) : t :=
  mk (workspace r) v (loopsBackToParent r) (dependenciesWereFresh r)
     (filesWereFresh r) (fileFreshnessFromCache r) (dependencies r).
Definition set_loopsBackToParent (v : option bool) (r : t) : t :=
  mk (workspace r) (isFresh r) v (dependenciesWereFresh r)
     (filesWereFresh r) (fileFreshnessFromCache r) (dependencies r).
Definition set_dependenciesWereFresh (v : option bool) (r : t) : t :=
  mk (workspace r) (isFresh r) (loopsBackToParent r) v
     (filesWereFresh r) (fileFreshnessFromCache r) (dependencies r).
Definition set_filesWereFresh (v : option bool) (r : t) : t :=
  mk (workspace r) (isFresh r) (loopsBackToParent r) (dependenciesWereFresh r)
     v (fileFreshnessFromCache r) (dependencies r).
Definition set_fileFreshnessFromCache (v : option bool) (r : t) : t :=
  mk (workspace r) (isFresh r) (loopsBackToParent r) (dependenciesWereFresh r)
     (filesWereFresh r) v (dependencies r).

(** [report.dependencies.set(key, child)]. *)
Definition set_dependency (key : string) (child : t) (r : t) : t :=
  mk (workspace r) (isFresh r) (loopsBackToParent r) (dependenciesWereFresh r)
     (filesWereFresh r) (fileFreshnessFromCache r)
     (JsMap.set string_dec key child (dependencies r)).

(** The report and every report below it, parents first. *)
Fixpoint nodes (r : t) : list t :=
  r :: flat_map (fun entry => nodes (snd entry)) (dependencies r).

End WorkspaceReport.

(* ------------------------------------------------------------------ *)
(** ** WorkspaceAuditor *)

Module WorkspaceAuditor.
Import WorkspaceReport.
Local Open Scope audit_scope.

Section Auditor.
Variable env : Env.t.
(** [this._workspace.project]. *)
Variable project : Project.t.

Definition path_includes (descriptor : Descriptor.t) : M bool :=
  fun s => Some (if in_dec Descriptor.eq_dec descriptor (Run.path s)
                 then true else false, s).
Definition path_push (descriptor : Descriptor.t) : M unit :=
  fun s => Some (tt, Run.with_path (Run.path s ++ [descriptor]) s).
Definition path_pop : M unit :=
  fun s => Some (tt, Run.with_path (removelast (Run.path s)) s).

(** The body of the [for] loop of lines 119 to 168, over the descriptors
    still to visit.  [recurse] is the call of line 142.

    The map of [report] holds a reference to [dependencyReport], so the
    entry made on line 130 shows every assignment made to the fields of
    [dependencyReport] afterwards; here the entry is written once the
    iteration has made them all.  The key is that of line 130:
    [workspace.relativeCwd], the workspace being audited. *)
Fixpoint auditDependencies
    (recurse : Workspace.t -> WorkspaceReport.t -> M (bool * WorkspaceReport.t))
    (workspace : Workspace.t) (descriptors : list Descriptor.t)
    (report : WorkspaceReport.t) : M WorkspaceReport.t :=
  match descriptors with
  | [] => ret report
  | descriptor :: rest =>
      match Project.tryWorkspaceByDescriptor project descriptor with
      | None => auditDependencies recurse workspace rest report
      | Some dependencyWorkspace =>
          let dependencyReport := WorkspaceReport.create dependencyWorkspace in
          onPath <- path_includes descriptor ;;
          if (onPath : bool) then
            let dependencyReport :=
              set_loopsBackToParent (Some true) dependencyReport in
            auditDependencies recurse workspace rest
              (set_dependency (Workspace.relativeCwd workspace)
                 dependencyReport report)
          else
            let dependencyReport :=
              set_loopsBackToParent (Some false) dependencyReport in
            path_push descriptor ;;;
            result <- recurse dependencyWorkspace dependencyReport ;;
            path_pop ;;;
            let isDependencyFresh : bool := fst result in
            let dependencyReport :=
              set_dependenciesWereFresh (Some isDependencyFresh) (snd result) in
            let dependencyReport :=
              if negb isDependencyFresh
              then set_isFresh (Some false) dependencyReport
              else dependencyReport in
            let report :=
              if negb isDependencyFresh
              then set_dependenciesWereFresh (Some false) report
              else report in
            fromCache <- lift (FreshnessCatalog.wasChecked dependencyWorkspace) ;;
            let dependencyReport :=
              set_fileFreshnessFromCache (Some fromCache) dependencyReport in
            isFresh <- lift (FreshnessCatalog.isFresh env dependencyWorkspace) ;;
            let dependencyReport :=
              set_filesWereFresh (Some isFresh) dependencyReport in
            let dependencyReport :=
              if negb isFresh
              then set_isFresh (Some false) dependencyReport
              else dependencyReport in
            let report :=
              if negb isFresh
              then set_dependenciesWereFresh (Some false) report
              else report in
            auditDependencies recurse workspace rest
              (set_dependency (Workspace.relativeCwd workspace)
                 dependencyReport report)
      end
  end.

(** The value of [report.dependenciesWereFresh && report.filesWereFresh]
    on line 172; both fields hold a boolean there. *)
Definition verdict (report : WorkspaceReport.t) : bool :=
  truthy (dependenciesWereFresh report) && truthy (filesWereFresh report).

Fixpoint _auditDependencyWorkspace (fuel : nat) (workspace : Workspace.t)
    (report : WorkspaceReport.t) : M (bool * WorkspaceReport.t) :=
  match fuel with
  | O => outOfFuel
  | S fuel =>
      let report := set_isFresh (Some true) report in
      fromCache <- lift (FreshnessCatalog.wasChecked workspace) ;;
      let report := set_fileFreshnessFromCache (Some fromCache) report in
      isFresh <- lift (FreshnessCatalog.isFresh env workspace) ;;
      let report := set_filesWereFresh (Some isFresh) report in
      let report :=
        if negb isFresh then set_isFresh (Some false) report else report in
      let report := set_dependenciesWereFresh (Some true) report in
      report <- auditDependencies (_auditDependencyWorkspace fuel) workspace
                  (Workspace.dependencies workspace) report ;;
      ret (verdict report, report)
  end.

(** [new WorkspaceAuditor(_workspace).audit(freshnessCatalog)]; the path is
    a new array. *)
Definition audit (fuel : nat) (_workspace : Workspace.t) : M WorkspaceReport.t :=
  let report := WorkspaceReport.create _workspace in
  (fun s => Some (tt, Run.with_path [] s)) ;;;
  result <- _auditDependencyWorkspace fuel _workspace report ;;
  let workspaceIsFresh : bool := fst result in
  ret (set_isFresh (Some workspaceIsFresh) (snd result)).

End Auditor.
End WorkspaceAuditor.

(* ------------------------------------------------------------------ *)
(** ** The catalog and the auditor over a [Configuration] *)

(** [ProjectAuditor.audit] loads the configuration of the project where
    [loadPreviousState] expects the log of the previous run.
    [FreshnessCatalog] and [WorkspaceAuditor] above follow the code over a
    [RunLog], whose [get] returns; here the same code is followed over the
    loaded object [_previousState], whose [get] may throw.  The field
    [Run._previousState] holds what the object answers
    ([Configuration.asLog]). *)
Module OverConfiguration.
Import WorkspaceReport.
Local Open Scope throwing_scope.

Section Loaded.
Variable env : Env.t.
Variable project : Project.t.
Variable _previousState : Configuration.t.

(** [FreshnessCatalog.isFresh], awaited.  The catalog has loaded
    [_previousState], so the first test of line 41 passes.  The two
    lookups of lines 41 and 42 are for the same key; the first one throws
    or neither does. *)
Definition isFresh (workspace : Workspace.t) : E bool :=
  fun s =>
    let (checked, s) := FreshnessCatalog.wasChecked workspace s in
    if checked then
      Some (Returned match JsMap.get Workspace.eq_dec workspace (Run._catalog s) with
                     | Some b => b
                     | None => false
                     end, s)
    else
      let (lastModified, s) := Run.getTime env s in
      let yarnBuildKey := (Workspace.relativeCwd workspace ++ "#build")%string in
      match _previousState yarnBuildKey with
      | Configuration.Throws message => Some (Threw message, s)
      | Configuration.Value value =>
          let (lastModified, s) :=
            match value with
            | Some e =>
                match RunLog.lastModified e with
                | Some t => (t, s)
                | None => Run.getTime env s
                end
            | None => (lastModified, s)
            end in
          let s := Run.with_detectorRuns (Run.detectorRuns s ++ [workspace]) s in
          let isFresh := FreshnessDetector.isFresh env workspace lastModified in
          Some (Returned isFresh,
                Run.with_catalog
                  (JsMap.set Workspace.eq_dec workspace isFresh (Run._catalog s)) s)
      end.

(** [WorkspaceAuditor]: the loop of lines 119 to 168. *)
Fixpoint auditDependencies
    (recurse : Workspace.t -> WorkspaceReport.t -> E (bool * WorkspaceReport.t))
    (workspace : Workspace.t) (descriptors : list Descriptor.t)
    (report : WorkspaceReport.t) : E WorkspaceReport.t :=
  match descriptors with
  | [] => retE report
  | descriptor :: rest =>
      match Project.tryWorkspaceByDescriptor project descriptor with
      | None => auditDependencies recurse workspace rest report
      | Some dependencyWorkspace =>
          let dependencyReport := WorkspaceReport.create dependencyWorkspace in
          onPath <- liftE (fun s =>
                             (if in_dec Descriptor.eq_dec descriptor (Run.path s)
                              then true else false, s)) ;;
          if (onPath : bool) then
            let dependencyReport :=
              set_loopsBackToParent (Some true) dependencyReport in
            auditDependencies recurse workspace rest
              (set_dependency (Workspace.relativeCwd workspace)
                 dependencyReport report)
          else
            let dependencyReport :=
              set_loopsBackToParent (Some false) dependencyReport in
            liftE (fun s => (tt, Run.with_path (Run.path s ++ [descriptor]) s)) ;;;
            result <- recurse dependencyWorkspace dependencyReport ;;
            liftE (fun s => (tt, Run.with_path (removelast (Run.path s)) s)) ;;;
            let isDependencyFresh : bool := fst result in
            let dependencyReport :=
              set_dependenciesWereFresh (Some isDependencyFresh) (snd result) in
            let dependencyReport :=
              if negb isDependencyFresh
              then set_isFresh (Some false) dependencyReport
              else dependencyReport in
            let report :=
              if negb isDependencyFresh
              then set_dependenciesWereFresh (Some false) report
              else report in
            fromCache <- liftE (FreshnessCatalog.wasChecked dependencyWorkspace) ;;
            let dependencyReport :=
              set_fileFreshnessFromCache (Some fromCache) dependencyReport in
            isFresh <- isFresh dependencyWorkspace ;;
            let dependencyReport :=
              set_filesWereFresh (Some isFresh) dependencyReport in
            let dependencyReport :=
              if negb isFresh
              then set_isFresh (Some false) dependencyReport
              else dependencyReport in
            let report :=
              if negb isFresh
              then set_dependenciesWereFresh (Some false) report
              else report in
            auditDependencies recurse workspace rest
              (set_dependency (Workspace.relativeCwd workspace)
                 dependencyReport report)
      end
  end.

Fixpoint _auditDependencyWorkspace (fuel : nat) (workspace : Workspace.t)
    (report : WorkspaceReport.t) : E (bool * WorkspaceReport.t) :=
  match fuel with
  | O => fun _ => None
  | S fuel =>
      let report := set_isFresh (Some true) report in
      fromCache <- liftE (FreshnessCatalog.wasChecked workspace) ;;
      let report := set_fileFreshnessFromCache (Some fromCache) report in
      isFresh <- isFresh workspace ;;
      let report := set_filesWereFresh (Some isFresh) report in
      let report :=
        if negb isFresh then set_isFresh (Some false) report else report in
      let report := set_dependenciesWereFresh (Some true) report in
      report <- auditDependencies (_auditDependencyWorkspace fuel) workspace
                  (Workspace.dependencies workspace) report ;;
      retE (WorkspaceAuditor.verdict report, report)
  end.

(** [new WorkspaceAuditor(_workspace).audit(freshnessCatalog)]. *)
Definition audit (fuel : nat) (_workspace : Workspace.t) : E WorkspaceReport.t :=
  let report := WorkspaceReport.create _workspace in
  liftE (fun s => (tt, Run.with_path [] s)) ;;;
  result <- _auditDependencyWorkspace fuel _workspace report ;;
  let workspaceIsFresh : bool := fst result in
  retE (set_isFresh (Some workspaceIsFresh) (snd result)).

End Loaded.
End OverConfiguration.

(* ------------------------------------------------------------------ *)
(** ** ProjectAuditor *)

Module ProjectAuditor.
Local Open Scope throwing_scope.

Record AuditOptions := mkOptions { sequential : bool }.

Definition ProjectReport := JsMap.t Workspace.t WorkspaceReport.t.

Section Auditor.
Variable env : Env.t.
Variable _project : Project.t.
Variable _targets : list string.
(** With [sequential = false] the audits are started one after the other
    and run together; how their steps fall between each other is not fixed
    by the code.  [interleaved workspaces] stands for that part of the run,
    when there is an audit to run: it gives the report each of the audits
    started for [workspaces] is fulfilled with, throws if one of them is
    rejected, and gives nothing if they do not all settle. *)
Variable interleaved : list Workspace.t -> E (Workspace.t -> WorkspaceReport.t).

Definition targets_includes (relativeCwd : string) : bool :=
  if in_dec string_dec relativeCwd _targets then true else false.

(** The loop of lines 87 to 109.  [start] is what lines 101, 102 and 106
    to 108 leave in [pendingAudit]: with [sequential] set, the audit is
    awaited where it is started, so [pendingAudit] is fulfilled with its
    report, or the rejection is thrown on line 107; otherwise
    [pendingAudit] is still pending when the loop goes on. *)
Fixpoint auditWorkspaces {P : Type} (start : Workspace.t -> E P)
    (workspaces : list Workspace.t) (pendingAudits : JsMap.t Workspace.t P)
    : E (JsMap.t Workspace.t P) :=
  match workspaces with
  | [] => retE pendingAudits
  | workspace :: rest =>
      if Workspace.eq_dec workspace (Project.topLevelWorkspace _project) then
        auditWorkspaces start rest pendingAudits
      else if negb (targets_includes (Workspace.relativeCwd workspace)) then
        auditWorkspaces start rest pendingAudits
      else
        pendingAudit <- start workspace ;;
        auditWorkspaces start rest
          (JsMap.set Workspace.eq_dec workspace pendingAudit pendingAudits)
  end.

(** The loop of lines 111 to 114, over audits that are fulfilled. *)
Definition collect (pendingAudits : ProjectReport) : ProjectReport :=
  fold_left
    (fun reports entry =>
       JsMap.set Workspace.eq_dec (fst entry) (snd entry) reports)
    pendingAudits (JsMap.empty _ _).

(** [restoreInstallState] of line 80 touches nothing that is followed
    here.  Line 83 loads the configuration of the project. *)
Definition audit (options : AuditOptions) (fuel : nat) : E ProjectReport :=
  liftE (fun s =>
           (tt, FreshnessCatalog.loadPreviousState
                  (Configuration.asLog (Project.configuration _project))
                  (FreshnessCatalog.create s))) ;;;
  if sequential options then
    pendingAudits <-
      auditWorkspaces
        (OverConfiguration.audit env _project
           (Project.configuration _project) fuel)
        (Project.workspaces _project) (JsMap.empty _ _) ;;
    retE (collect pendingAudits)
  else
    pendingAudits <-
      auditWorkspaces (fun _ => retE tt)
        (Project.workspaces _project) (JsMap.empty _ _) ;;
    match pendingAudits with
    | [] => retE (collect [])
    | _ :: _ =>
        settled <- interleaved (JsMap.keys pendingAudits) ;;
        retE (collect (map (fun entry => (fst entry, settled (fst entry)))
                         pendingAudits))
    end.

End Auditor.

(** A [ProjectAuditor] object. *)
Record t := mk { _project : Project.t; _targets : list string }.

(** What [Project.find] returns for the path: the project, and the
    workspace at the path if there is one.  Where it finds no project,
    [Project.find] throws, and so does [forProjectPath]; the test of line
    54 is never met. *)
Record ProjectFindResult := mkFound {
  project : Project.t;
  workspace : option Workspace.t
}.

(** [forProjectPath], from the result of [Project.find] on. *)
Definition forProjectPath (projectFindResult : ProjectFindResult) : t :=
  let targets : list string := [] in
  let targets :=
    match workspace projectFindResult with
    | Some workspace =>
        if Workspace.eq_dec workspace
             (Project.topLevelWorkspace (project projectFindResult))
        then targets
             ++ map Workspace.relativeCwd
                  (Project.workspaces (project projectFindResult))
        else targets ++ [Workspace.relativeCwd workspace]
    | None => targets
    end in
  mk (project projectFindResult) targets.

(** [auditor.audit(options)]. *)
Definition auditWith (env : Env.t)
    (interleaved : list Workspace.t -> E (Workspace.t -> WorkspaceReport.t))
    (auditor : t) (options : AuditOptions) (fuel : nat) : E ProjectReport :=
  audit env (_project auditor) (_targets auditor) interleaved options fuel.

End ProjectAuditor.

(* ------------------------------------------------------------------ *)
(** ** ReportInspector *)

Module BuildInstruction.
Record t := mk { workspace : Workspace.t }.
End BuildInstruction.

Module ReportInspector.

(** [instructions] is the array the instructions are pushed on. *)
Fixpoint _unrollWorkspaceReport (workspaceReport : WorkspaceReport.t)
    (instructions : list BuildInstruction.t) : list BuildInstruction.t :=
  if truthy (WorkspaceReport.loopsBackToParent workspaceReport) then
    instructions
  else if truthy (WorkspaceReport.isFresh workspaceReport) then
    instructions
  else if negb (truthy (WorkspaceReport.dependenciesWereFresh workspaceReport))
  then
    let instructions :=
      instructions
        ++ [BuildInstruction.mk (WorkspaceReport.workspace workspaceReport)] in
    fold_left
      (fun instructions entry =>
         _unrollWorkspaceReport (snd entry) instructions)
      (WorkspaceReport.dependencies workspaceReport) instructions
  else if negb (truthy (WorkspaceReport.filesWereFresh workspaceReport)) then
    instructions
      ++ [BuildInstruction.mk (WorkspaceReport.workspace workspaceReport)]
  else instructions.

Definition unroll (_report : ProjectAuditor.ProjectReport)
    : list BuildInstruction.t :=
  fold_left
    (fun instructions entry => _unrollWorkspaceReport (snd entry) instructions)
    _report [].

End ReportInspector.

(* ------------------------------------------------------------------ *)
(** ** Calls on the catalog, one after the other *)

Module CatalogUse.

Inductive call :=
| IsFresh (workspace : Workspace.t)
| WasChecked (workspace : Workspace.t).

(** Each call is awaited before the next one is made. *)
Definition perform (env : Env.t) (c : call) (s : Run.t) : bool * Run.t :=
  match c with
  | IsFresh workspace => FreshnessCatalog.isFresh env workspace s
  | WasChecked workspace => FreshnessCatalog.wasChecked workspace s
  end.

Definition performAll (env : Env.t) (cs : list call) (s : Run.t) : Run.t :=
  fold_left (fun s c => snd (perform env c s)) cs s.

(** How often the detector ran on [workspace]. *)
Definition detections (workspace : Workspace.t) (s : Run.t) : nat :=
  count_occ Workspace.eq_dec (Run.detectorRuns s) workspace.

(** A run that starts with a new catalog, which has or has not loaded a
    log, and a detector that has not run. *)
Definition fresh (log : option RunLog.t) (s : Run.t) : Run.t :=
  Run.with_previousState log
    (FreshnessCatalog.create (Run.with_detectorRuns [] s)).

End CatalogUse.

(* ------------------------------------------------------------------ *)
(** ** Calls on the catalog that are under way together *)

Module Interleaving.

(** What happens on the catalog, in the order in which it happens:
    [isFresh(workspace)] is called and runs up to its [await] or, on a
    cached answer, to its [return]; the oldest call of
    [isFresh(workspace)] that awaits the detector is resumed and runs to
    its [return]; [wasChecked(workspace)] is called. *)
Inductive event :=
| Begin (workspace : Workspace.t)
| Finish (workspace : Workspace.t)
| WasChecked (workspace : Workspace.t).

(** The state of the run, the calls of [isFresh] that await the detector
    (oldest first, each with the answer the detector gives it) and the
    values the calls of [isFresh] have returned so far. *)
Record t := mk {
  run : Run.t;
  awaiting : list (Workspace.t * bool);
  returned : list (Workspace.t * bool)
}.

(** The oldest call for [workspace] among those that await, and the calls
    that go on awaiting. *)
Fixpoint resume (workspace : Workspace.t) (awaiting : list (Workspace.t * bool))
    : option (bool * list (Workspace.t * bool)) :=
  match awaiting with
  | [] => None
  | (w, isFresh) :: rest =>
      if Workspace.eq_dec workspace w then Some (isFresh, rest)
      else match resume workspace rest with
           | Some (found, rest') => Some (found, (w, isFresh) :: rest')
           | None => None
           end
  end.

Definition step (env : Env.t) (e : event) (st : t) : t :=
  match e with
  | Begin workspace =>
      match FreshnessCatalog.isFresh_enter env workspace (run st) with
      | (FreshnessCatalog.Cached result, s) =>
          mk s (awaiting st) (returned st ++ [(workspace, result)])
      | (FreshnessCatalog.Detecting isFresh, s) =>
          mk s (awaiting st ++ [(workspace, isFresh)]) (returned st)
      end
  | Finish workspace =>
      match resume workspace (awaiting st) with
      | Some (isFresh, rest) =>
          let (result, s) :=
            FreshnessCatalog.isFresh_resume workspace isFresh (run st) in
          mk s rest (returned st ++ [(workspace, result)])
      | None => st
      end
  | WasChecked workspace =>
      mk (snd (FreshnessCatalog.wasChecked workspace (run st)))
         (awaiting st) (returned st)
  end.



(** A new catalog, which has or has not loaded a log; no call is under
    way. *)
Definition start (log : option RunLog.t) (s : Run.t) : t :=
  mk (CatalogUse.fresh log s) [] [].

End Interleaving.

(* ------------------------------------------------------------------ *)
(** ** A sample project *)

Module Sample.
Local Open Scope string_scope.

(** [a] depends on [b], on a package outside the project and on [c];
    [d] depends on [b]; [x] and [y] depend on each other. *)
Definition a_b := Descriptor.mk 1 "b" "workspace:*".
Definition a_lodash := Descriptor.mk 2 "lodash" "^4.17.0".
Definition a_c := Descriptor.mk 3 "c" "workspace:*".
Definition d_b := Descriptor.mk 4 "b" "workspace:*".
Definition x_y := Descriptor.mk 5 "y" "workspace:*".
Definition y_x := Descriptor.mk 6 "x" "workspace:*".

Definition top := Workspace.mk "." "/repo" [].
Definition a := Workspace.mk "packages/a" "/repo/packages/a" [a_b; a_lodash; a_c].
Definition b := Workspace.mk "packages/b" "/repo/packages/b" [].
Definition c := Workspace.mk "packages/c" "/repo/packages/c" [].
Definition d := Workspace.mk "packages/d" "/repo/packages/d" [d_b].
Definition x := Workspace.mk "packages/x" "/repo/packages/x" [x_y].
Definition y := Workspace.mk "packages/y" "/repo/packages/y" [y_x].

Definition byName : list (string * Workspace.t) :=
  [("a", a); ("b", b); ("c", c); ("d", d); ("x", x); ("y", y)].

Definition tryWorkspaceByDescriptor (descriptor : Descriptor.t)
    : option Workspace.t :=
  JsMap.get string_dec (Descriptor.name descriptor) byName.

(** Every workspace was built when its newest file had time 100. *)
Definition runLog : RunLog.t :=
  fun key =>
    if existsb (fun w => String.eqb key (Workspace.relativeCwd w ++ "#build"))
         [a; b; c; d; x; y]
    then Some (RunLog.mkEntry (Some 100%Z))
    else None.

(** The object loaded as the log answers every key with what [runLog]
    holds. *)
Definition project : Project.t :=
  Project.mk [top; a; b; c; d; x; y] top tryWorkspaceByDescriptor
    (Configuration.ofLog runLog).

(** The same project with a configuration as yarn builds it: no setting is
    named ["<relativeCwd>#build"]. *)
Definition yarnConfiguration : Configuration.t :=
  fun key => Configuration.Throws ("Invalid configuration key " ++ key).

Definition yarnProject : Project.t :=
  Project.mk [top; a; b; c; d; x; y] top tryWorkspaceByDescriptor
    yarnConfiguration.

(** No audits are started together in the runs of the sample. *)
Definition interleaved (workspaces : list Workspace.t)
    : E (Workspace.t -> WorkspaceReport.t) :=
  fun _ => None.

(** The sources of [b] hold a file changed at 150; every other source
    folder has its newest file at 100. *)
Definition unchanged : Fs.folder :=
  Fs.Listing
    [("index.ts", Fs.File 100%Z);
     ("lib", Fs.Directory (Fs.Listing [("util.ts", Fs.File 70%Z);
                                       ("socket", Fs.Other)]))].

Definition changed : Fs.folder :=
  Fs.Listing [("index.ts", Fs.File 100%Z); ("new.ts", Fs.File 150%Z)].

Definition xfs (folder : string) : Fs.folder :=
  if String.eqb folder "/repo/packages/b/source" then changed else unchanged.

Definition env : Env.t := Env.mk xfs (fun k => (1000 + Z.of_nat k)%Z).

Definition fuel : nat := 7.

(** A run with a new catalog that has loaded the log. *)
Definition start : Run.t :=
  FreshnessCatalog.loadPreviousState runLog
    (FreshnessCatalog.create Run.initial).

(** The report of one audited workspace. *)
Definition reportOf (workspace : Workspace.t) : option WorkspaceReport.t :=
  option_map fst (WorkspaceAuditor.audit env project fuel workspace start).

(** A report reduced to its fields other than the workspace, with the key
    and the relative path of every child. *)
Inductive summary :=
| Summary (relativeCwd : string)
    (isFresh loopsBackToParent dependenciesWereFresh filesWereFresh
       fileFreshnessFromCache : option bool)
    (dependencies : list (string * summary)).

Fixpoint summarize (r : WorkspaceReport.t) : summary :=
  Summary (Workspace.relativeCwd (WorkspaceReport.workspace r))
    (WorkspaceReport.isFresh r) (WorkspaceReport.loopsBackToParent r)
    (WorkspaceReport.dependenciesWereFresh r)
    (WorkspaceReport.filesWereFresh r)
    (WorkspaceReport.fileFreshnessFromCache r)
    (map (fun entry => (fst entry, summarize (snd entry)))
       (WorkspaceReport.dependencies r)).

(** The units named by a list of instructions. *)
Definition units (instructions : list BuildInstruction.t) : list string :=
  map (fun i => Workspace.relativeCwd (BuildInstruction.workspace i))
    instructions.

(** The instructions for a list of targets. *)
Definition instructionsFor (targets : list string)
    : option (list BuildInstruction.t) :=
  match ProjectAuditor.audit env project targets interleaved
          (ProjectAuditor.mkOptions true) fuel Run.initial with
  | Some (Returned report, _) => Some (ReportInspector.unroll report)
  | _ => None
  end.

End Sample.

(* ================================================================== *)
(** * Properties *)

Unset Implicit Arguments.

(** ** [JsMap] *)

Section JsMapFacts.
Variables K V : Type.
Variable K_eq_dec : forall a b : K, {a = b} + {a <> b}.

Lemma get_set_same (k : K) (v : V) (m : JsMap.t K V) :
  JsMap.get K_eq_dec k (JsMap.set K_eq_dec k v m) = Some v.
Proof.
  induction m as [|[k' v'] m IH]; simpl.
  - destruct (K_eq_dec k k); congruence.
  - destruct (K_eq_dec k k') as [E|N]; simpl.
    + destruct (K_eq_dec k k'); congruence.
    + destruct (K_eq_dec k k'); congruence.
Qed.

Lemma get_set_other (k k' : K) (v : V) (m : JsMap.t K V) :
  k <> k' -> JsMap.get K_eq_dec k' (JsMap.set K_eq_dec k v m) = JsMap.get K_eq_dec k' m.
Proof.
  intros N. induction m as [|[k0 v0] m IH]; simpl.
  - destruct (K_eq_dec k' k); congruence.
  - destruct (K_eq_dec k k0) as [E|N0]; simpl.
    + subst k0. destruct (K_eq_dec k' k); congruence.
    + destruct (K_eq_dec k' k0); congruence.
Qed.

Lemma has_get (k : K) (m : JsMap.t K V) :
  JsMap.has K_eq_dec k m = true -> exists v, JsMap.get K_eq_dec k m = Some v.
Proof.
  unfold JsMap.has. destruct (JsMap.get K_eq_dec k m); [eauto | discriminate].
Qed.

Lemma has_false_get (k : K) (m : JsMap.t K V) :
  JsMap.has K_eq_dec k m = false -> JsMap.get K_eq_dec k m = None.
Proof.
  unfold JsMap.has. destruct (JsMap.get K_eq_dec k m); [discriminate | reflexivity].
Qed.

Lemma in_keys_set (k k' : K) (v : V) (m : JsMap.t K V) :
  In k' (JsMap.keys (JsMap.set K_eq_dec k v m)) <-> k' = k \/ In k' (JsMap.keys m).
Proof.
  unfold JsMap.keys. induction m as [|[k0 v0] m IH]; simpl.
  - intuition congruence.
  - destruct (K_eq_dec k k0) as [E|N]; simpl.
    + subst k0. intuition congruence.
    + rewrite IH. intuition congruence.
Qed.

Lemma set_one_key (k : K) (v : V) (m : JsMap.t K V) :
  (forall k', In k' (JsMap.keys m) -> k' = k) ->
  List.length m <= 1 ->
  List.length (JsMap.set K_eq_dec k v m) = 1 /\
  (forall k', In k' (JsMap.keys (JsMap.set K_eq_dec k v m)) -> k' = k).
Proof.
  intros Hk Hl. destruct m as [|[k0 v0] [|e m]]; simpl in *; try lia.
  - split; [reflexivity | intuition congruence].
  - assert (k0 = k) by auto. subst k0.
    destruct (K_eq_dec k k); [|congruence]. simpl.
    split; [reflexivity | intuition congruence].
Qed.

End JsMapFacts.

(** ** [FreshnessDetector] *)

Lemma detector_isFresh_eqb (env : Env.t) (workspace : Workspace.t)
    (lastModified : Z) :
  FreshnessDetector.isFresh env workspace lastModified
  = (FreshnessDetector.timeSource env workspace =? lastModified)%Z.
Proof.
  unfold FreshnessDetector.isFresh.
  destruct (Z.eqb_spec (lastModified - FreshnessDetector.timeSource env workspace) 0);
    destruct (Z.eqb_spec (FreshnessDetector.timeSource env workspace) lastModified);
    lia || reflexivity.
Qed.

(** The largest of a list of times and 0. *)
Definition newest (times : list Z) : Z := fold_right Z.max 0%Z times.

Lemma newest_cons (t : Z) (times : list Z) :
  newest (t :: times) = Z.max t (newest times).
Proof. reflexivity. Qed.

Lemma newest_nonneg (times : list Z) : (0 <= newest times)%Z.
Proof.
  induction times as [|t times IH]; [cbn; lia | rewrite newest_cons; lia].
Qed.

Lemma newest_app (l1 l2 : list Z) :
  newest (l1 ++ l2) = Z.max (newest l1) (newest l2).
Proof.
  induction l1 as [|t l1 IH].
  - cbn [app]. change (newest []) with 0%Z.
    pose proof (newest_nonneg l2). lia.
  - cbn [app]. rewrite !newest_cons, IH. lia.
Qed.

Lemma newest_bounds (times : list Z) (t : Z) :
  In t times -> (t <= newest times)%Z.
Proof.
  induction times as [|t0 times IH]; [intros []|].
  rewrite newest_cons. intros [->|H]; [lia|]. specialize (IH H). lia.
Qed.

Lemma newest_attained (times : list Z) :
  newest times = 0%Z \/ In (newest times) times.
Proof.
  induction times as [|t times IH]; [now left|].
  rewrite newest_cons.
  destruct (Z.max_spec t (newest times)) as [[_ ->]|[_ ->]];
    [destruct IH; [now left | right; now right] | right; now left].
Qed.

(** The scan of a folder is the newest of the modification times below
    it. *)
Lemma scan_newest :
  forall folder : Fs.folder,
    FreshnessDetector._getLastModifiedForFolder folder
    = newest (Fs.mtimes folder).
Proof.
  fix IH 1. intros [files].
  cbn [FreshnessDetector._getLastModifiedForFolder Fs.mtimes].
  match goal with
  | |- fold_left ?step files 0%Z = newest (flat_map ?g files) =>
      assert (Hfold : forall lastModified : Z,
                 (0 <= lastModified)%Z ->
                 fold_left step files lastModified
                 = Z.max lastModified (newest (flat_map g files)))
  end.
  { induction files as [|[name stat] files IHfiles]; intros lastModified Hpos.
    - cbn. lia.
    - cbn [fold_left flat_map snd]. rewrite newest_app.
      pose proof (newest_nonneg
        (flat_map (fun file : string * Fs.stats =>
                     match snd file with
                     | Fs.File mtimeMs => [mtimeMs]
                     | Fs.Directory content => Fs.mtimes content
                     | Fs.Other => []
                     end) files)) as Hrest.
      destruct stat as [mtimeMs|content|].
      + rewrite IHfiles by (destruct (Z.gtb_spec mtimeMs lastModified); lia).
        rewrite newest_cons. change (newest []) with 0%Z.
        destruct (Z.gtb_spec mtimeMs lastModified); lia.
      + rewrite (IH content).
        pose proof (newest_nonneg (Fs.mtimes content)) as Hsub.
        rewrite IHfiles
          by (destruct (Z.gtb_spec (newest (Fs.mtimes content)) lastModified); lia).
        destruct (Z.gtb_spec (newest (Fs.mtimes content)) lastModified); lia.
      + rewrite IHfiles by assumption. change (newest []) with 0%Z. lia. }
  rewrite Hfold by lia. pose proof (newest_nonneg (flat_map
    (fun file : string * Fs.stats =>
       match snd file with
       | Fs.File mtimeMs => [mtimeMs]
       | Fs.Directory content => Fs.mtimes content
       | Fs.Other => []
       end) files)). lia.
Qed.

(** C9.  The detector compares the baseline with what the scan of the
    source directory found: the newest modification time of the files in
    the directory and in the directories below it (0 when there is none,
    or none after 1970).  It answers [true] exactly when that time equals
    the baseline; a scan that is older than the baseline gives [false], as
    does a scan that is newer. *)
Theorem detector_fresh_iff_scan_equals_baseline :
  forall (env : Env.t) (workspace : Workspace.t) (lastModified : Z),
    let source := Env.xfs env (FreshnessDetector.sourceDirectory workspace) in
    let found := FreshnessDetector.timeSource env workspace in
    found = newest (Fs.mtimes source)
    /\ (0 <= found)%Z
    /\ (forall t, In t (Fs.mtimes source) -> (t <= found)%Z)
    /\ (found = 0%Z \/ In found (Fs.mtimes source))
    /\ (FreshnessDetector.isFresh env workspace lastModified = true
        <-> found = lastModified)
    /\ ((found < lastModified)%Z ->
        FreshnessDetector.isFresh env workspace lastModified = false)
    /\ ((found > lastModified)%Z ->
        FreshnessDetector.isFresh env workspace lastModified = false).
Proof.
  intros env workspace lastModified source found.
  assert (Hfound : found = newest (Fs.mtimes source))
    by (unfold found, FreshnessDetector.timeSource; apply scan_newest).
  split; [exact Hfound|].
  split; [rewrite Hfound; apply newest_nonneg|].
  split; [rewrite Hfound; apply newest_bounds|].
  split; [rewrite Hfound; apply newest_attained|].
  rewrite detector_isFresh_eqb. fold found.
  repeat split.
  - apply Z.eqb_eq.
  - apply Z.eqb_eq.
  - intros H. apply Z.eqb_neq. lia.
  - intros H. apply Z.eqb_neq. lia.
Qed.

(** The scan of the sample folder [unchanged] is 100: measured against the
    baselines 100, 120 and 80 the detector says fresh, stale, stale. *)
Example detector_on_sample :
  FreshnessDetector.timeSource Sample.env Sample.a = 100%Z
  /\ FreshnessDetector.isFresh Sample.env Sample.a 100 = true
  /\ FreshnessDetector.isFresh Sample.env Sample.a 120 = false
  /\ FreshnessDetector.isFresh Sample.env Sample.a 80 = false.
Proof. repeat split; reflexivity. Qed.

(** ** [FreshnessCatalog] *)

Definition known (workspace : Workspace.t) (s : Run.t) : Prop :=
  exists b, JsMap.get Workspace.eq_dec workspace (Run._catalog s) = Some b.

Lemma isFresh_hit (env : Env.t) (workspace : Workspace.t) (s : Run.t) (b : bool) :
  JsMap.get Workspace.eq_dec workspace (Run._catalog s) = Some b ->
  FreshnessCatalog.isFresh env workspace s = (b, s).
Proof.
  intros H. unfold FreshnessCatalog.isFresh, FreshnessCatalog.isFresh_enter,
    FreshnessCatalog.wasChecked, JsMap.has.
  rewrite H. reflexivity.
Qed.

(** What a call that misses the catalog does: it reads the clock, runs the
    detector once and stores the answer. *)
Lemma isFresh_miss (env : Env.t) (workspace : Workspace.t) (s : Run.t) :
  JsMap.get Workspace.eq_dec workspace (Run._catalog s) = None ->
  exists (b : bool) (n : nat),
    FreshnessCatalog.isFresh env workspace s
    = (b, Run.mk (JsMap.set Workspace.eq_dec workspace b (Run._catalog s))
            (Run._previousState s) (Run.path s) n
            (Run.detectorRuns s ++ [workspace])).
Proof.
  intros H. unfold FreshnessCatalog.isFresh, FreshnessCatalog.isFresh_enter,
    FreshnessCatalog.wasChecked, JsMap.has.
  rewrite H.
  unfold Run.getTime, Run.with_catalog, Run.with_detectorRuns,
    Run.with_dateReads. cbn.
  destruct (Run._previousState s) as [log|]; cbn.
  - destruct (log _) as [e|]; cbn.
    + destruct (RunLog.lastModified e); cbn; do 2 eexists; reflexivity.
    + do 2 eexists; reflexivity.
  - do 2 eexists; reflexivity.
Qed.

Lemma isFresh_cases (env : Env.t) (workspace : Workspace.t) (s : Run.t) :
  (exists b, JsMap.get Workspace.eq_dec workspace (Run._catalog s) = Some b
             /\ FreshnessCatalog.isFresh env workspace s = (b, s))
  \/ (JsMap.get Workspace.eq_dec workspace (Run._catalog s) = None
      /\ exists (b : bool) (n : nat),
           FreshnessCatalog.isFresh env workspace s
           = (b, Run.mk (JsMap.set Workspace.eq_dec workspace b (Run._catalog s))
                   (Run._previousState s) (Run.path s) n
                   (Run.detectorRuns s ++ [workspace]))).
Proof.
  destruct (JsMap.get Workspace.eq_dec workspace (Run._catalog s)) as [b|] eqn:E.
  - left. exists b. split; [reflexivity | now apply isFresh_hit].
  - right. split; [reflexivity | now apply isFresh_miss].
Qed.

(** After a call the catalog holds the answer. *)
Lemma isFresh_stores (env : Env.t) (workspace : Workspace.t) (s : Run.t) :
  JsMap.get Workspace.eq_dec workspace
    (Run._catalog (snd (FreshnessCatalog.isFresh env workspace s)))
  = Some (fst (FreshnessCatalog.isFresh env workspace s)).
Proof.
  destruct (isFresh_cases env workspace s) as [(b & E & ->)|(E & b & n & ->)];
    cbn; [assumption | apply get_set_same].
Qed.

(** A call never changes an answer the catalog holds. *)
Lemma isFresh_keeps (env : Env.t) (workspace w : Workspace.t) (s : Run.t)
    (v : bool) :
  JsMap.get Workspace.eq_dec w (Run._catalog s) = Some v ->
  JsMap.get Workspace.eq_dec w
    (Run._catalog (snd (FreshnessCatalog.isFresh env workspace s))) = Some v.
Proof.
  intros H.
  destruct (isFresh_cases env workspace s) as [(b & E & ->)|(E & b & n & ->)];
    cbn; [assumption|].
  rewrite get_set_other; [assumption | congruence].
Qed.

Lemma isFresh_path (env : Env.t) (workspace : Workspace.t) (s : Run.t) :
  Run.path (snd (FreshnessCatalog.isFresh env workspace s)) = Run.path s.
Proof.
  destruct (isFresh_cases env workspace s) as [(b & E & ->)|(E & b & n & ->)];
    reflexivity.
Qed.

Lemma perform_keeps (env : Env.t) (c : CatalogUse.call) (w : Workspace.t)
    (s : Run.t) (v : bool) :
  JsMap.get Workspace.eq_dec w (Run._catalog s) = Some v ->
  JsMap.get Workspace.eq_dec w
    (Run._catalog (snd (CatalogUse.perform env c s))) = Some v.
Proof.
  destruct c; cbn; [apply isFresh_keeps | trivial].
Qed.

Lemma performAll_keeps (env : Env.t) (cs : list CatalogUse.call)
    (w : Workspace.t) (v : bool) :
  forall s,
    JsMap.get Workspace.eq_dec w (Run._catalog s) = Some v ->
    JsMap.get Workspace.eq_dec w
      (Run._catalog (CatalogUse.performAll env cs s)) = Some v.
Proof.
  unfold CatalogUse.performAll.
  induction cs as [|c cs IH]; intros s H; cbn; [assumption|].
  apply IH. now apply perform_keeps.
Qed.

(** The detector has run at most once on each workspace, and only on
    workspaces whose answer the catalog holds. *)
Definition scannedOnce (s : Run.t) : Prop :=
  NoDup (Run.detectorRuns s)
  /\ forall w, In w (Run.detectorRuns s) -> known w s.

Lemma perform_scannedOnce (env : Env.t) (c : CatalogUse.call) (s : Run.t) :
  scannedOnce s -> scannedOnce (snd (CatalogUse.perform env c s)).
Proof.
  intros [Hnd Hk]. destruct c as [workspace|workspace]; cbn; [|now split].
  destruct (isFresh_cases env workspace s) as [(b & E & ->)|(E & b & n & ->)];
    cbn; [now split|].
  split.
  - apply NoDup_app; [assumption | repeat constructor; simpl; tauto |].
    intros w Hw [E'|[]]. subst w. destruct (Hk workspace Hw) as [v Hv].
    congruence.
  - intros w Hw. unfold known; cbn.
    destruct (Workspace.eq_dec workspace w) as [E'|N].
    + subst w. exists b. apply get_set_same.
    + apply in_app_or in Hw. destruct Hw as [Hw|[E'|[]]]; [|congruence].
      destruct (Hk w Hw) as [v Hv]. exists v.
      rewrite get_set_other; assumption.
Qed.

Lemma performAll_scannedOnce (env : Env.t) (cs : list CatalogUse.call) :
  forall s, scannedOnce s -> scannedOnce (CatalogUse.performAll env cs s).
Proof.
  unfold CatalogUse.performAll.
  induction cs as [|c cs IH]; intros s H; cbn; [assumption|].
  apply IH. now apply perform_scannedOnce.
Qed.

(** ** [ReportInspector] *)

Lemma truthy_true (x : option bool) : truthy x = true <-> x = Some true.
Proof. destruct x as [[|]|]; cbn; split; congruence. Qed.

Lemma truthy_false (x : option bool) : truthy x = false <-> x <> Some true.
Proof. destruct x as [[|]|]; cbn; split; congruence. Qed.

(** One unfolding of [_unrollWorkspaceReport]. *)
Lemma unroll_unfold (r : WorkspaceReport.t)
    (instructions : list BuildInstruction.t) :
  ReportInspector._unrollWorkspaceReport r instructions
  = if truthy (WorkspaceReport.loopsBackToParent r) then instructions
    else if truthy (WorkspaceReport.isFresh r) then instructions
    else if negb (truthy (WorkspaceReport.dependenciesWereFresh r)) then
      fold_left
        (fun instructions entry =>
           ReportInspector._unrollWorkspaceReport (snd entry) instructions)
        (WorkspaceReport.dependencies r)
        (instructions ++ [BuildInstruction.mk (WorkspaceReport.workspace r)])
    else if negb (truthy (WorkspaceReport.filesWereFresh r)) then
      instructions ++ [BuildInstruction.mk (WorkspaceReport.workspace r)]
    else instructions.
Proof. destruct r; reflexivity. Qed.

(** ** [WorkspaceAuditor]: one step of the loop over the descriptors *)

(** The child report once lines 150 to 166 have run on it. *)
Definition settleChild (isDependencyFresh fromCache isFresh : bool)
    (child : WorkspaceReport.t) : WorkspaceReport.t :=
  let child :=
    WorkspaceReport.set_dependenciesWereFresh (Some isDependencyFresh) child in
  let child :=
    if negb isDependencyFresh
    then WorkspaceReport.set_isFresh (Some false) child else child in
  let child :=
    WorkspaceReport.set_fileFreshnessFromCache (Some fromCache) child in
  let child := WorkspaceReport.set_filesWereFresh (Some isFresh) child in
  if negb isFresh then WorkspaceReport.set_isFresh (Some false) child else child.

(** The report of the parent once lines 152 to 167 have run for a child. *)
Definition settleParent (isDependencyFresh isFresh : bool)
    (report : WorkspaceReport.t) : WorkspaceReport.t :=
  let report :=
    if negb isDependencyFresh
    then WorkspaceReport.set_dependenciesWereFresh (Some false) report
    else report in
  if negb isFresh
  then WorkspaceReport.set_dependenciesWereFresh (Some false) report
  else report.

(** The report made for an edge that is already on the path. *)
Definition cycleLeaf (dependencyWorkspace : Workspace.t) : WorkspaceReport.t :=
  WorkspaceReport.set_loopsBackToParent (Some true)
    (WorkspaceReport.create dependencyWorkspace).

Section LoopSteps.
Variable env : Env.t.
Variable project : Project.t.
Variable recurse :
  Workspace.t -> WorkspaceReport.t -> M (bool * WorkspaceReport.t).
Variable workspace : Workspace.t.

Lemma loop_done (report : WorkspaceReport.t) (s : Run.t) :
  WorkspaceAuditor.auditDependencies env project recurse workspace [] report s
  = Some (report, s).
Proof. reflexivity. Qed.

(** A descriptor that resolves to no workspace is passed over. *)
Lemma loop_skip (descriptor : Descriptor.t) (rest : list Descriptor.t)
    (report : WorkspaceReport.t) (s : Run.t) :
  Project.tryWorkspaceByDescriptor project descriptor = None ->
  WorkspaceAuditor.auditDependencies env project recurse workspace
    (descriptor :: rest) report s
  = WorkspaceAuditor.auditDependencies env project recurse workspace
      rest report s.
Proof. intros H. cbn. rewrite H. reflexivity. Qed.

(** A descriptor that is on the path: the child is a [cycleLeaf], stored
    under the key of the parent; [recurse] is not called, the catalog is
    not asked, and no field of the parent but the map changes. *)
Lemma loop_cycle (descriptor : Descriptor.t) (rest : list Descriptor.t)
    (report : WorkspaceReport.t) (s : Run.t)
    (dependencyWorkspace : Workspace.t) :
  Project.tryWorkspaceByDescriptor project descriptor
  = Some dependencyWorkspace ->
  In descriptor (Run.path s) ->
  WorkspaceAuditor.auditDependencies env project recurse workspace
    (descriptor :: rest) report s
  = WorkspaceAuditor.auditDependencies env project recurse workspace rest
      (WorkspaceReport.set_dependency (Workspace.relativeCwd workspace)
         (cycleLeaf dependencyWorkspace) report) s.
Proof.
  intros H Hin. cbn. rewrite H.
  unfold bind, WorkspaceAuditor.path_includes.
  destruct (in_dec Descriptor.eq_dec descriptor (Run.path s)); [|contradiction].
  reflexivity.
Qed.

(** A descriptor that is not on the path: it is pushed, the dependency is
    audited, the descriptor is popped, and the child and the parent are
    settled with the answer of the recursion and that of the catalog. *)
Lemma loop_descend (descriptor : Descriptor.t) (rest : list Descriptor.t)
    (report : WorkspaceReport.t) (s : Run.t)
    (dependencyWorkspace : Workspace.t) :
  Project.tryWorkspaceByDescriptor project descriptor
  = Some dependencyWorkspace ->
  ~ In descriptor (Run.path s) ->
  WorkspaceAuditor.auditDependencies env project recurse workspace
    (descriptor :: rest) report s
  = match recurse dependencyWorkspace
            (WorkspaceReport.set_loopsBackToParent (Some false)
               (WorkspaceReport.create dependencyWorkspace))
            (Run.with_path (Run.path s ++ [descriptor]) s) with
    | None => None
    | Some (result, s1) =>
        let s2 := Run.with_path (removelast (Run.path s1)) s1 in
        let fromCache :=
          JsMap.has Workspace.eq_dec dependencyWorkspace (Run._catalog s2) in
        let answer := FreshnessCatalog.isFresh env dependencyWorkspace s2 in
        WorkspaceAuditor.auditDependencies env project recurse workspace rest
          (WorkspaceReport.set_dependency (Workspace.relativeCwd workspace)
             (settleChild (fst result) fromCache (fst answer) (snd result))
             (settleParent (fst result) (fst answer) report))
          (snd answer)
    end.
Proof.
  intros H Hin. cbn. rewrite H.
  unfold bind, WorkspaceAuditor.path_includes, WorkspaceAuditor.path_push,
    WorkspaceAuditor.path_pop, lift.
  destruct (in_dec Descriptor.eq_dec descriptor (Run.path s)); [contradiction|].
  destruct (recurse _ _ _) as [[result s1]|]; [|reflexivity].
  cbn. destruct (FreshnessCatalog.isFresh env dependencyWorkspace _).
  reflexivity.
Qed.

End LoopSteps.

(** One unfolding of [_auditDependencyWorkspace]. *)
Lemma audit_unfold (env : Env.t) (project : Project.t) (fuel : nat)
    (workspace : Workspace.t) (report : WorkspaceReport.t) (s : Run.t) :
  WorkspaceAuditor._auditDependencyWorkspace env project (S fuel)
    workspace report s
  = let fromCache :=
      JsMap.has Workspace.eq_dec workspace (Run._catalog s) in
    let answer := FreshnessCatalog.isFresh env workspace s in
    let report := WorkspaceReport.set_isFresh (Some true) report in
    let report :=
      WorkspaceReport.set_fileFreshnessFromCache (Some fromCache) report in
    let report :=
      WorkspaceReport.set_filesWereFresh (Some (fst answer)) report in
    let report :=
      if negb (fst answer)
      then WorkspaceReport.set_isFresh (Some false) report else report in
    let report :=
      WorkspaceReport.set_dependenciesWereFresh (Some true) report in
    match WorkspaceAuditor.auditDependencies env project
            (WorkspaceAuditor._auditDependencyWorkspace env project fuel)
            workspace (Workspace.dependencies workspace) report (snd answer)
    with
    | None => None
    | Some (report, s') => Some ((WorkspaceAuditor.verdict report, report), s')
    end.
Proof.
  cbn. unfold bind, lift, ret. cbn.
  destruct (FreshnessCatalog.isFresh env workspace s). cbn.
  destruct (WorkspaceAuditor.auditDependencies _ _ _ _ _ _ _) as [[r s']|];
    reflexivity.
Qed.

(** ** [WorkspaceAuditor]: the walk ends *)

(** The edges of a list that are not on the path: the measure that the
    recursion decreases. *)
Definition offPath (edges path : list Descriptor.t) : list Descriptor.t :=
  filter (fun d => if in_dec Descriptor.eq_dec d path then false else true)
    edges.

Lemma offPath_push_le (edges path : list Descriptor.t) (d : Descriptor.t) :
  List.length (offPath edges (path ++ [d])) <= List.length (offPath edges path).
Proof.
  unfold offPath. induction edges as [|e edges IH]; cbn; [lia|].
  destruct (in_dec Descriptor.eq_dec e path) as [Hin|Hout].
  - destruct (in_dec Descriptor.eq_dec e (path ++ [d])) as [_|N]; [assumption|].
    exfalso. apply N, in_or_app. now left.
  - destruct (in_dec Descriptor.eq_dec e (path ++ [d])); cbn; lia.
Qed.

Lemma offPath_push_lt (edges path : list Descriptor.t) (d : Descriptor.t) :
  In d edges -> ~ In d path ->
  List.length (offPath edges (path ++ [d])) < List.length (offPath edges path).
Proof.
  induction edges as [|e edges IH]; intros Hd Hp; [destruct Hd|].
  pose proof (offPath_push_le edges path d) as Hle.
  unfold offPath in *. cbn.
  destruct (Descriptor.eq_dec e d) as [->|Ne].
  - destruct (in_dec Descriptor.eq_dec d path); [contradiction|].
    destruct (in_dec Descriptor.eq_dec d (path ++ [d])) as [_|N]; cbn; [lia|].
    exfalso. apply N, in_or_app. right. now left.
  - destruct Hd as [->|Hd]; [congruence|]. specialize (IH Hd Hp).
    destruct (in_dec Descriptor.eq_dec e path) as [Hin|Hout].
    + destruct (in_dec Descriptor.eq_dec e (path ++ [d])) as [_|N]; [assumption|].
      exfalso. apply N, in_or_app. now left.
    + destruct (in_dec Descriptor.eq_dec e (path ++ [d])); cbn; lia.
Qed.

Lemma offPath_le (edges path : list Descriptor.t) :
  List.length (offPath edges path) <= List.length edges.
Proof. apply filter_length_le. Qed.

Section Termination.
Variable env : Env.t.
Variable project : Project.t.
Hypothesis project_closed : Project.closed project.

(** The number of edges of the project that the path can still take. *)
Definition room (s : Run.t) : nat :=
  List.length (offPath (Project.descriptors project) (Run.path s)).

Lemma dependencies_in_project (workspace : Workspace.t) :
  In workspace (Project.workspaces project) ->
  incl (Workspace.dependencies workspace) (Project.descriptors project).
Proof.
  intros Hw d Hd. apply in_flat_map. exists workspace. now split.
Qed.

(** What the loop needs of the recursive call it makes. *)
Definition returning
    (recurse : Workspace.t -> WorkspaceReport.t -> M (bool * WorkspaceReport.t))
    (bound : nat) : Prop :=
  forall workspace report s,
    In workspace (Project.workspaces project) ->
    room s < bound ->
    exists result s',
      recurse workspace report s = Some (result, s')
      /\ Run.path s' = Run.path s.

Lemma loop_returns
    (recurse : Workspace.t -> WorkspaceReport.t -> M (bool * WorkspaceReport.t))
    (bound : nat) (workspace : Workspace.t) :
  returning recurse bound ->
  forall (descriptors : list Descriptor.t) (report : WorkspaceReport.t)
         (s : Run.t),
    incl descriptors (Project.descriptors project) ->
    room s <= bound ->
    exists report' s',
      WorkspaceAuditor.auditDependencies env project recurse workspace
        descriptors report s = Some (report', s')
      /\ Run.path s' = Run.path s.
Proof.
  intros Hrec. induction descriptors as [|d rest IH]; intros report s Hin Hroom.
  - rewrite loop_done. eauto.
  - assert (Hrest : incl rest (Project.descriptors project))
      by (intros e He; apply Hin; now right).
    destruct (Project.tryWorkspaceByDescriptor project d) as [dw|] eqn:Hres.
    + destruct (in_dec Descriptor.eq_dec d (Run.path s)) as [Hon|Hoff].
      * rewrite (@loop_cycle env project recurse workspace d rest report s dw Hres Hon).
        now apply IH.
      * rewrite (@loop_descend env project recurse workspace d rest report s dw
                   Hres Hoff).
        destruct (Hrec dw
                    (WorkspaceReport.set_loopsBackToParent (Some false)
                       (WorkspaceReport.create dw))
                    (Run.with_path (Run.path s ++ [d]) s))
          as (result & s1 & -> & Hpath1).
        { now apply (project_closed d). }
        { unfold room. cbn.
          pose proof (offPath_push_lt (Project.descriptors project)
                        (Run.path s) d (Hin d (or_introl eq_refl)) Hoff).
          unfold room in Hroom. lia. }
        cbn zeta.
        match goal with
        | |- context [WorkspaceAuditor.auditDependencies _ _ _ _ rest ?r ?st] =>
            destruct (IH r st)
              as (report' & s' & Heq & Hpath'); [assumption| |]
        end.
        { unfold room. rewrite isFresh_path. cbn. rewrite Hpath1. cbn.
          rewrite removelast_last. exact Hroom. }
        exists report', s'. split; [exact Heq|].
        rewrite Hpath', isFresh_path. cbn. rewrite Hpath1. cbn.
        apply removelast_last.
    + rewrite (@loop_skip env project recurse workspace d rest report s Hres).
      now apply IH.
Qed.

(** With more fuel than the path has room, the audit of a workspace of the
    project returns, and the path is as it was. *)
Lemma auditDependencyWorkspace_returns (fuel : nat) :
  returning (WorkspaceAuditor._auditDependencyWorkspace env project fuel) fuel.
Proof.
  induction fuel as [|fuel IH]; intros workspace report s Hw Hroom; [lia|].
  rewrite audit_unfold. cbn zeta.
  match goal with
  | |- context [WorkspaceAuditor.auditDependencies _ _ _ _ ?ds ?r ?st] =>
      destruct (@loop_returns _ _ workspace IH ds r st)
        as (report' & s' & Heq & Hpath)
  end.
  - now apply dependencies_in_project.
  - unfold room. rewrite isFresh_path. unfold room in Hroom. lia.
  - rewrite Heq. eexists _, s'. split; [reflexivity|].
    rewrite Hpath. apply isFresh_path.
Qed.

(** The audit of a workspace of the project returns a report when the fuel
    exceeds the number of edges of the project. *)
Lemma audit_returns (fuel : nat) (workspace : Workspace.t) (s : Run.t) :
  In workspace (Project.workspaces project) ->
  List.length (Project.descriptors project) < fuel ->
  exists report s',
    WorkspaceAuditor.audit env project fuel workspace s = Some (report, s').
Proof.
  intros Hw Hfuel. unfold WorkspaceAuditor.audit, bind, ret.
  destruct (auditDependencyWorkspace_returns fuel workspace
              (WorkspaceReport.create workspace) (Run.with_path [] s) Hw)
    as (result & s' & -> & _).
  - unfold room. cbn.
    pose proof (offPath_le (Project.descriptors project) []). lia.
  - eauto.
Qed.

End Termination.

(** ** [WorkspaceAuditor]: the shape of the finished reports *)

Module Shape.
Import WorkspaceReport.

(** A report whose three verdicts are set, the overall one being the
    conjunction of the other two. *)
Definition settled (r : WorkspaceReport.t) : Prop :=
  exists d f : bool,
    dependenciesWereFresh r = Some d
    /\ filesWereFresh r = Some f
    /\ isFresh r = Some (d && f).

(** A report nothing was assigned to, with no child. *)
Definition leaf (r : WorkspaceReport.t) : Prop :=
  isFresh r = None
  /\ dependenciesWereFresh r = None
  /\ filesWereFresh r = None
  /\ fileFreshnessFromCache r = None
  /\ dependencies r = [].

Definition finished (r : WorkspaceReport.t) : Prop :=
  (loopsBackToParent r = Some true -> leaf r)
  /\ (loopsBackToParent r <> Some true -> settled r).

Definition allFinished (r : WorkspaceReport.t) : Prop :=
  Forall finished (nodes r).

Definition childrenFinished (r : WorkspaceReport.t) : Prop :=
  Forall (fun entry => allFinished (snd entry)) (dependencies r).

(** The catalog of [s'] answers as that of [s] wherever that one answers. *)
Definition extends (s s' : Run.t) : Prop :=
  forall w v,
    JsMap.get Workspace.eq_dec w (Run._catalog s) = Some v ->
    JsMap.get Workspace.eq_dec w (Run._catalog s') = Some v.

End Shape.

Lemma nodes_unfold (r : WorkspaceReport.t) :
  WorkspaceReport.nodes r
  = r :: flat_map (fun entry => WorkspaceReport.nodes (snd entry))
           (WorkspaceReport.dependencies r).
Proof. destruct r; reflexivity. Qed.

Lemma allFinished_split (r : WorkspaceReport.t) :
  Shape.allFinished r <-> Shape.finished r /\ Shape.childrenFinished r.
Proof.
  unfold Shape.allFinished, Shape.childrenFinished.
  rewrite nodes_unfold, Forall_cons_iff, Forall_flat_map. reflexivity.
Qed.

Lemma Forall_values_set {V : Type} (Q : V -> Prop) (k : string) (v : V)
    (m : JsMap.t string V) :
  Forall (fun entry => Q (snd entry)) m -> Q v ->
  Forall (fun entry => Q (snd entry)) (JsMap.set string_dec k v m).
Proof.
  intros Hm Hv. induction Hm as [|[k' v'] m Hx Hm IH]; cbn.
  - repeat constructor. exact Hv.
  - destruct (string_dec k k'); constructor; assumption.
Qed.

Lemma set_dependency_finished (key : string) (child r : WorkspaceReport.t) :
  Shape.childrenFinished r -> Shape.allFinished child ->
  Shape.childrenFinished (WorkspaceReport.set_dependency key child r).
Proof.
  unfold Shape.childrenFinished. cbn. apply Forall_values_set.
Qed.

Lemma cycleLeaf_finished (w : Workspace.t) : Shape.allFinished (cycleLeaf w).
Proof.
  apply allFinished_split. split.
  - split; [intros _; repeat split | intros N; now contradiction N].
  - constructor.
Qed.

(** A child that the recursion left with its three verdicts, once the loop
    has settled it with the same answer of the catalog, is finished. *)
Lemma settleChild_finished (d f fromCache : bool) (r : WorkspaceReport.t) :
  WorkspaceReport.dependenciesWereFresh r = Some d ->
  WorkspaceReport.filesWereFresh r = Some f ->
  WorkspaceReport.isFresh r = Some f ->
  WorkspaceReport.loopsBackToParent r = Some false ->
  Shape.childrenFinished r ->
  Shape.allFinished (settleChild (d && f) fromCache f r).
Proof.
  intros Hd Hf Hi Hl Hc. apply allFinished_split. split.
  - split.
    + intros L. exfalso. revert L.
      unfold settleChild. destruct d, f; cbn; congruence.
    + intros _. exists (d && f), f.
      unfold settleChild. destruct d, f; cbn; auto.
  - unfold Shape.childrenFinished in *.
    unfold settleChild. destruct d, f; cbn; exact Hc.
Qed.

Lemma settleParent_fields (b f : bool) (r : WorkspaceReport.t) :
  (forall d, WorkspaceReport.dependenciesWereFresh r = Some d ->
     exists d', WorkspaceReport.dependenciesWereFresh (settleParent b f r)
                = Some d')
  /\ WorkspaceReport.filesWereFresh (settleParent b f r)
     = WorkspaceReport.filesWereFresh r
  /\ WorkspaceReport.isFresh (settleParent b f r) = WorkspaceReport.isFresh r
  /\ WorkspaceReport.loopsBackToParent (settleParent b f r)
     = WorkspaceReport.loopsBackToParent r
  /\ WorkspaceReport.dependencies (settleParent b f r)
     = WorkspaceReport.dependencies r.
Proof.
  unfold settleParent. destruct b, f; cbn; repeat split; eauto.
Qed.

Section Finishing.
Variable env : Env.t.
Variable project : Project.t.

(** What the loop needs of the recursive call, and what the call gives. *)
Definition finishing
    (recurse : Workspace.t -> WorkspaceReport.t -> M (bool * WorkspaceReport.t))
    : Prop :=
  forall workspace report s result s',
    recurse workspace report s = Some (result, s') ->
    Shape.childrenFinished report ->
    exists d f : bool,
      WorkspaceReport.dependenciesWereFresh (snd result) = Some d
      /\ WorkspaceReport.filesWereFresh (snd result) = Some f
      /\ fst result = d && f
      /\ WorkspaceReport.isFresh (snd result) = Some f
      /\ WorkspaceReport.loopsBackToParent (snd result)
         = WorkspaceReport.loopsBackToParent report
      /\ JsMap.get Workspace.eq_dec workspace (Run._catalog s') = Some f
      /\ Shape.childrenFinished (snd result)
      /\ Shape.extends s s'.

Lemma loop_finishes
    (recurse : Workspace.t -> WorkspaceReport.t -> M (bool * WorkspaceReport.t))
    (workspace : Workspace.t) :
  finishing recurse ->
  forall (descriptors : list Descriptor.t) (report : WorkspaceReport.t)
         (s : Run.t) (report' : WorkspaceReport.t) (s' : Run.t),
    WorkspaceAuditor.auditDependencies env project recurse workspace
      descriptors report s = Some (report', s') ->
    Shape.childrenFinished report ->
    (exists d, WorkspaceReport.dependenciesWereFresh report = Some d) ->
    Shape.childrenFinished report'
    /\ (exists d, WorkspaceReport.dependenciesWereFresh report' = Some d)
    /\ WorkspaceReport.filesWereFresh report'
       = WorkspaceReport.filesWereFresh report
    /\ WorkspaceReport.isFresh report' = WorkspaceReport.isFresh report
    /\ WorkspaceReport.loopsBackToParent report'
       = WorkspaceReport.loopsBackToParent report
    /\ Shape.extends s s'.
Proof.
  intros Hrec.
  induction descriptors as [|d rest IH]; intros report s report' s' H Hc Hd.
  - rewrite loop_done in H. injection H as <- <-.
    repeat split; auto. intros w v Hv; exact Hv.
  - destruct (Project.tryWorkspaceByDescriptor project d) as [dw|] eqn:Hres.
    + destruct (in_dec Descriptor.eq_dec d (Run.path s)) as [Hon|Hoff].
      * rewrite (loop_cycle env project recurse workspace d rest report s dw
                   Hres Hon) in H.
        apply IH in H; [exact H | | exact Hd].
        apply set_dependency_finished; [exact Hc | apply cycleLeaf_finished].
      * rewrite (loop_descend env project recurse workspace d rest report s dw
                   Hres Hoff) in H.
        destruct (recurse dw _ _) as [[result s1]|] eqn:Hcall; [|discriminate].
        cbn zeta in H.
        destruct (Hrec _ _ _ _ _ Hcall) as (dd & f & Hdd & Hf & Hb & Hi & Hl & Hg & Hcs & Hext).
        { constructor. }
        rewrite (isFresh_hit env dw (Run.with_path (removelast (Run.path s1)) s1) f Hg) in H.
        cbn [fst snd] in H. rewrite Hb in H.
        destruct (settleParent_fields (dd && f) f report)
          as (Pd & Pf & Pi & Pl & Pc).
        apply IH in H.
        -- destruct H as (Hc' & Hd' & Hf' & Hi' & Hl' & He').
           repeat split; try assumption.
           ++ rewrite Hf'. exact Pf.
           ++ rewrite Hi'. exact Pi.
           ++ rewrite Hl'. exact Pl.
           ++ intros w v Hv. apply He'. cbn. apply Hext. exact Hv.
        -- apply set_dependency_finished.
           ++ unfold Shape.childrenFinished. rewrite Pc. exact Hc.
           ++ apply settleChild_finished; assumption.
        -- destruct Hd as [d0 Hd0]. exact (Pd d0 Hd0).
    + rewrite (loop_skip env project recurse workspace d rest report s Hres) in H.
      now apply IH in H.
Qed.

Lemma auditDependencyWorkspace_finishes (fuel : nat) :
  finishing (WorkspaceAuditor._auditDependencyWorkspace env project fuel).
Proof.
  induction fuel as [|fuel IH]; intros workspace report s result s' H Hc;
    [discriminate|].
  rewrite audit_unfold in H. cbn zeta in H.
  destruct (WorkspaceAuditor.auditDependencies _ _ _ _ _ _ _)
    as [[report' s1]|] eqn:Hloop; [|discriminate].
  injection H as <- <-.
  apply (loop_finishes _ workspace IH) in Hloop.
  - destruct Hloop as (Hc' & [d Hd'] & Hf' & Hi' & Hl' & He').
    exists d, (fst (FreshnessCatalog.isFresh env workspace s)).
    cbn [fst snd]. unfold WorkspaceAuditor.verdict.
    rewrite Hd', Hf', Hi', Hl'.
    repeat split.
    + destruct (fst (FreshnessCatalog.isFresh env workspace s)); reflexivity.
    + destruct (fst (FreshnessCatalog.isFresh env workspace s)); cbn;
        destruct d; reflexivity.
    + destruct (fst (FreshnessCatalog.isFresh env workspace s)); reflexivity.
    + destruct (fst (FreshnessCatalog.isFresh env workspace s)); reflexivity.
    + apply He', isFresh_stores.
    + exact Hc'.
    + intros w v Hv. apply He', isFresh_keeps. exact Hv.
  - destruct (fst (FreshnessCatalog.isFresh env workspace s)); exact Hc.
  - eexists. reflexivity.
Qed.

(** Every report of an audit is finished. *)
Lemma audit_finished (fuel : nat) (workspace : Workspace.t) (s : Run.t)
    (report : WorkspaceReport.t) (s' : Run.t) :
  WorkspaceAuditor.audit env project fuel workspace s = Some (report, s') ->
  Shape.allFinished report
  /\ WorkspaceReport.loopsBackToParent report = None.
Proof.
  unfold WorkspaceAuditor.audit, bind, ret. intros H.
  destruct (WorkspaceAuditor._auditDependencyWorkspace _ _ _ _ _ _)
    as [[result s1]|] eqn:Hcall; [|discriminate].
  injection H as <- <-.
  destruct (auditDependencyWorkspace_finishes fuel _ _ _ _ _ Hcall)
    as (d & f & Hd & Hf & Hb & Hi & Hl & _ & Hc & _); [constructor|].
  split; [|exact Hl].
  apply allFinished_split. split.
  - split.
    + cbn. rewrite Hl. discriminate.
    + intros _. exists d, f. cbn. rewrite Hb. auto.
  - exact Hc.
Qed.

End Finishing.

(** ** [WorkspaceAuditor]: the fuel does not show in the result *)

Section Fuel.
Variable env : Env.t.
Variable project : Project.t.

Definition below
    (f g : Workspace.t -> WorkspaceReport.t -> M (bool * WorkspaceReport.t))
    : Prop :=
  forall workspace report s x, f workspace report s = Some x ->
                               g workspace report s = Some x.

Lemma loop_below
    (f g : Workspace.t -> WorkspaceReport.t -> M (bool * WorkspaceReport.t))
    (workspace : Workspace.t) :
  below f g ->
  forall descriptors report s x,
    WorkspaceAuditor.auditDependencies env project f workspace
      descriptors report s = Some x ->
    WorkspaceAuditor.auditDependencies env project g workspace
      descriptors report s = Some x.
Proof.
  intros Hfg. induction descriptors as [|d rest IH]; intros report s x H.
  - exact H.
  - destruct (Project.tryWorkspaceByDescriptor project d) as [dw|] eqn:Hres.
    + destruct (in_dec Descriptor.eq_dec d (Run.path s)) as [Hon|Hoff].
      * rewrite (loop_cycle env project f workspace d rest report s dw Hres Hon)
          in H.
        rewrite (loop_cycle env project g workspace d rest report s dw Hres Hon).
        now apply IH.
      * rewrite (loop_descend env project f workspace d rest report s dw
                   Hres Hoff) in H.
        rewrite (loop_descend env project g workspace d rest report s dw
                   Hres Hoff).
        destruct (f dw _ _) as [[result s1]|] eqn:Hcall; [|discriminate].
        rewrite (Hfg _ _ _ _ Hcall). now apply IH.
    + rewrite (loop_skip env project f workspace d rest report s Hres) in H.
      rewrite (loop_skip env project g workspace d rest report s Hres).
      now apply IH.
Qed.

Lemma fuel_step (fuel : nat) :
  below (WorkspaceAuditor._auditDependencyWorkspace env project fuel)
        (WorkspaceAuditor._auditDependencyWorkspace env project (S fuel)).
Proof.
  induction fuel as [|fuel IH]; intros workspace report s x H; [discriminate|].
  rewrite audit_unfold in H. rewrite audit_unfold. cbn zeta in *.
  destruct (WorkspaceAuditor.auditDependencies env project
              (WorkspaceAuditor._auditDependencyWorkspace env project fuel)
              _ _ _ _) as [[report' s']|] eqn:Hloop; [|discriminate].
  now rewrite (loop_below _ _ workspace IH _ _ _ _ Hloop).
Qed.

Lemma fuel_more (fuel extra : nat) :
  below (WorkspaceAuditor._auditDependencyWorkspace env project fuel)
        (WorkspaceAuditor._auditDependencyWorkspace env project (extra + fuel)).
Proof.
  induction extra as [|extra IH]; intros workspace report s x H; [exact H|].
  cbn [Nat.add]. apply fuel_step, IH, H.
Qed.

(** A report that some fuel gives is the report any larger fuel gives. *)
Lemma audit_fuel_more (fuel fuel' : nat) (workspace : Workspace.t) (s : Run.t)
    (x : WorkspaceReport.t * Run.t) :
  fuel <= fuel' ->
  WorkspaceAuditor.audit env project fuel workspace s = Some x ->
  WorkspaceAuditor.audit env project fuel' workspace s = Some x.
Proof.
  intros Hle. replace fuel' with ((fuel' - fuel) + fuel) by lia.
  unfold WorkspaceAuditor.audit, bind, ret.
  destruct (WorkspaceAuditor._auditDependencyWorkspace env project fuel _ _ _)
    as [[result s1]|] eqn:Hcall; [|discriminate].
  now rewrite (fuel_more fuel (fuel' - fuel) _ _ _ _ Hcall).
Qed.

End Fuel.

(** The sample project is closed. *)
Lemma sample_closed : Project.closed Sample.project.
Proof.
  intros d w. cbn. unfold Sample.tryWorkspaceByDescriptor. cbn.
  repeat (destruct (string_dec _ _); [intros [= <-]; cbn; tauto|]).
  discriminate.
Qed.

(** C7.  In a project whose descriptors resolve to workspaces of the
    project (a finite graph, cycles or not), the audit of any workspace
    returns a report as soon as the fuel exceeds the number of dependency
    edges, and every such fuel gives the same report.  On the way, an edge
    that is already on the path is not followed: the loop makes a report
    for it with [loopsBackToParent = true], stores it and goes on to the
    next descriptor without calling the recursion, whatever that is. *)
Theorem audit_terminates_and_marks_cycles :
  forall (env : Env.t) (project : Project.t),
    Project.closed project ->
    (forall (fuel : nat) (workspace : Workspace.t) (s : Run.t),
        In workspace (Project.workspaces project) ->
        List.length (Project.descriptors project) < fuel ->
        exists report s',
          WorkspaceAuditor.audit env project fuel workspace s
          = Some (report, s')
          /\ forall fuel', List.length (Project.descriptors project) < fuel' ->
               WorkspaceAuditor.audit env project fuel' workspace s
               = Some (report, s'))
    /\ (forall recurse workspace descriptor rest report s dependencyWorkspace,
           Project.tryWorkspaceByDescriptor project descriptor
           = Some dependencyWorkspace ->
           In descriptor (Run.path s) ->
           WorkspaceAuditor.auditDependencies env project recurse workspace
             (descriptor :: rest) report s
           = WorkspaceAuditor.auditDependencies env project recurse workspace
               rest
               (WorkspaceReport.set_dependency
                  (Workspace.relativeCwd workspace)
                  (WorkspaceReport.set_loopsBackToParent (Some true)
                     (WorkspaceReport.create dependencyWorkspace))
                  report)
               s).
Proof.
  intros env project Hclosed. split.
  - intros fuel workspace s Hw Hfuel.
    destruct (audit_returns env project Hclosed fuel workspace s Hw Hfuel)
      as (report & s' & Heq).
    exists report, s'. split; [exact Heq|].
    intros fuel' Hfuel'.
    destruct (Nat.le_ge_cases fuel fuel') as [Hle|Hge].
    + exact (audit_fuel_more env project fuel fuel' workspace s _ Hle Heq).
    + destruct (audit_returns env project Hclosed fuel' workspace s Hw Hfuel')
        as (report0 & s0 & Heq0).
      pose proof (audit_fuel_more env project fuel' fuel workspace s _ Hge Heq0)
        as Heq1.
      congruence.
  - intros recurse workspace descriptor rest report s dw Hres Hon.
    exact (loop_cycle env project recurse workspace descriptor rest report s
             dw Hres Hon).
Qed.

(** The sample workspaces [x] and [y] depend on each other.  The audit of
    [x] returns; the walk goes from [x] to [y], back to [x], and stops at
    the edge to [y] it has already taken, whose report loops back. *)
Lemma audit_terminates_and_marks_cycles_witness :
  (exists report s',
      WorkspaceAuditor.audit Sample.env Sample.project Sample.fuel Sample.x
        Sample.start = Some (report, s'))
  /\ option_map
       (fun r => map (fun n => (Workspace.relativeCwd (WorkspaceReport.workspace n),
                                WorkspaceReport.loopsBackToParent n))
                   (WorkspaceReport.nodes r))
       (Sample.reportOf Sample.x)
     = Some [("packages/x"%string, None); ("packages/y"%string, Some false);
             ("packages/x"%string, Some false); ("packages/y"%string, Some true)].
Proof.
  split.
  - destruct (proj1 (audit_terminates_and_marks_cycles Sample.env Sample.project
                       sample_closed)
                Sample.fuel Sample.x Sample.start) as (report & s' & Heq & _).
    + cbn. tauto.
    + vm_compute. lia.
    + exists report, s'. exact Heq.
  - vm_compute. reflexivity.
Defined.

(** C4.  The audit of a workspace of a finite project returns, and in any
    report an audit returns, every node that is not a cycle leaf (the root
    and the nested ones alike) has [dependenciesWereFresh] and
    [filesWereFresh] set to booleans and [isFresh] set to their
    conjunction. *)
Theorem settled_reports_keep_the_equation :
  forall (env : Env.t) (project : Project.t) (fuel : nat)
         (workspace : Workspace.t) (s : Run.t),
    (Project.closed project ->
     In workspace (Project.workspaces project) ->
     List.length (Project.descriptors project) < fuel ->
     exists report s',
       WorkspaceAuditor.audit env project fuel workspace s = Some (report, s'))
    /\ (forall report s',
           WorkspaceAuditor.audit env project fuel workspace s
           = Some (report, s') ->
           forall r,
             In r (WorkspaceReport.nodes report) ->
             WorkspaceReport.loopsBackToParent r <> Some true ->
             exists d f : bool,
               WorkspaceReport.dependenciesWereFresh r = Some d
               /\ WorkspaceReport.filesWereFresh r = Some f
               /\ WorkspaceReport.isFresh r = Some (d && f)).
Proof.
  intros env project fuel workspace s. split.
  - intros Hclosed Hw Hfuel.
    exact (audit_returns env project Hclosed fuel workspace s Hw Hfuel).
  - intros report s' Heq r Hr Hl.
    destruct (audit_finished env project fuel workspace s report s' Heq)
      as [Hall _].
    unfold Shape.allFinished in Hall. rewrite Forall_forall in Hall.
    exact (proj2 (Hall r Hr) Hl).
Qed.

(** The audit of the sample workspace [d], whose dependency [b] has a
    changed file: the report of [d] and the nested report of [b] both
    satisfy the equation. *)
Lemma settled_reports_keep_the_equation_witness :
  exists report s',
    WorkspaceAuditor.audit Sample.env Sample.project Sample.fuel Sample.d
      Sample.start = Some (report, s')
    /\ List.length (WorkspaceReport.nodes report) = 2
    /\ forall r,
         In r (WorkspaceReport.nodes report) ->
         WorkspaceReport.loopsBackToParent r <> Some true ->
         exists d f : bool,
           WorkspaceReport.dependenciesWereFresh r = Some d
           /\ WorkspaceReport.filesWereFresh r = Some f
           /\ WorkspaceReport.isFresh r = Some (d && f).
Proof.
  destruct (settled_reports_keep_the_equation Sample.env Sample.project
              Sample.fuel Sample.d Sample.start) as [Hret Hinv].
  destruct Hret as (report & s' & Heq).
  - exact sample_closed.
  - cbn. tauto.
  - vm_compute. lia.
  - exists report, s'. split; [exact Heq|]. split.
    + assert (Hsome : option_map (fun x => List.length (WorkspaceReport.nodes (fst x)))
                        (WorkspaceAuditor.audit Sample.env Sample.project
                           Sample.fuel Sample.d Sample.start) = Some 2)
        by (vm_compute; reflexivity).
      rewrite Heq in Hsome. cbn in Hsome. congruence.
    + exact (Hinv report s' Heq).
Defined.

(** C8.  In any report an audit returns, a node with
    [loopsBackToParent = true] has [isFresh], [dependenciesWereFresh],
    [filesWereFresh] and [fileFreshnessFromCache] undefined and an empty
    [dependencies] map.  When the loop meets an edge that is on the path it
    stores such a node and goes on: the recursion is not called, the state
    of the run is untouched, and [dependenciesWereFresh] of the parent is
    what it was.  The inspector adds no instruction for such a node. *)
Theorem cycle_reports_are_leaves :
  forall (env : Env.t) (project : Project.t),
    (forall fuel workspace s report s',
        WorkspaceAuditor.audit env project fuel workspace s
        = Some (report, s') ->
        forall r,
          In r (WorkspaceReport.nodes report) ->
          WorkspaceReport.loopsBackToParent r = Some true ->
          WorkspaceReport.isFresh r = None
          /\ WorkspaceReport.dependenciesWereFresh r = None
          /\ WorkspaceReport.filesWereFresh r = None
          /\ WorkspaceReport.fileFreshnessFromCache r = None
          /\ WorkspaceReport.dependencies r = [])
    /\ (forall recurse workspace descriptor rest report s dependencyWorkspace,
           Project.tryWorkspaceByDescriptor project descriptor
           = Some dependencyWorkspace ->
           In descriptor (Run.path s) ->
           let parent :=
             WorkspaceReport.set_dependency (Workspace.relativeCwd workspace)
               (cycleLeaf dependencyWorkspace) report in
           WorkspaceAuditor.auditDependencies env project recurse workspace
             (descriptor :: rest) report s
           = WorkspaceAuditor.auditDependencies env project recurse workspace
               rest parent s
           /\ WorkspaceReport.dependenciesWereFresh parent
              = WorkspaceReport.dependenciesWereFresh report
           /\ WorkspaceReport.isFresh parent = WorkspaceReport.isFresh report)
    /\ (forall r instructions,
           WorkspaceReport.loopsBackToParent r = Some true ->
           ReportInspector._unrollWorkspaceReport r instructions
           = instructions).
Proof.
  intros env project. split; [|split].
  - intros fuel workspace s report s' Heq r Hr Hl.
    destruct (audit_finished env project fuel workspace s report s' Heq)
      as [Hall _].
    unfold Shape.allFinished in Hall. rewrite Forall_forall in Hall.
    exact (proj1 (Hall r Hr) Hl).
  - intros recurse workspace descriptor rest report s dw Hres Hon parent.
    split; [|split; reflexivity].
    exact (loop_cycle env project recurse workspace descriptor rest report s
             dw Hres Hon).
  - intros r instructions Hl. rewrite unroll_unfold, Hl. reflexivity.
Qed.

(** The audit of the sample workspace [x], which is on a cycle with [y]:
    the report holds a node that loops back, and it is a leaf. *)
Lemma cycle_reports_are_leaves_witness :
  exists report s',
    WorkspaceAuditor.audit Sample.env Sample.project Sample.fuel Sample.x
      Sample.start = Some (report, s')
    /\ (exists r,
           In r (WorkspaceReport.nodes report)
           /\ WorkspaceReport.loopsBackToParent r = Some true
           /\ WorkspaceReport.isFresh r = None
           /\ WorkspaceReport.dependenciesWereFresh r = None
           /\ WorkspaceReport.filesWereFresh r = None
           /\ WorkspaceReport.fileFreshnessFromCache r = None
           /\ WorkspaceReport.dependencies r = []).
Proof.
  destruct (WorkspaceAuditor.audit Sample.env Sample.project Sample.fuel
              Sample.x Sample.start) as [[report s']|] eqn:Heq.
  - exists report, s'. split; [reflexivity|].
    pose proof (proj1 (cycle_reports_are_leaves Sample.env Sample.project)
                  Sample.fuel Sample.x Sample.start report s' Heq) as Hleaf.
    assert (Hnth : exists r, nth_error (WorkspaceReport.nodes report) 3 = Some r
                             /\ WorkspaceReport.loopsBackToParent r = Some true).
    { vm_compute in Heq. injection Heq as <- _.
      eexists. split; reflexivity. }
    destruct Hnth as (r & Hr & Hl).
    exists r. apply nth_error_In in Hr.
    split; [exact Hr|]. split; [exact Hl|]. exact (Hleaf r Hr Hl).
  - vm_compute in Heq. discriminate.
Defined.

(** ** [ReportInspector]: the policy *)

(** C6.  The policy of the inspector at a report node: a node that loops
    back to a parent adds nothing; otherwise a fresh node adds nothing;
    otherwise, when its dependencies were not fresh, the node adds one
    instruction for its workspace and then every report of its
    [dependencies] map is unrolled in turn; otherwise, when its
    dependencies were fresh and its own files were not, it adds one
    instruction and unrolls nothing.  On the nodes of a report that an
    audit returned these cases leave nothing out: a node that neither loops
    back nor is fresh has stale dependencies, or fresh dependencies and
    stale files. *)
Theorem inspector_policy :
  forall (r : WorkspaceReport.t) (instructions : list BuildInstruction.t),
    let unroll := ReportInspector._unrollWorkspaceReport in
    let own := BuildInstruction.mk (WorkspaceReport.workspace r) in
    (WorkspaceReport.loopsBackToParent r = Some true ->
     unroll r instructions = instructions)
    /\ (WorkspaceReport.loopsBackToParent r <> Some true ->
        WorkspaceReport.isFresh r = Some true ->
        unroll r instructions = instructions)
    /\ (WorkspaceReport.loopsBackToParent r <> Some true ->
        WorkspaceReport.isFresh r <> Some true ->
        WorkspaceReport.dependenciesWereFresh r = Some false ->
        unroll r instructions
        = fold_left (fun instructions entry => unroll (snd entry) instructions)
            (WorkspaceReport.dependencies r) (instructions ++ [own]))
    /\ (WorkspaceReport.loopsBackToParent r <> Some true ->
        WorkspaceReport.isFresh r <> Some true ->
        WorkspaceReport.dependenciesWereFresh r = Some true ->
        WorkspaceReport.filesWereFresh r = Some false ->
        unroll r instructions = instructions ++ [own])
    /\ (forall env project fuel workspace s report s',
           WorkspaceAuditor.audit env project fuel workspace s
           = Some (report, s') ->
           In r (WorkspaceReport.nodes report) ->
           WorkspaceReport.loopsBackToParent r <> Some true ->
           WorkspaceReport.isFresh r <> Some true ->
           WorkspaceReport.dependenciesWereFresh r = Some false
           \/ (WorkspaceReport.dependenciesWereFresh r = Some true
               /\ WorkspaceReport.filesWereFresh r = Some false)).
Proof.
  intros r instructions unroll own. unfold unroll, own.
  rewrite unroll_unfold.
  repeat split.
  - intros ->. reflexivity.
  - intros L ->. apply truthy_false in L. rewrite L. reflexivity.
  - intros L F ->. apply truthy_false in L, F. rewrite L, F. reflexivity.
  - intros L F -> ->. apply truthy_false in L, F. rewrite L, F. reflexivity.
  - intros env project fuel workspace s report s' Heq Hr L F.
    destruct (audit_finished env project fuel workspace s report s' Heq)
      as [Hall _].
    unfold Shape.allFinished in Hall. rewrite Forall_forall in Hall.
    destruct (proj2 (Hall r Hr) L) as (d & f & Hd & Hf & Hi).
    rewrite Hd, Hf. rewrite Hi in F.
    destruct d, f; cbn in F; try congruence; auto.
Qed.

(** ** [ProjectAuditor] *)

Section JsMapKeys.
Variables K V : Type.
Variable K_eq_dec : forall a b : K, {a = b} + {a <> b}.

Lemma set_absent (k : K) (v : V) (m : JsMap.t K V) :
  ~ In k (JsMap.keys m) -> JsMap.set K_eq_dec k v m = m ++ [(k, v)].
Proof.
  unfold JsMap.keys. induction m as [|[k' v'] m IH]; cbn; intros N.
  - reflexivity.
  - destruct (K_eq_dec k k') as [->|Ne]; [tauto|].
    rewrite IH; [reflexivity | tauto].
Qed.

Lemma keys_set_present (k : K) (v : V) (m : JsMap.t K V) :
  In k (JsMap.keys m) -> JsMap.keys (JsMap.set K_eq_dec k v m) = JsMap.keys m.
Proof.
  unfold JsMap.keys. induction m as [|[k' v'] m IH]; cbn; intros H.
  - destruct H.
  - destruct (K_eq_dec k k') as [->|Ne]; cbn; [reflexivity|].
    rewrite IH; [reflexivity|]. destruct H; [congruence | assumption].
Qed.

Lemma NoDup_keys_set (k : K) (v : V) (m : JsMap.t K V) :
  NoDup (JsMap.keys m) -> NoDup (JsMap.keys (JsMap.set K_eq_dec k v m)).
Proof.
  intros Hnd. destruct (in_dec K_eq_dec k (JsMap.keys m)) as [Hin|Hout].
  - now rewrite keys_set_present.
  - rewrite set_absent by assumption. unfold JsMap.keys in *.
    rewrite map_app. cbn. apply NoDup_app; [assumption | repeat constructor; cbn; tauto|].
    intros a Ha [<-|[]]. contradiction.
Qed.

(** Copying a map entry by entry into an empty map gives the map back. *)
Lemma copy_entries (l acc : JsMap.t K V) :
  NoDup (JsMap.keys (acc ++ l)) ->
  fold_left (fun reports entry => JsMap.set K_eq_dec (fst entry) (snd entry) reports)
    l acc = acc ++ l.
Proof.
  revert acc. induction l as [|[k v] l IH]; intros acc Hnd; cbn.
  - now rewrite app_nil_r.
  - assert (Hout : ~ In k (JsMap.keys acc)).
    { unfold JsMap.keys in *. rewrite map_app in Hnd. cbn in Hnd.
      apply NoDup_remove_2 in Hnd. intros Hin. apply Hnd, in_or_app. now left. }
    rewrite set_absent by assumption.
    rewrite IH; rewrite <- app_assoc; [reflexivity | exact Hnd].
Qed.

End JsMapKeys.

(** The audit of a project whose workspaces are audited one after the
    other over a log whose [get] returns: what [ProjectAuditor.audit] comes
    to when the configuration it loads answers every lookup
    ([project_audit_over_answers] below). *)
Module Answered.
Local Open Scope audit_scope.

Section Auditor.
Variable env : Env.t.
Variable _project : Project.t.
Variable _targets : list string.

Fixpoint auditWorkspaces (fuel : nat) (workspaces : list Workspace.t)
    (pendingAudits : ProjectAuditor.ProjectReport)
    : M ProjectAuditor.ProjectReport :=
  match workspaces with
  | [] => ret pendingAudits
  | workspace :: rest =>
      if Workspace.eq_dec workspace (Project.topLevelWorkspace _project) then
        auditWorkspaces fuel rest pendingAudits
      else if negb (ProjectAuditor.targets_includes _targets
                      (Workspace.relativeCwd workspace)) then
        auditWorkspaces fuel rest pendingAudits
      else
        pendingAudit <- WorkspaceAuditor.audit env _project fuel workspace ;;
        auditWorkspaces fuel rest
          (JsMap.set Workspace.eq_dec workspace pendingAudit pendingAudits)
  end.

Definition audit (fuel : nat) : M ProjectAuditor.ProjectReport :=
  (fun s => Some (tt, FreshnessCatalog.loadPreviousState
                        (Configuration.asLog (Project.configuration _project))
                        (FreshnessCatalog.create s))) ;;;
  pendingAudits <- auditWorkspaces fuel (Project.workspaces _project)
                     (JsMap.empty _ _) ;;
  ret (ProjectAuditor.collect pendingAudits).

End Auditor.
End Answered.

Section ProjectAudit.
Variable env : Env.t.
Variable project : Project.t.
Variable targets : list string.
Variable fuel : nat.
Hypothesis project_closed : Project.closed project.
Hypothesis enough_fuel : List.length (Project.descriptors project) < fuel.

(** The workspaces the loop audits: not the top-level one, and named by
    the targets. *)
Definition targeted (w : Workspace.t) : Prop :=
  w <> Project.topLevelWorkspace project
  /\ In (Workspace.relativeCwd w) targets.

Lemma auditWorkspaces_keys :
  forall (workspaces : list Workspace.t)
         (pendingAudits : ProjectAuditor.ProjectReport) (s : Run.t),
    incl workspaces (Project.workspaces project) ->
    exists reports s',
      Answered.auditWorkspaces env project targets fuel workspaces
        pendingAudits s = Some (reports, s')
      /\ (forall w, In w (JsMap.keys reports)
                    <-> In w (JsMap.keys pendingAudits)
                        \/ (In w workspaces /\ targeted w))
      /\ (NoDup (JsMap.keys pendingAudits) -> NoDup (JsMap.keys reports)).
Proof.
  induction workspaces as [|w rest IH]; intros pending s Hincl.
  - exists pending, s. split; [reflexivity|]. split; [|trivial].
    intros w. cbn. tauto.
  - assert (Hrest : incl rest (Project.workspaces project))
      by (intros e He; apply Hincl; now right).
    cbn [Answered.auditWorkspaces].
    destruct (Workspace.eq_dec w (Project.topLevelWorkspace project)) as [Htop|Hnot].
    + destruct (IH pending s Hrest) as (reports & s' & Heq & Hkeys & Hnd).
      exists reports, s'. split; [exact Heq|]. split; [|exact Hnd].
      intros w0. rewrite Hkeys. unfold targeted. cbn.
      intuition (subst; tauto).
    + unfold ProjectAuditor.targets_includes.
      destruct (in_dec string_dec (Workspace.relativeCwd w) targets) as [Hin|Hout];
        cbn [negb].
      * unfold bind.
        destruct (audit_returns env project project_closed fuel w s
                    (Hincl w (or_introl eq_refl)) enough_fuel)
          as (report & s1 & ->).
        destruct (IH (JsMap.set Workspace.eq_dec w report pending) s1 Hrest)
          as (reports & s' & Heq & Hkeys & Hnd).
        exists reports, s'. split; [exact Heq|]. split.
        -- intros w0. rewrite Hkeys, in_keys_set. unfold targeted. cbn.
           intuition (subst; tauto).
        -- intros H. apply Hnd, NoDup_keys_set, H.
      * destruct (IH pending s Hrest) as (reports & s' & Heq & Hkeys & Hnd).
        exists reports, s'. split; [exact Heq|]. split; [|exact Hnd].
        intros w0. rewrite Hkeys. unfold targeted. cbn.
        intuition (subst; tauto).
Qed.

Lemma project_audit_keys (s : Run.t) :
  exists report s',
    Answered.audit env project targets fuel s = Some (report, s')
    /\ (forall w, In w (JsMap.keys report)
                  <-> In w (Project.workspaces project) /\ targeted w)
    /\ NoDup (JsMap.keys report).
Proof.
  unfold Answered.audit, bind, ret.
  destruct (auditWorkspaces_keys (Project.workspaces project)
              (JsMap.empty _ _)
              (FreshnessCatalog.loadPreviousState (Configuration.asLog (Project.configuration project))
                 (FreshnessCatalog.create s)))
    as (pending & s' & -> & Hkeys & Hnd).
  - intros w Hw. exact Hw.
  - assert (Hnd' : NoDup (JsMap.keys pending)) by (apply Hnd; constructor).
    exists (ProjectAuditor.collect pending), s'. split; [reflexivity|].
    unfold ProjectAuditor.collect.
    rewrite (copy_entries _ _ Workspace.eq_dec pending (JsMap.empty _ _))
      by exact Hnd'.
    cbn [JsMap.empty app]. split; [|exact Hnd'].
    intros w. rewrite Hkeys. cbn. tauto.
Qed.

End ProjectAudit.

(** ** The catalog during an audit *)

(** A property of the state of the run that the catalog's [isFresh] keeps
    and the path has no part in is kept by the auditors. *)
Section RunInvariant.
Variable env : Env.t.
Variable project : Project.t.
Variable inv : Run.t -> Prop.
Hypothesis inv_isFresh :
  forall w s, inv s -> inv (snd (FreshnessCatalog.isFresh env w s)).
Hypothesis inv_path : forall p s, inv s -> inv (Run.with_path p s).

Definition keeping
    (recurse : Workspace.t -> WorkspaceReport.t -> M (bool * WorkspaceReport.t))
    : Prop :=
  forall workspace report s result s',
    recurse workspace report s = Some (result, s') -> inv s -> inv s'.

Lemma loop_keeps
    (recurse : Workspace.t -> WorkspaceReport.t -> M (bool * WorkspaceReport.t))
    (workspace : Workspace.t) :
  keeping recurse ->
  forall descriptors report s report' s',
    WorkspaceAuditor.auditDependencies env project recurse workspace
      descriptors report s = Some (report', s') ->
    inv s -> inv s'.
Proof.
  intros Hrec.
  induction descriptors as [|d rest IH]; intros report s report' s' H Hs.
  - rewrite loop_done in H. now injection H as _ <-.
  - destruct (Project.tryWorkspaceByDescriptor project d) as [dw|] eqn:Hres.
    + destruct (in_dec Descriptor.eq_dec d (Run.path s)) as [Hon|Hoff].
      * rewrite (loop_cycle env project recurse workspace d rest report s dw
                   Hres Hon) in H.
        exact (IH _ _ _ _ H Hs).
      * rewrite (loop_descend env project recurse workspace d rest report s dw
                   Hres Hoff) in H.
        destruct (recurse dw _ _) as [[result s1]|] eqn:Hcall; [|discriminate].
        cbn zeta in H. apply (IH _ _ _ _ H).
        apply inv_isFresh, inv_path.
        apply (Hrec _ _ _ _ _ Hcall), inv_path, Hs.
    + rewrite (loop_skip env project recurse workspace d rest report s Hres) in H.
      exact (IH _ _ _ _ H Hs).
Qed.

Lemma auditDependencyWorkspace_keeps (fuel : nat) :
  keeping (WorkspaceAuditor._auditDependencyWorkspace env project fuel).
Proof.
  induction fuel as [|fuel IH]; intros workspace report s result s' H Hs;
    [discriminate|].
  rewrite audit_unfold in H. cbn zeta in H.
  destruct (WorkspaceAuditor.auditDependencies _ _ _ _ _ _ _)
    as [[report' s1]|] eqn:Hloop; [|discriminate].
  injection H as _ <-.
  apply (loop_keeps _ workspace IH _ _ _ _ _ Hloop), inv_isFresh, Hs.
Qed.

Lemma audit_keeps (fuel : nat) (workspace : Workspace.t) (s : Run.t)
    (report : WorkspaceReport.t) (s' : Run.t) :
  WorkspaceAuditor.audit env project fuel workspace s = Some (report, s') ->
  inv s -> inv s'.
Proof.
  unfold WorkspaceAuditor.audit, bind, ret. intros H Hs.
  destruct (WorkspaceAuditor._auditDependencyWorkspace _ _ _ _ _ _)
    as [[result s1]|] eqn:Hcall; [|discriminate].
  injection H as _ <-.
  apply (auditDependencyWorkspace_keeps fuel _ _ _ _ _ Hcall), inv_path, Hs.
Qed.

Lemma auditWorkspaces_keeps (targets : list string) (fuel : nat) :
  forall workspaces pendingAudits s reports s',
    Answered.auditWorkspaces env project targets fuel workspaces
      pendingAudits s = Some (reports, s') ->
    inv s -> inv s'.
Proof.
  induction workspaces as [|w rest IH]; intros pending s reports s' H Hs.
  - now injection H as _ <-.
  - cbn [Answered.auditWorkspaces] in H.
    destruct (Workspace.eq_dec w (Project.topLevelWorkspace project));
      [exact (IH _ _ _ _ H Hs)|].
    destruct (negb _); [exact (IH _ _ _ _ H Hs)|].
    unfold bind in H.
    destruct (WorkspaceAuditor.audit env project fuel w s)
      as [[report s1]|] eqn:Haudit; [|discriminate].
    exact (IH _ _ _ _ H (audit_keeps fuel w s report s1 Haudit Hs)).
Qed.

End RunInvariant.

Lemma isFresh_scannedOnce (env : Env.t) (w : Workspace.t) (s : Run.t) :
  scannedOnce s -> scannedOnce (snd (FreshnessCatalog.isFresh env w s)).
Proof. exact (perform_scannedOnce env (CatalogUse.IsFresh w) s). Qed.

(** In an audit of the project the detector runs at most once on any
    workspace. *)
Lemma project_audit_scans_once (env : Env.t) (project : Project.t)
    (targets : list string) (fuel : nat) (s : Run.t)
    (report : ProjectAuditor.ProjectReport) (s' : Run.t) :
  Run.detectorRuns s = [] ->
  Answered.audit env project targets fuel s = Some (report, s') ->
  forall w, CatalogUse.detections w s' <= 1.
Proof.
  unfold Answered.audit, bind, ret. intros Hruns H.
  destruct (Answered.auditWorkspaces _ _ _ _ _ _ _)
    as [[pending s1]|] eqn:Hloop; [|discriminate].
  injection H as _ <-.
  apply (proj1 (NoDup_count_occ Workspace.eq_dec _)).
  refine (proj1 (auditWorkspaces_keeps env project scannedOnce
                   (isFresh_scannedOnce env) _ targets fuel _ _ _ _ _ Hloop _)).
  - intros p s0 H0. exact H0.
  - split; cbn; rewrite Hruns; [constructor | intros w []].
Qed.

(** *** Calls that are under way together *)



Lemma resume_absent (workspace : Workspace.t) :
  forall awaiting : list (Workspace.t * bool),
    ~ In workspace (map fst awaiting) ->
    Interleaving.resume workspace awaiting = None.
Proof.
  induction awaiting as [|[w b] awaiting IH]; intros Hout; [reflexivity|].
  cbn [Interleaving.resume].
  destruct (Workspace.eq_dec workspace w) as [E|N].
  - exfalso. apply Hout. left. now subst.
  - rewrite IH; [reflexivity|]. intros Hin. apply Hout. now right.
Qed.









(** ** The auditors over a configuration *)

(** A computation that does not throw, among those that may. *)
Definition up {A : Type} (r : option (A * Run.t)) : option (outcome A * Run.t) :=
  option_map (fun x => (Returned (fst x), snd x)) r.

(** The run has loaded the configuration. *)
Definition loaded (configuration : Configuration.t) (s : Run.t) : Prop :=
  Run._previousState s = Some (Configuration.asLog configuration).

(** The configuration has a value under the key of the workspace. *)
Definition answers (configuration : Configuration.t) (w : Workspace.t) : Prop :=
  exists value,
    configuration (Workspace.relativeCwd w ++ "#build")%string
    = Configuration.Value value.

Lemma isFresh_previousState (env : Env.t) (w : Workspace.t) (s : Run.t) :
  Run._previousState (snd (FreshnessCatalog.isFresh env w s))
  = Run._previousState s.
Proof.
  destruct (isFresh_cases env w s) as [(b & E & ->)|(E & b & n & ->)];
    reflexivity.
Qed.

(** A call that finds the answer in the catalog looks nothing up. *)
Lemma isFresh_over_hit (env : Env.t) (configuration : Configuration.t)
    (w : Workspace.t) (s : Run.t) (b : bool) :
  JsMap.get Workspace.eq_dec w (Run._catalog s) = Some b ->
  OverConfiguration.isFresh env configuration w s = Some (Returned b, s).
Proof.
  intros H. unfold OverConfiguration.isFresh, FreshnessCatalog.wasChecked,
    JsMap.has.
  rewrite H. reflexivity.
Qed.

(** A call that misses the catalog and whose key the configuration does
    not hold throws, once it has read the clock. *)
Lemma isFresh_over_throws (env : Env.t) (configuration : Configuration.t)
    (w : Workspace.t) (s : Run.t) (message : string) :
  JsMap.get Workspace.eq_dec w (Run._catalog s) = None ->
  configuration (Workspace.relativeCwd w ++ "#build")%string
  = Configuration.Throws message ->
  OverConfiguration.isFresh env configuration w s
  = Some (Threw message, snd (Run.getTime env s)).
Proof.
  intros H Hthrows. unfold OverConfiguration.isFresh,
    FreshnessCatalog.wasChecked, JsMap.has.
  rewrite H. cbn. rewrite Hthrows. reflexivity.
Qed.

(** Where the configuration answers, the call goes as it does over a
    log. *)
Lemma isFresh_over_answers (env : Env.t) (configuration : Configuration.t)
    (w : Workspace.t) (s : Run.t) :
  loaded configuration s -> answers configuration w ->
  OverConfiguration.isFresh env configuration w s
  = up (Some (FreshnessCatalog.isFresh env w s)).
Proof.
  intros Hloaded [value Hvalue].
  unfold OverConfiguration.isFresh, FreshnessCatalog.isFresh,
    FreshnessCatalog.isFresh_enter, FreshnessCatalog.isFresh_resume,
    FreshnessCatalog.wasChecked, JsMap.has, up.
  destruct (JsMap.get Workspace.eq_dec w (Run._catalog s)); [reflexivity|].
  unfold loaded in Hloaded.
  unfold Run.getTime, Run.with_catalog, Run.with_detectorRuns,
    Run.with_dateReads. cbn.
  rewrite Hloaded, Hvalue. unfold Configuration.asLog. rewrite Hvalue.
  destruct value as [e|]; [destruct (RunLog.lastModified e)|]; reflexivity.
Qed.

Section OverAnswers.
Variable env : Env.t.
Variable project : Project.t.
Variable configuration : Configuration.t.
Hypothesis project_closed : Project.closed project.
Hypothesis all_answered :
  forall w, In w (Project.workspaces project) -> answers configuration w.

Lemma loaded_isFresh (w : Workspace.t) (s : Run.t) :
  loaded configuration s ->
  loaded configuration (snd (FreshnessCatalog.isFresh env w s)).
Proof. unfold loaded. now rewrite isFresh_previousState. Qed.

Lemma loaded_path (p : list Descriptor.t) (s : Run.t) :
  loaded configuration s -> loaded configuration (Run.with_path p s).
Proof. trivial. Qed.

Lemma loop_over_answers
    (recurse : Workspace.t -> WorkspaceReport.t -> M (bool * WorkspaceReport.t))
    (recurseE : Workspace.t -> WorkspaceReport.t -> E (bool * WorkspaceReport.t))
    (workspace : Workspace.t) :
  (forall w report s,
      In w (Project.workspaces project) -> loaded configuration s ->
      recurseE w report s = up (recurse w report s)) ->
  keeping (loaded configuration) recurse ->
  forall descriptors report s,
    loaded configuration s ->
    OverConfiguration.auditDependencies env project configuration recurseE
      workspace descriptors report s
    = up (WorkspaceAuditor.auditDependencies env project recurse workspace
            descriptors report s).
Proof.
  intros Hrec Hkeep.
  induction descriptors as [|d rest IH]; intros report s Hs.
  - reflexivity.
  - destruct (Project.tryWorkspaceByDescriptor project d) as [dw|] eqn:Hres.
    + destruct (in_dec Descriptor.eq_dec d (Run.path s)) as [Hon|Hoff].
      * rewrite (loop_cycle env project recurse workspace d rest report s dw
                   Hres Hon).
        rewrite <- (IH _ s Hs).
        cbn [OverConfiguration.auditDependencies]. rewrite Hres.
        unfold bindE, liftE.
        destruct (in_dec Descriptor.eq_dec d (Run.path s)); [|contradiction].
        reflexivity.
      * rewrite (loop_descend env project recurse workspace d rest report s dw
                   Hres Hoff).
        cbn [OverConfiguration.auditDependencies]. rewrite Hres.
        unfold bindE at 1. unfold liftE at 1.
        destruct (in_dec Descriptor.eq_dec d (Run.path s)); [contradiction|].
        unfold bindE at 1. unfold liftE at 1.
        unfold bindE at 1.
        assert (Hpush : loaded configuration
                          (Run.with_path (Run.path s ++ [d]) s)) by exact Hs.
        rewrite (Hrec dw _ _ (project_closed d dw Hres) Hpush).
        destruct (recurse dw _ _) as [[result s1]|] eqn:Hcall; [|reflexivity].
        cbn [up option_map fst snd].
        assert (Hs1 : loaded configuration s1)
          by exact (Hkeep _ _ _ _ _ Hcall Hpush).
        unfold bindE at 1. unfold liftE at 1.
        unfold bindE at 1. unfold liftE at 1.
        unfold FreshnessCatalog.wasChecked at 1.
        unfold bindE at 1.
        rewrite (isFresh_over_answers env configuration dw
                   (Run.with_path (removelast (Run.path s1)) s1) Hs1
                   (all_answered dw (project_closed d dw Hres))).
        cbn [up option_map fst snd]. cbv zeta.
        rewrite IH by (apply loaded_isFresh; exact Hs1).
        reflexivity.
    + rewrite (loop_skip env project recurse workspace d rest report s Hres).
      rewrite <- (IH _ s Hs).
      cbn [OverConfiguration.auditDependencies]. now rewrite Hres.
Qed.

Lemma auditDependencyWorkspace_over_answers (fuel : nat) :
  forall w report s,
    In w (Project.workspaces project) -> loaded configuration s ->
    OverConfiguration._auditDependencyWorkspace env project configuration
      fuel w report s
    = up (WorkspaceAuditor._auditDependencyWorkspace env project fuel w
            report s).
Proof.
  induction fuel as [|fuel IH]; intros w report s Hw Hs; [reflexivity|].
  rewrite audit_unfold.
  cbn [OverConfiguration._auditDependencyWorkspace].
  unfold bindE at 1. unfold liftE at 1.
  unfold FreshnessCatalog.wasChecked at 1.
  unfold bindE at 1.
  rewrite (isFresh_over_answers env configuration w s Hs (all_answered w Hw)).
  cbn [up option_map fst snd]. cbv zeta.
  unfold bindE at 1.
  rewrite (loop_over_answers
             (WorkspaceAuditor._auditDependencyWorkspace env project fuel)
             (OverConfiguration._auditDependencyWorkspace env project
                configuration fuel) w IH
             (auditDependencyWorkspace_keeps env project (loaded configuration)
                loaded_isFresh loaded_path fuel))
    by (apply loaded_isFresh; exact Hs).
  destruct (WorkspaceAuditor.auditDependencies _ _ _ _ _ _ _) as [[r s']|];
    reflexivity.
Qed.

(** The audit of a workspace over a configuration that answers for every
    workspace of the project is the audit over the log it holds. *)
Lemma audit_over_answers (fuel : nat) (w : Workspace.t) (s : Run.t) :
  In w (Project.workspaces project) -> loaded configuration s ->
  OverConfiguration.audit env project configuration fuel w s
  = up (WorkspaceAuditor.audit env project fuel w s).
Proof.
  intros Hw Hs.
  unfold OverConfiguration.audit, WorkspaceAuditor.audit, bindE, bind, liftE,
    retE, ret.
  rewrite (auditDependencyWorkspace_over_answers fuel w _ _ Hw
             (loaded_path [] s Hs)).
  destruct (WorkspaceAuditor._auditDependencyWorkspace _ _ _ _ _ _)
    as [[result s1]|]; reflexivity.
Qed.

End OverAnswers.

(** ** [ProjectAuditor] over the configuration of the project *)

Lemma auditWorkspaces_over_answers (env : Env.t) (project : Project.t)
    (targets : list string) (fuel : nat) :
  Project.closed project ->
  (forall w, In w (Project.workspaces project) ->
             answers (Project.configuration project) w) ->
  forall workspaces pendingAudits s,
    incl workspaces (Project.workspaces project) ->
    loaded (Project.configuration project) s ->
    ProjectAuditor.auditWorkspaces project targets
      (OverConfiguration.audit env project (Project.configuration project) fuel)
      workspaces pendingAudits s
    = up (Answered.auditWorkspaces env project targets fuel workspaces
            pendingAudits s).
Proof.
  intros Hclosed Hanswers.
  induction workspaces as [|w rest IH]; intros pending s Hincl Hs;
    [reflexivity|].
  assert (Hrest : incl rest (Project.workspaces project))
    by (intros e He; apply Hincl; now right).
  cbn [ProjectAuditor.auditWorkspaces Answered.auditWorkspaces].
  destruct (Workspace.eq_dec w (Project.topLevelWorkspace project));
    [exact (IH _ _ Hrest Hs)|].
  destruct (negb _); [exact (IH _ _ Hrest Hs)|].
  unfold bindE, bind.
  rewrite (audit_over_answers env project (Project.configuration project)
             Hclosed Hanswers fuel w s (Hincl w (or_introl eq_refl)) Hs).
  destruct (WorkspaceAuditor.audit env project fuel w s)
    as [[report s1]|] eqn:Haudit; [|reflexivity].
  cbn [up option_map fst snd]. apply (IH _ _ Hrest).
  exact (audit_keeps env project (loaded (Project.configuration project))
           (loaded_isFresh env (Project.configuration project))
           (loaded_path (Project.configuration project))
           fuel w s report s1 Haudit Hs).
Qed.

(** When the configuration of the project answers for every workspace, the
    audit in which every workspace is awaited is the audit over the log the
    configuration holds. *)
Lemma project_audit_over_answers (env : Env.t) (project : Project.t)
    (targets : list string)
    (interleaved : list Workspace.t -> E (Workspace.t -> WorkspaceReport.t))
    (fuel : nat) (s : Run.t) :
  Project.closed project ->
  (forall w, In w (Project.workspaces project) ->
             answers (Project.configuration project) w) ->
  ProjectAuditor.audit env project targets interleaved
    (ProjectAuditor.mkOptions true) fuel s
  = up (Answered.audit env project targets fuel s).
Proof.
  intros Hclosed Hanswers.
  unfold ProjectAuditor.audit, Answered.audit.
  cbn [ProjectAuditor.sequential]. unfold bindE at 1. unfold liftE at 1.
  unfold bind at 1. unfold bindE, retE.
  rewrite (auditWorkspaces_over_answers env project targets fuel Hclosed
             Hanswers) by (try (intros w Hw; exact Hw); reflexivity).
  unfold bind, ret.
  destruct (Answered.auditWorkspaces _ _ _ _ _ _ _) as [[pending s1]|];
    reflexivity.
Qed.

(** The audit of a workspace the catalog has no answer for, whose key the
    configuration does not hold, throws on the first lookup. *)
Lemma audit_over_throws (env : Env.t) (project : Project.t)
    (configuration : Configuration.t) (fuel : nat) (w : Workspace.t)
    (s : Run.t) (message : string) :
  JsMap.get Workspace.eq_dec w (Run._catalog s) = None ->
  configuration (Workspace.relativeCwd w ++ "#build")%string
  = Configuration.Throws message ->
  OverConfiguration.audit env project configuration (S fuel) w s
  = Some (Threw message, snd (Run.getTime env (Run.with_path [] s))).
Proof.
  intros Hmiss Hthrows.
  unfold OverConfiguration.audit.
  cbn [OverConfiguration._auditDependencyWorkspace].
  unfold bindE at 1. unfold liftE at 1.
  unfold bindE at 1. unfold bindE at 1. unfold liftE at 1.
  unfold FreshnessCatalog.wasChecked at 1. unfold bindE at 1.
  rewrite (isFresh_over_throws env configuration w (Run.with_path [] s) message
             Hmiss Hthrows).
  reflexivity.
Qed.

Lemma auditWorkspaces_over_throws (env : Env.t) (project : Project.t)
    (targets : list string) (fuel : nat) :
  forall workspaces (pendingAudits : ProjectAuditor.ProjectReport) s w,
    Run._catalog s = JsMap.empty _ _ ->
    (forall w, In w workspaces ->
               exists message,
                 Project.configuration project
                   (Workspace.relativeCwd w ++ "#build")%string
                 = Configuration.Throws message) ->
    In w workspaces ->
    w <> Project.topLevelWorkspace project ->
    In (Workspace.relativeCwd w) targets ->
    exists first message,
      In first workspaces
      /\ Project.configuration project
           (Workspace.relativeCwd first ++ "#build")%string
         = Configuration.Throws message
      /\ ProjectAuditor.auditWorkspaces project targets
           (OverConfiguration.audit env project (Project.configuration project)
              (S fuel))
           workspaces pendingAudits s
         = Some (Threw message, snd (Run.getTime env (Run.with_path [] s))).
Proof.
  induction workspaces as [|w0 rest IH];
    intros pending s w Hnew Hthrows Hw Hnot Htarget; [destruct Hw|].
  assert (Hrest : forall w, In w rest ->
                    exists message,
                      Project.configuration project
                        (Workspace.relativeCwd w ++ "#build")%string
                      = Configuration.Throws message)
    by (intros e He; apply Hthrows; now right).
  cbn [ProjectAuditor.auditWorkspaces].
  destruct (Workspace.eq_dec w0 (Project.topLevelWorkspace project)) as [Htop|N].
  - destruct Hw as [E|Hw]; [congruence|].
    destruct (IH pending s w Hnew Hrest Hw Hnot Htarget)
      as (first & message & Hin & Hm & Heq).
    exists first, message. split; [now right|]. now split.
  - unfold ProjectAuditor.targets_includes.
    destruct (in_dec string_dec (Workspace.relativeCwd w0) targets) as [Hin|Hout];
      cbn [negb].
    + destruct (Hthrows w0 (or_introl eq_refl)) as [message Hm].
      exists w0, message. split; [now left|]. split; [exact Hm|].
      unfold bindE.
      rewrite (audit_over_throws env project (Project.configuration project)
                 fuel w0 s message); [reflexivity | now rewrite Hnew | exact Hm].
    + destruct Hw as [E|Hw]; [subst w0; contradiction|].
      destruct (IH pending s w Hnew Hrest Hw Hnot Htarget)
        as (first & message & Hin & Hm & Heq).
      exists first, message. split; [now right|]. now split.
Qed.

(** C10.  [audit] hands the configuration of the project to the catalog
    where [loadPreviousState] takes the log of the previous run.  A
    configuration throws on a key that names no setting, and no setting is
    named ["<relativeCwd>#build"].  So the first lookup of the catalog
    throws, nothing catches it, and the audit is rejected: whenever some
    workspace of the project is not the top-level workspace and is named by
    the targets, the audit (with every workspace awaited, as by default)
    returns no report, where the claim has a report with that workspace
    among its keys.  It throws what the configuration throws for a
    workspace of the project. *)
Theorem project_audit_rejects_over_configuration :
  forall (env : Env.t) (project : Project.t) (targets : list string)
         (interleaved : list Workspace.t -> E (Workspace.t -> WorkspaceReport.t))
         (fuel : nat) (s : Run.t),
    (forall w, In w (Project.workspaces project) ->
               exists message,
                 Project.configuration project
                   (Workspace.relativeCwd w ++ "#build")%string
                 = Configuration.Throws message) ->
    forall w,
      In w (Project.workspaces project) ->
      w <> Project.topLevelWorkspace project ->
      In (Workspace.relativeCwd w) targets ->
      exists first message s',
        In first (Project.workspaces project)
        /\ Project.configuration project
             (Workspace.relativeCwd first ++ "#build")%string
           = Configuration.Throws message
        /\ ProjectAuditor.audit env project targets interleaved
             (ProjectAuditor.mkOptions true) (S fuel) s
           = Some (Threw message, s').
Proof.
  intros env project targets interleaved fuel s Hthrows w Hw Hnot Htarget.
  destruct (auditWorkspaces_over_throws env project targets fuel
              (Project.workspaces project) (JsMap.empty _ _)
              (FreshnessCatalog.loadPreviousState
                 (Configuration.asLog (Project.configuration project))
                 (FreshnessCatalog.create s))
              w eq_refl Hthrows Hw Hnot Htarget)
    as (first & message & Hin & Hm & Heq).
  exists first, message. eexists. split; [exact Hin|]. split; [exact Hm|].
  unfold ProjectAuditor.audit. cbn [ProjectAuditor.sequential].
  unfold bindE at 1. unfold liftE at 1. unfold bindE at 1.
  rewrite Heq. reflexivity.
Qed.

(** The sample project with a configuration as yarn builds it, audited for
    [a]: the claim has a report with the key [a]; the audit throws on the
    lookup of ["packages/a#build"]. *)
Lemma project_audit_rejects_over_configuration_witness :
  exists s',
    ProjectAuditor.audit Sample.env Sample.yarnProject ["packages/a"%string]
      Sample.interleaved (ProjectAuditor.mkOptions true) Sample.fuel
      Run.initial
    = Some (Threw "Invalid configuration key packages/a#build"%string, s').
Proof.
  destruct (project_audit_rejects_over_configuration Sample.env
              Sample.yarnProject ["packages/a"%string] Sample.interleaved
              6 Run.initial) with (w := Sample.a)
    as (first & message & s' & _ & _ & Heq).
  - intros w _. eexists. reflexivity.
  - vm_compute. tauto.
  - discriminate.
  - now left.
  - exists s'. change Sample.fuel with (S 6).
    assert (Hthrown : option_map fst
                        (ProjectAuditor.audit Sample.env Sample.yarnProject
                           ["packages/a"%string] Sample.interleaved
                           (ProjectAuditor.mkOptions true) (S 6) Run.initial)
                      = Some (Threw "Invalid configuration key packages/a#build"%string))
      by (vm_compute; reflexivity).
    rewrite Heq in Hthrown |- *. injection Hthrown as ->. reflexivity.
Defined.

(** ** Where the code departs from the specification *)

(** *** The children of a report share one key *)

Module Narrow.
Import WorkspaceReport.

(** At most one child, stored under [key]. *)
Definition oneKey (key : string) (r : WorkspaceReport.t) : Prop :=
  List.length (dependencies r) <= 1
  /\ forall k, In k (JsMap.keys (dependencies r)) -> k = key.

Definition allNarrow (r : WorkspaceReport.t) : Prop :=
  Forall (fun n => List.length (dependencies n) <= 1) (nodes r).

Definition childrenNarrow (r : WorkspaceReport.t) : Prop :=
  Forall (fun entry => allNarrow (snd entry)) (dependencies r).

End Narrow.

Lemma allNarrow_split (r : WorkspaceReport.t) :
  Narrow.allNarrow r
  <-> List.length (WorkspaceReport.dependencies r) <= 1
      /\ Narrow.childrenNarrow r.
Proof.
  unfold Narrow.allNarrow, Narrow.childrenNarrow.
  rewrite nodes_unfold, Forall_cons_iff, Forall_flat_map. reflexivity.
Qed.

Lemma set_dependency_narrow (key : string) (child r : WorkspaceReport.t) :
  Narrow.oneKey key r -> Narrow.childrenNarrow r -> Narrow.allNarrow child ->
  Narrow.oneKey key (WorkspaceReport.set_dependency key child r)
  /\ Narrow.childrenNarrow (WorkspaceReport.set_dependency key child r).
Proof.
  intros [Hlen Hkey] Hc Hchild. split.
  - unfold Narrow.oneKey. cbn.
    destruct (set_one_key string (WorkspaceReport.t) string_dec key child
                (WorkspaceReport.dependencies r) Hkey Hlen) as [H1 H2].
    split; [lia | exact H2].
  - unfold Narrow.childrenNarrow. cbn. now apply Forall_values_set.
Qed.

Lemma settleChild_dependencies (b c f : bool) (r : WorkspaceReport.t) :
  WorkspaceReport.dependencies (settleChild b c f r)
  = WorkspaceReport.dependencies r.
Proof. unfold settleChild. destruct b, f; reflexivity. Qed.

Section Narrowing.
Variable env : Env.t.
Variable project : Project.t.

Definition narrowing
    (recurse : Workspace.t -> WorkspaceReport.t -> M (bool * WorkspaceReport.t))
    : Prop :=
  forall workspace report s result s',
    recurse workspace report s = Some (result, s') ->
    Narrow.oneKey (Workspace.relativeCwd workspace) report ->
    Narrow.childrenNarrow report ->
    Narrow.oneKey (Workspace.relativeCwd workspace) (snd result)
    /\ Narrow.childrenNarrow (snd result).

Lemma loop_narrows
    (recurse : Workspace.t -> WorkspaceReport.t -> M (bool * WorkspaceReport.t))
    (workspace : Workspace.t) :
  narrowing recurse ->
  forall descriptors report s report' s',
    WorkspaceAuditor.auditDependencies env project recurse workspace
      descriptors report s = Some (report', s') ->
    Narrow.oneKey (Workspace.relativeCwd workspace) report ->
    Narrow.childrenNarrow report ->
    Narrow.oneKey (Workspace.relativeCwd workspace) report'
    /\ Narrow.childrenNarrow report'.
Proof.
  intros Hrec.
  induction descriptors as [|d rest IH]; intros report s report' s' H Hk Hc.
  - rewrite loop_done in H. injection H as <- <-. now split.
  - destruct (Project.tryWorkspaceByDescriptor project d) as [dw|] eqn:Hres.
    + destruct (in_dec Descriptor.eq_dec d (Run.path s)) as [Hon|Hoff].
      * rewrite (loop_cycle env project recurse workspace d rest report s dw
                   Hres Hon) in H.
        destruct (set_dependency_narrow (Workspace.relativeCwd workspace)
                    (cycleLeaf dw) report Hk Hc) as [Hk' Hc'].
        { repeat constructor. }
        exact (IH _ _ _ _ H Hk' Hc').
      * rewrite (loop_descend env project recurse workspace d rest report s dw
                   Hres Hoff) in H.
        destruct (recurse dw _ _) as [[result s1]|] eqn:Hcall; [|discriminate].
        cbn zeta in H.
        destruct (Hrec _ _ _ _ _ Hcall) as [[Hlen1 _] Hc1].
        { split; [cbn; lia | intros k []]. }
        { constructor. }
        pose proof (proj2 (proj2 (proj2 (proj2
                      (settleParent_fields (fst result)
                         (fst (FreshnessCatalog.isFresh env dw
                                 (Run.with_path (removelast (Run.path s1)) s1)))
                         report))))) as Hsame.
        match type of H with
        | WorkspaceAuditor.auditDependencies _ _ _ _ _
            (WorkspaceReport.set_dependency ?key ?child ?parent) _ = _ =>
            destruct (set_dependency_narrow key child parent) as [Hk' Hc']
        end.
        { destruct Hk as [Hlen Hkey]. split; now rewrite Hsame. }
        { unfold Narrow.childrenNarrow. now rewrite Hsame. }
        { apply allNarrow_split. unfold Narrow.childrenNarrow.
          rewrite settleChild_dependencies. now split. }
        exact (IH _ _ _ _ H Hk' Hc').
    + rewrite (loop_skip env project recurse workspace d rest report s Hres) in H.
      exact (IH _ _ _ _ H Hk Hc).
Qed.

Lemma auditDependencyWorkspace_narrows (fuel : nat) :
  narrowing (WorkspaceAuditor._auditDependencyWorkspace env project fuel).
Proof.
  induction fuel as [|fuel IH]; intros workspace report s result s' H Hk Hc;
    [discriminate|].
  rewrite audit_unfold in H. cbn zeta in H.
  destruct (WorkspaceAuditor.auditDependencies _ _ _ _ _ _ _)
    as [[report' s1]|] eqn:Hloop; [|discriminate].
  injection H as <- <-. cbn [snd].
  apply (loop_narrows _ workspace IH) in Hloop; [exact Hloop | |].
  - destruct (fst (FreshnessCatalog.isFresh env workspace s)); exact Hk.
  - destruct (fst (FreshnessCatalog.isFresh env workspace s)); exact Hc.
Qed.

(** In every report of an audit, no node has more than one child,
    however many dependencies its workspace has in the project. *)
Lemma audit_reports_hold_one_child (fuel : nat) (workspace : Workspace.t)
    (s : Run.t) (report : WorkspaceReport.t) (s' : Run.t) :
  WorkspaceAuditor.audit env project fuel workspace s = Some (report, s') ->
  forall r, In r (WorkspaceReport.nodes report) ->
            List.length (WorkspaceReport.dependencies r) <= 1.
Proof.
  unfold WorkspaceAuditor.audit, bind, ret. intros H.
  destruct (WorkspaceAuditor._auditDependencyWorkspace _ _ _ _ _ _)
    as [[result s1]|] eqn:Hcall; [|discriminate].
  injection H as <- <-.
  destruct (auditDependencyWorkspace_narrows fuel _ _ _ _ _ Hcall)
    as [[Hlen _] Hc].
  - split; [cbn; lia | intros k []].
  - constructor.
  - apply Forall_forall. fold (Narrow.allNarrow
      (WorkspaceReport.set_isFresh (Some (fst result)) (snd result))).
    apply allNarrow_split. split; [exact Hlen | exact Hc].
Qed.

End Narrowing.

(** C1, at the sample workspace [a].  Two of its descriptors resolve to
    workspaces of the project, [b] and [c], and the specification wants a
    child report for each; the audit leaves a map with one entry, stored
    under the relative path of [a] itself (line 130 keys the entry by the
    workspace being audited, not by the dependency), and the entry is the
    report of [c], the dependency visited last. *)
Theorem dependencies_map_keeps_last_child_only :
  Project.tryWorkspaceByDescriptor Sample.project Sample.a_b = Some Sample.b
  /\ Project.tryWorkspaceByDescriptor Sample.project Sample.a_c = Some Sample.c
  /\ option_map
       (fun r =>
          map (fun entry =>
                 (fst entry,
                  Workspace.relativeCwd (WorkspaceReport.workspace (snd entry))))
            (WorkspaceReport.dependencies r))
       (Sample.reportOf Sample.a)
     = Some [("packages/a"%string, "packages/c"%string)].
Proof. repeat split; vm_compute; reflexivity. Qed.

(** C2, at the sample project with the target [a]: the files of [a] and of
    [c] are as the log has them, a file of [b] is newer, and [a] lists [b]
    before [c].  The report of [a] has [dependenciesWereFresh = false] and
    the inspector emits [a], but the only child left in the map of [a] is
    the fresh report of [c]: no instruction is emitted for [b]. *)
Theorem diamond_emits_no_instruction_for_stale_dependency :
  FreshnessDetector.isFresh Sample.env Sample.a 100 = true
  /\ FreshnessDetector.isFresh Sample.env Sample.b 100 = false
  /\ FreshnessDetector.isFresh Sample.env Sample.c 100 = true
  /\ option_map WorkspaceReport.dependenciesWereFresh (Sample.reportOf Sample.a)
     = Some (Some false)
  /\ option_map Sample.units (Sample.instructionsFor ["packages/a"%string])
     = Some ["packages/a"%string].
Proof. repeat split; vm_compute; reflexivity. Qed.

(** C3, at the sample workspace [d], whose one dependency [b] has a changed
    file and no dependency of its own.  The nested report of [b] has no
    child, so all its dependencies were fresh, yet line 150 has overwritten
    its [dependenciesWereFresh] with the verdict of the whole subtree,
    [false]. *)
Theorem nested_report_has_dependenciesWereFresh_overwritten :
  option_map
    (fun r => map (fun entry => Sample.summarize (snd entry))
                (WorkspaceReport.dependencies r))
    (Sample.reportOf Sample.d)
  = Some [Sample.Summary "packages/b" (Some false) (Some false) (Some false)
            (Some false) (Some true) []].
Proof. vm_compute. reflexivity. Qed.

(* ================================================================== *)
(** * Further properties of the code *)

(** ** [FreshnessDetector]: what the scan returns *)

(** X1.  The scan of a folder is never negative, is at least the
    modification time of every file in the folder or in a folder below it,
    and is 0 or the modification time of one of these files. *)
Theorem scan_is_newest_file_time :
  forall folder : Fs.folder,
    let scan := FreshnessDetector._getLastModifiedForFolder folder in
    (0 <= scan)%Z
    /\ (forall t, In t (Fs.mtimes folder) -> (t <= scan)%Z)
    /\ (scan = 0%Z \/ In scan (Fs.mtimes folder)).
Proof.
  intros folder scan. unfold scan. rewrite scan_newest.
  split; [apply newest_nonneg|]. split; [apply newest_bounds|].
  apply newest_attained.
Qed.

(** X2.  The detector at the edges: a file anywhere under the source
    directory that is newer than the baseline makes the workspace stale; so
    does a negative baseline; and a source directory that holds no file at
    all is fresh against the baseline 0 and against no other. *)
Theorem detector_edge_cases :
  forall (env : Env.t) (workspace : Workspace.t) (lastModified : Z),
    let source := Env.xfs env (FreshnessDetector.sourceDirectory workspace) in
    (forall t, In t (Fs.mtimes source) -> (lastModified < t)%Z ->
               FreshnessDetector.isFresh env workspace lastModified = false)
    /\ ((lastModified < 0)%Z ->
        FreshnessDetector.isFresh env workspace lastModified = false)
    /\ (Fs.mtimes source = [] ->
        FreshnessDetector.isFresh env workspace lastModified
        = (lastModified =? 0)%Z).
Proof.
  intros env workspace lastModified source.
  rewrite detector_isFresh_eqb. unfold FreshnessDetector.timeSource.
  fold source. rewrite scan_newest. repeat split.
  - intros t Ht Hlt. apply Z.eqb_neq.
    pose proof (newest_bounds _ _ Ht). lia.
  - intros Hneg. apply Z.eqb_neq.
    pose proof (newest_nonneg (Fs.mtimes source)). lia.
  - intros ->. apply Z.eqb_sym.
Qed.

(** ** [FreshnessCatalog]: the baseline, and what the catalog knows *)

(** X3.  A first call of [isFresh] for a workspace measures the scan
    against the time the log holds under ["<relativeCwd>#build"]; when no
    log was loaded or the log has no such entry, against the clock as read
    by the call; when the entry has no time, against a second reading of the
    clock.  The call reads the clock once, or twice in the last case. *)
Theorem catalog_baseline :
  forall (env : Env.t) (workspace : Workspace.t) (s : Run.t),
    JsMap.get Workspace.eq_dec workspace (Run._catalog s) = None ->
    let key := (Workspace.relativeCwd workspace ++ "#build")%string in
    let entry :=
      match Run._previousState s with
      | Some log => log key
      | None => None
      end in
    let answer := FreshnessCatalog.isFresh env workspace s in
    let scan := FreshnessDetector.timeSource env workspace in
    match entry with
    | Some (RunLog.mkEntry (Some t)) =>
        fst answer = (scan =? t)%Z
        /\ Run.dateReads (snd answer) = S (Run.dateReads s)
    | Some (RunLog.mkEntry None) =>
        fst answer = (scan =? Env.clock env (S (Run.dateReads s)))%Z
        /\ Run.dateReads (snd answer) = S (S (Run.dateReads s))
    | None =>
        fst answer = (scan =? Env.clock env (Run.dateReads s))%Z
        /\ Run.dateReads (snd answer) = S (Run.dateReads s)
    end.
Proof.
  intros env workspace s Hmiss key entry answer scan.
  unfold answer, entry, key, scan, FreshnessCatalog.isFresh,
    FreshnessCatalog.isFresh_enter, FreshnessCatalog.wasChecked, JsMap.has.
  rewrite Hmiss.
  unfold Run.getTime, Run.with_catalog, Run.with_detectorRuns,
    Run.with_dateReads. cbn.
  destruct (Run._previousState s) as [log|]; cbn.
  - destruct (log _) as [[[t|]]|]; cbn; rewrite detector_isFresh_eqb; now split.
  - rewrite detector_isFresh_eqb. now split.
Qed.

(** The sample workspace [b] on a new catalog, with the log loaded, with
    no log, and with a log whose entry for [b] has no time. *)
Lemma catalog_baseline_witness :
  fst (FreshnessCatalog.isFresh Sample.env Sample.b Sample.start)
  = (FreshnessDetector.timeSource Sample.env Sample.b =? 100)%Z
  /\ fst (FreshnessCatalog.isFresh Sample.env Sample.b Run.initial)
     = (FreshnessDetector.timeSource Sample.env Sample.b =? 1000)%Z
  /\ fst (FreshnessCatalog.isFresh Sample.env Sample.b
            (FreshnessCatalog.loadPreviousState
               (fun _ => Some (RunLog.mkEntry None)) Run.initial))
     = (FreshnessDetector.timeSource Sample.env Sample.b =? 1001)%Z.
Proof.
  split; [|split].
  - exact (proj1 (catalog_baseline Sample.env Sample.b Sample.start eq_refl)).
  - exact (proj1 (catalog_baseline Sample.env Sample.b Run.initial eq_refl)).
  - exact (proj1 (catalog_baseline Sample.env Sample.b
                    (FreshnessCatalog.loadPreviousState
                       (fun _ => Some (RunLog.mkEntry None)) Run.initial)
                    eq_refl)).
Defined.

(** The workspaces a list of calls asks [isFresh] for. *)
Definition asked (cs : list CatalogUse.call) : list Workspace.t :=
  flat_map (fun c => match c with
                     | CatalogUse.IsFresh w => [w]
                     | CatalogUse.WasChecked _ => []
                     end) cs.

Lemma in_asked (cs : list CatalogUse.call) (w : Workspace.t) :
  In w (asked cs) <-> In (CatalogUse.IsFresh w) cs.
Proof.
  unfold asked. rewrite in_flat_map. split.
  - intros ([w'|w'] & Hc & Hw); cbn in Hw; [|tauto].
    destruct Hw as [->|[]]. exact Hc.
  - intros H. exists (CatalogUse.IsFresh w). split; [exact H | now left].
Qed.

(** The catalog knows the workspaces of [done], and the detector ran once
    on each of them and on no other. *)
Definition tracks (done : list Workspace.t) (s : Run.t) : Prop :=
  NoDup (Run.detectorRuns s)
  /\ (forall w, In w (Run.detectorRuns s) <-> In w done)
  /\ (forall w, known w s <-> In w done).

Lemma perform_tracks (env : Env.t) (c : CatalogUse.call)
    (done : list Workspace.t) (s : Run.t) :
  tracks done s ->
  tracks (done ++ asked [c]) (snd (CatalogUse.perform env c s)).
Proof.
  intros (Hnd & Hruns & Hknown). destruct c as [w|w]; cbn.
  - destruct (isFresh_cases env w s) as [(b & E & ->)|(E & b & n & ->)]; cbn.
    + assert (Hw : In w done) by (apply Hknown; now exists b).
      split; [exact Hnd|]. split; intros w0; rewrite in_app_iff; cbn.
      * split; [intros H0; left; apply Hruns, H0|].
        intros [H0|[E0|[]]]; [apply Hruns, H0 | subst w0; apply Hruns, Hw].
      * split; [intros H0; left; apply Hknown, H0|].
        intros [H0|[E0|[]]]; [apply Hknown, H0 | subst w0; apply Hknown, Hw].
    + assert (Hw : ~ In w done).
      { intros H. apply Hknown in H. destruct H as [v Hv]. congruence. }
      split; [|split].
      * cbn [Run.detectorRuns].
        apply NoDup_app; [exact Hnd | repeat constructor; cbn; tauto|].
        intros a Ha [E'|[]]. subst a. apply Hw, Hruns, Ha.
      * intros w0. change (asked [CatalogUse.IsFresh w]) with [w].
        cbn [Run.detectorRuns]. rewrite !in_app_iff.
        pose proof (Hruns w0). tauto.
      * intros w0. rewrite in_app_iff. unfold known. cbn.
        destruct (Workspace.eq_dec w w0) as [E'|N].
        -- subst w0. rewrite get_set_same. split; [now right; left | now exists b].
        -- rewrite get_set_other by assumption.
           pose proof (Hknown w0) as Hk0. unfold known in Hk0.
           intuition congruence.
  - change (asked [CatalogUse.WasChecked w]) with (@nil Workspace.t).
    rewrite app_nil_r. split; [exact Hnd|]. split; assumption.
Qed.

Lemma performAll_tracks (env : Env.t) (cs : list CatalogUse.call) :
  forall (done : list Workspace.t) (s : Run.t),
    tracks done s ->
    tracks (done ++ asked cs) (CatalogUse.performAll env cs s).
Proof.
  unfold CatalogUse.performAll.
  induction cs as [|c cs IH]; intros done s H; cbn [fold_left].
  - cbn. now rewrite app_nil_r.
  - replace (asked (c :: cs)) with (asked [c] ++ asked cs)
      by (unfold asked; cbn [flat_map]; now rewrite app_nil_r).
    rewrite app_assoc. apply IH, perform_tracks, H.
Qed.

(** X4.  On a new catalog, after any calls made one after the other,
    [wasChecked] answers [true] for exactly the workspaces [isFresh] was
    called for, and the detector has run exactly once on each of them and
    never on another. *)
Theorem catalog_knows_what_was_asked :
  forall (env : Env.t) (cs : list CatalogUse.call) (log : option RunLog.t)
         (s : Run.t) (workspace : Workspace.t),
    let s' := CatalogUse.performAll env cs (CatalogUse.fresh log s) in
    (fst (FreshnessCatalog.wasChecked workspace s') = true
       <-> In (CatalogUse.IsFresh workspace) cs)
    /\ CatalogUse.detections workspace s'
       = if fst (FreshnessCatalog.wasChecked workspace s') then 1 else 0.
Proof.
  intros env cs log s workspace s'.
  destruct (performAll_tracks env cs [] (CatalogUse.fresh log s))
    as (Hnd & Hruns & Hknown).
  { split; [constructor|]. split; intros w; cbn; [tauto|].
    split; [intros [v Hv]; discriminate | intros []]. }
  cbn [app] in *. fold s' in Hnd, Hruns, Hknown.
  assert (Hchecked : fst (FreshnessCatalog.wasChecked workspace s') = true
                     <-> In workspace (asked cs)).
  { rewrite <- Hknown. unfold known. cbn. unfold JsMap.has.
    destruct (JsMap.get Workspace.eq_dec workspace (Run._catalog s'));
      split; try congruence; eauto. intros [v Hv]. discriminate. }
  split; [now rewrite Hchecked, in_asked|].
  unfold CatalogUse.detections.
  destruct (fst (FreshnessCatalog.wasChecked workspace s')).
  - apply (proj1 (NoDup_count_occ' Workspace.eq_dec _) Hnd).
    apply Hruns, Hchecked. reflexivity.
  - apply count_occ_not_In. intros H. apply Hruns, Hchecked in H. discriminate.
Qed.

(** ** [WorkspaceAuditor]: what the loop leaves alone *)

Lemma settleChild_fields (b c f : bool) (r : WorkspaceReport.t) :
  WorkspaceReport.workspace (settleChild b c f r) = WorkspaceReport.workspace r
  /\ WorkspaceReport.loopsBackToParent (settleChild b c f r)
     = WorkspaceReport.loopsBackToParent r
  /\ WorkspaceReport.filesWereFresh (settleChild b c f r) = Some f
  /\ WorkspaceReport.fileFreshnessFromCache (settleChild b c f r) = Some c
  /\ WorkspaceReport.dependenciesWereFresh (settleChild b c f r) = Some b.
Proof. unfold settleChild. destruct b, f; cbn; repeat split. Qed.

Lemma settleParent_workspace (b f : bool) (r : WorkspaceReport.t) :
  WorkspaceReport.workspace (settleParent b f r) = WorkspaceReport.workspace r
  /\ WorkspaceReport.fileFreshnessFromCache (settleParent b f r)
     = WorkspaceReport.fileFreshnessFromCache r.
Proof. unfold settleParent. destruct b, f; cbn; split; reflexivity. Qed.

(** The verdict on the dependencies only ever goes from [true] to
    [false]. *)
Lemma settleParent_verdict (b f : bool) (r : WorkspaceReport.t) :
  WorkspaceReport.dependenciesWereFresh (settleParent b f r)
  = if b && f then WorkspaceReport.dependenciesWereFresh r else Some false.
Proof. unfold settleParent. destruct b, f; reflexivity. Qed.

Section LoopFields.
Variable env : Env.t.
Variable project : Project.t.
Variable recurse :
  Workspace.t -> WorkspaceReport.t -> M (bool * WorkspaceReport.t).
Variable workspace : Workspace.t.

(** The loop assigns to [dependenciesWereFresh] and to the map, and to
    nothing else of the report it is given. *)
Lemma loop_fields :
  forall descriptors report s report' s',
    WorkspaceAuditor.auditDependencies env project recurse workspace
      descriptors report s = Some (report', s') ->
    WorkspaceReport.workspace report' = WorkspaceReport.workspace report
    /\ WorkspaceReport.isFresh report' = WorkspaceReport.isFresh report
    /\ WorkspaceReport.loopsBackToParent report'
       = WorkspaceReport.loopsBackToParent report
    /\ WorkspaceReport.filesWereFresh report'
       = WorkspaceReport.filesWereFresh report
    /\ WorkspaceReport.fileFreshnessFromCache report'
       = WorkspaceReport.fileFreshnessFromCache report
    /\ (WorkspaceReport.dependenciesWereFresh report'
        = WorkspaceReport.dependenciesWereFresh report
        \/ WorkspaceReport.dependenciesWereFresh report' = Some false).
Proof.
  induction descriptors as [|d rest IH]; intros report s report' s' H.
  - rewrite loop_done in H. injection H as <- <-. repeat split. now left.
  - destruct (Project.tryWorkspaceByDescriptor project d) as [dw|] eqn:Hres.
    + destruct (in_dec Descriptor.eq_dec d (Run.path s)) as [Hon|Hoff].
      * rewrite (loop_cycle env project recurse workspace d rest report s dw
                   Hres Hon) in H.
        exact (IH _ _ _ _ H).
      * rewrite (loop_descend env project recurse workspace d rest report s dw
                   Hres Hoff) in H.
        destruct (recurse dw _ _) as [[result s1]|]; [|discriminate].
        cbn zeta in H. apply IH in H. cbn in H.
        destruct H as (Hw & Hi & Hl & Hf & Hc & Hd).
        destruct (settleParent_fields (fst result)
                    (fst (FreshnessCatalog.isFresh env dw
                            (Run.with_path (removelast (Run.path s1)) s1)))
                    report) as (_ & Pf & Pi & Pl & _).
        destruct (settleParent_workspace (fst result)
                    (fst (FreshnessCatalog.isFresh env dw
                            (Run.with_path (removelast (Run.path s1)) s1)))
                    report) as (Pw & Pc).
        rewrite Pw in Hw. rewrite Pi in Hi. rewrite Pl in Hl.
        rewrite Pf in Hf. rewrite Pc in Hc.
        repeat split; try assumption.
        rewrite settleParent_verdict in Hd.
        destruct (fst result && _); tauto.
    + rewrite (loop_skip env project recurse workspace d rest report s Hres) in H.
      exact (IH _ _ _ _ H).
Qed.

(** Descriptors that resolve to no workspace of the project leave no
    trace. *)
Lemma loop_ignores_unresolved :
  forall descriptors report s,
    WorkspaceAuditor.auditDependencies env project recurse workspace
      descriptors report s
    = WorkspaceAuditor.auditDependencies env project recurse workspace
        (filter (fun d =>
                   match Project.tryWorkspaceByDescriptor project d with
                   | Some _ => true
                   | None => false
                   end) descriptors)
        report s.
Proof.
  induction descriptors as [|d rest IH]; intros report s; [reflexivity|].
  cbn [filter].
  destruct (Project.tryWorkspaceByDescriptor project d) as [dw|] eqn:Hres.
  - destruct (in_dec Descriptor.eq_dec d (Run.path s)) as [Hon|Hoff].
    + rewrite !(loop_cycle env project recurse workspace d _ report s dw
                  Hres Hon).
      apply IH.
    + rewrite !(loop_descend env project recurse workspace d _ report s dw
                  Hres Hoff).
      destruct (recurse dw _ _) as [[result s1]|]; [|reflexivity].
      apply IH.
  - rewrite (loop_skip env project recurse workspace d rest report s Hres).
    apply IH.
Qed.

End LoopFields.

(** X5.  Dependencies outside the project are ignored: the loop over the
    descriptors of a workspace gives the report and the state that the loop
    over the descriptors that resolve to a workspace of the project gives,
    whatever the report and the state it starts from. *)
Theorem external_dependencies_are_ignored :
  forall (env : Env.t) (project : Project.t) (fuel : nat)
         (workspace : Workspace.t) (descriptors : list Descriptor.t)
         (report : WorkspaceReport.t) (s : Run.t),
    WorkspaceAuditor.auditDependencies env project
      (WorkspaceAuditor._auditDependencyWorkspace env project fuel)
      workspace descriptors report s
    = WorkspaceAuditor.auditDependencies env project
        (WorkspaceAuditor._auditDependencyWorkspace env project fuel)
        workspace
        (filter (fun d =>
                   match Project.tryWorkspaceByDescriptor project d with
                   | Some _ => true
                   | None => false
                   end) descriptors)
        report s.
Proof.
  intros env project fuel workspace descriptors report s.
  apply loop_ignores_unresolved.
Qed.

(** ** [WorkspaceAuditor]: the path is a stack *)

Section PathDiscipline.
Variable env : Env.t.
Variable project : Project.t.

Definition restoring
    (recurse : Workspace.t -> WorkspaceReport.t -> M (bool * WorkspaceReport.t))
    : Prop :=
  forall workspace report s result s',
    recurse workspace report s = Some (result, s') ->
    Run.path s' = Run.path s.

Lemma loop_restores
    (recurse : Workspace.t -> WorkspaceReport.t -> M (bool * WorkspaceReport.t))
    (workspace : Workspace.t) :
  restoring recurse ->
  forall descriptors report s report' s',
    WorkspaceAuditor.auditDependencies env project recurse workspace
      descriptors report s = Some (report', s') ->
    Run.path s' = Run.path s.
Proof.
  intros Hrec.
  induction descriptors as [|d rest IH]; intros report s report' s' H.
  - rewrite loop_done in H. now injection H as _ <-.
  - destruct (Project.tryWorkspaceByDescriptor project d) as [dw|] eqn:Hres.
    + destruct (in_dec Descriptor.eq_dec d (Run.path s)) as [Hon|Hoff].
      * rewrite (loop_cycle env project recurse workspace d rest report s dw
                   Hres Hon) in H.
        exact (IH _ _ _ _ H).
      * rewrite (loop_descend env project recurse workspace d rest report s dw
                   Hres Hoff) in H.
        destruct (recurse dw _ _) as [[result s1]|] eqn:Hcall; [|discriminate].
        cbn zeta in H. apply IH in H. rewrite H, isFresh_path. cbn.
        rewrite (Hrec _ _ _ _ _ Hcall). cbn. apply removelast_last.
    + rewrite (loop_skip env project recurse workspace d rest report s Hres) in H.
      exact (IH _ _ _ _ H).
Qed.

Lemma auditDependencyWorkspace_restores (fuel : nat) :
  restoring (WorkspaceAuditor._auditDependencyWorkspace env project fuel).
Proof.
  induction fuel as [|fuel IH]; intros workspace report s result s' H;
    [discriminate|].
  rewrite audit_unfold in H. cbn zeta in H.
  destruct (WorkspaceAuditor.auditDependencies _ _ _ _ _ _ _)
    as [[report' s1]|] eqn:Hloop; [|discriminate].
  injection H as _ <-.
  rewrite (loop_restores _ workspace IH _ _ _ _ _ Hloop). apply isFresh_path.
Qed.

End PathDiscipline.

(** X6.  The path is used as a stack: whenever
    [_auditDependencyWorkspace] returns, the path holds the descriptors it
    held when the call was made, in the same order; an audit ends with an
    empty path. *)
Theorem path_is_restored :
  forall (env : Env.t) (project : Project.t) (fuel : nat)
         (workspace : Workspace.t) (s : Run.t),
    (forall report result s',
        WorkspaceAuditor._auditDependencyWorkspace env project fuel workspace
          report s = Some (result, s') ->
        Run.path s' = Run.path s)
    /\ (forall report s',
           WorkspaceAuditor.audit env project fuel workspace s
           = Some (report, s') ->
           Run.path s' = []).
Proof.
  intros env project fuel workspace s. split.
  - intros report result s' H.
    exact (auditDependencyWorkspace_restores env project fuel _ _ _ _ _ H).
  - unfold WorkspaceAuditor.audit, bind, ret. intros report s' H.
    destruct (WorkspaceAuditor._auditDependencyWorkspace _ _ _ _ _ _)
      as [[result s1]|] eqn:Hcall; [|discriminate].
    injection H as _ <-.
    exact (auditDependencyWorkspace_restores env project fuel _ _ _ _ _ Hcall).
Qed.

(** The audit of the sample workspace [x], started with a path that holds
    a descriptor: the call returns with that path; the audit ends with an
    empty one. *)
Lemma path_is_restored_witness :
  (exists result s',
      WorkspaceAuditor._auditDependencyWorkspace Sample.env Sample.project
        Sample.fuel Sample.x (WorkspaceReport.create Sample.x)
        (Run.with_path [Sample.a_b] Sample.start) = Some (result, s')
      /\ Run.path s' = [Sample.a_b])
  /\ (exists report s',
         WorkspaceAuditor.audit Sample.env Sample.project Sample.fuel Sample.x
           (Run.with_path [Sample.a_b] Sample.start) = Some (report, s')
         /\ Run.path s' = []).
Proof.
  pose proof (path_is_restored Sample.env Sample.project Sample.fuel Sample.x
                (Run.with_path [Sample.a_b] Sample.start)) as [Hcall Haudit].
  split.
  - destruct (WorkspaceAuditor._auditDependencyWorkspace Sample.env
                Sample.project Sample.fuel Sample.x
                (WorkspaceReport.create Sample.x)
                (Run.with_path [Sample.a_b] Sample.start))
      as [[result s']|] eqn:Heq; [|vm_compute in Heq; discriminate].
    exists result, s'. split; [reflexivity|].
    exact (Hcall _ _ _ Heq).
  - destruct (WorkspaceAuditor.audit Sample.env Sample.project Sample.fuel
                Sample.x (Run.with_path [Sample.a_b] Sample.start))
      as [[report s']|] eqn:Heq; [|vm_compute in Heq; discriminate].
    exists report, s'. split; [reflexivity|].
    exact (Haudit _ _ eq_refl).
Defined.

(** ** [WorkspaceAuditor]: what the reports record *)

Module Track.
Import WorkspaceReport.

(** The reports below a report. *)
Definition nested (r : WorkspaceReport.t) : list WorkspaceReport.t :=
  flat_map (fun entry => nodes (snd entry)) (dependencies r).

(** [filesWereFresh] is the answer the catalog holds for the workspace of
    the report. *)
Definition answered (s : Run.t) (r : WorkspaceReport.t) : Prop :=
  exists f : bool,
    filesWereFresh r = Some f
    /\ JsMap.get Workspace.eq_dec (workspace r) (Run._catalog s) = Some f.

(** A report below the root: a cycle leaf, or a report marked as no cycle
    whose file verdict came from the catalog. *)
Definition good (s : Run.t) (r : WorkspaceReport.t) : Prop :=
  loopsBackToParent r = Some true
  \/ (loopsBackToParent r = Some false
      /\ fileFreshnessFromCache r = Some true
      /\ answered s r).

End Track.

Lemma good_extends (s s' : Run.t) (r : WorkspaceReport.t) :
  Shape.extends s s' -> Track.good s r -> Track.good s' r.
Proof.
  intros Hext [Hl|(Hl & Hc & f & Hf & Hg)]; [now left|].
  right. repeat split; try assumption. exists f. split; [exact Hf|].
  apply Hext, Hg.
Qed.

Lemma nested_set_dependency (P : WorkspaceReport.t -> Prop) (key : string)
    (child r : WorkspaceReport.t) :
  Forall P (Track.nested r) -> Forall P (WorkspaceReport.nodes child) ->
  Forall P (Track.nested (WorkspaceReport.set_dependency key child r)).
Proof.
  unfold Track.nested. cbn. rewrite !Forall_flat_map.
  apply (Forall_values_set (fun v => Forall P (WorkspaceReport.nodes v))).
Qed.

Lemma nodes_nested (r : WorkspaceReport.t) :
  WorkspaceReport.nodes r = r :: Track.nested r.
Proof. apply nodes_unfold. Qed.

(** The fields of the report that a call of [_auditDependencyWorkspace]
    returns. *)
Lemma auditDependencyWorkspace_fields (env : Env.t) (project : Project.t)
    (fuel : nat) (workspace : Workspace.t) (report : WorkspaceReport.t)
    (s : Run.t) (result : bool * WorkspaceReport.t) (s' : Run.t) :
  WorkspaceAuditor._auditDependencyWorkspace env project fuel workspace
    report s = Some (result, s') ->
  WorkspaceReport.workspace (snd result) = WorkspaceReport.workspace report
  /\ WorkspaceReport.loopsBackToParent (snd result)
     = WorkspaceReport.loopsBackToParent report
  /\ WorkspaceReport.fileFreshnessFromCache (snd result)
     = Some (JsMap.has Workspace.eq_dec workspace (Run._catalog s))
  /\ WorkspaceReport.filesWereFresh (snd result)
     = Some (fst (FreshnessCatalog.isFresh env workspace s))
  /\ fst result = WorkspaceAuditor.verdict (snd result)
  /\ (WorkspaceReport.dependenciesWereFresh (snd result) = Some true
      \/ WorkspaceReport.dependenciesWereFresh (snd result) = Some false).
Proof.
  destruct fuel as [|fuel]; intros H; [discriminate|].
  rewrite audit_unfold in H. cbn zeta in H.
  destruct (WorkspaceAuditor.auditDependencies _ _ _ _ _ _ _)
    as [[report' s1]|] eqn:Hloop; [|discriminate].
  injection H as <- <-. cbn [fst snd].
  apply loop_fields in Hloop.
  destruct Hloop as (Hw & _ & Hl & Hf & Hc & Hd).
  rewrite Hw, Hl, Hf, Hc.
  destruct (fst (FreshnessCatalog.isFresh env workspace s)); cbn;
    repeat split; cbn in Hd; destruct Hd as [-> | ->]; auto.
Qed.

Section Tracking.
Variable env : Env.t.
Variable project : Project.t.

Definition tracking (fuel : nat) : Prop :=
  forall workspace report s result s',
    WorkspaceAuditor._auditDependencyWorkspace env project fuel workspace
      report s = Some (result, s') ->
    Shape.childrenFinished report ->
    Forall (Track.good s) (Track.nested report) ->
    Forall (Track.good s') (Track.nested (snd result)).

Lemma loop_tracks (fuel : nat) (workspace : Workspace.t) :
  tracking fuel ->
  forall descriptors report s report' s',
    WorkspaceAuditor.auditDependencies env project
      (WorkspaceAuditor._auditDependencyWorkspace env project fuel)
      workspace descriptors report s = Some (report', s') ->
    Shape.childrenFinished report ->
    Forall (Track.good s) (Track.nested report) ->
    Forall (Track.good s') (Track.nested report').
Proof.
  intros Hrec.
  induction descriptors as [|d rest IH]; intros report s report' s' H Hc Hg.
  - rewrite loop_done in H. now injection H as <- <-.
  - destruct (Project.tryWorkspaceByDescriptor project d) as [dw|] eqn:Hres.
    + destruct (in_dec Descriptor.eq_dec d (Run.path s)) as [Hon|Hoff].
      * rewrite (loop_cycle env project _ workspace d rest report s dw
                   Hres Hon) in H.
        apply IH in H; [exact H | |].
        -- apply set_dependency_finished; [exact Hc | apply cycleLeaf_finished].
        -- apply nested_set_dependency; [exact Hg|].
           repeat constructor.
      * rewrite (loop_descend env project _ workspace d rest report s dw
                   Hres Hoff) in H.
        destruct (WorkspaceAuditor._auditDependencyWorkspace env project fuel
                    dw _ _) as [[result s1]|] eqn:Hcall; [|discriminate].
        cbn zeta in H.
        destruct (auditDependencyWorkspace_finishes env project fuel
                    _ _ _ _ _ Hcall)
          as (dd & f & Hdd & Hf & Hb & Hi & Hl & Hget & Hcs & Hext);
          [constructor|].
        destruct (auditDependencyWorkspace_fields env project fuel
                    _ _ _ _ _ Hcall) as (Hw & _).
        pose proof (Hrec _ _ _ _ _ Hcall (Forall_nil _) (Forall_nil _)) as Hbelow.
        rewrite (isFresh_hit env dw
                   (Run.with_path (removelast (Run.path s1)) s1) f Hget) in H.
        cbn [fst snd] in H. rewrite Hb in H.
        destruct (settleParent_fields (dd && f) f report)
          as (_ & _ & _ & _ & Pc).
        apply IH in H; [exact H | |].
        -- apply set_dependency_finished.
           ++ unfold Shape.childrenFinished. rewrite Pc. exact Hc.
           ++ apply settleChild_finished; assumption.
        -- apply nested_set_dependency.
           ++ unfold Track.nested. rewrite Pc.
              refine (Forall_impl _ _ Hg). intros r.
              apply good_extends. intros w v Hv. cbn. apply Hext. exact Hv.
           ++ assert (Hhas : JsMap.has Workspace.eq_dec dw
                               (Run._catalog
                                  (Run.with_path (removelast (Run.path s1)) s1))
                             = true)
                by (unfold JsMap.has; cbn; now rewrite Hget).
              rewrite Hhas.
              destruct (settleChild_fields (dd && f) true f (snd result))
                as (Sw & Sl & Sf & Sc & _).
              rewrite nodes_nested. constructor.
              ** right. rewrite Sl, Sc, Hl.
                 split; [reflexivity|]. split; [reflexivity|].
                 exists f. unfold Track.answered. rewrite Sf, Sw, Hw.
                 split; [reflexivity | exact Hget].
              ** unfold Track.nested. rewrite settleChild_dependencies.
                 exact Hbelow.
    + rewrite (loop_skip env project _ workspace d rest report s Hres) in H.
      exact (IH _ _ _ _ H Hc Hg).
Qed.

Lemma auditDependencyWorkspace_tracks (fuel : nat) : tracking fuel.
Proof.
  induction fuel as [|fuel IH]; intros workspace report s result s' H Hc Hg;
    [discriminate|].
  rewrite audit_unfold in H. cbn zeta in H.
  destruct (WorkspaceAuditor.auditDependencies _ _ _ _ _ _ _)
    as [[report' s1]|] eqn:Hloop; [|discriminate].
  injection H as <- <-. cbn [snd].
  apply (loop_tracks fuel workspace IH) in Hloop; [exact Hloop | |].
  - destruct (fst (FreshnessCatalog.isFresh env workspace s)); exact Hc.
  - assert (Hg' : Forall (Track.good (snd (FreshnessCatalog.isFresh env workspace s)))
                    (Track.nested report)).
    { refine (Forall_impl _ _ Hg). intros r. apply good_extends.
      intros w v Hv. apply isFresh_keeps, Hv. }
    destruct (fst (FreshnessCatalog.isFresh env workspace s)); exact Hg'.
Qed.

End Tracking.

(** X7.  The report an audit returns is the report of the audited
    workspace: it carries that workspace, is not marked as a cycle either
    way, says whether the catalog knew the workspace before the audit, and
    has for [filesWereFresh] the answer the catalog holds for the workspace
    after the audit. *)
Theorem root_report_records_the_audit :
  forall (env : Env.t) (project : Project.t) (fuel : nat)
         (workspace : Workspace.t) (s : Run.t)
         (report : WorkspaceReport.t) (s' : Run.t),
    WorkspaceAuditor.audit env project fuel workspace s = Some (report, s') ->
    WorkspaceReport.workspace report = workspace
    /\ WorkspaceReport.loopsBackToParent report = None
    /\ WorkspaceReport.fileFreshnessFromCache report
       = Some (fst (FreshnessCatalog.wasChecked workspace s))
    /\ exists f : bool,
         WorkspaceReport.filesWereFresh report = Some f
         /\ JsMap.get Workspace.eq_dec workspace (Run._catalog s') = Some f.
Proof.
  intros env project fuel workspace s report s'.
  unfold WorkspaceAuditor.audit, bind, ret. intros H.
  destruct (WorkspaceAuditor._auditDependencyWorkspace _ _ _ _ _ _)
    as [[result s1]|] eqn:Hcall; [|discriminate].
  injection H as <- <-.
  destruct (auditDependencyWorkspace_fields env project fuel _ _ _ _ _ Hcall)
    as (Hw & Hl & Hc & _).
  destruct (auditDependencyWorkspace_finishes env project fuel _ _ _ _ _ Hcall)
    as (d & f & _ & Hf & _ & _ & _ & Hget & _); [constructor|].
  cbn. rewrite Hw, Hl, Hc. repeat split. exists f. now split.
Qed.

Lemma root_report_records_the_audit_witness :
  exists report s',
    WorkspaceAuditor.audit Sample.env Sample.project Sample.fuel Sample.d
      Sample.start = Some (report, s')
    /\ WorkspaceReport.workspace report = Sample.d
    /\ WorkspaceReport.fileFreshnessFromCache report = Some false
    /\ WorkspaceReport.filesWereFresh report
       = JsMap.get Workspace.eq_dec Sample.d (Run._catalog s').
Proof.
  destruct (WorkspaceAuditor.audit Sample.env Sample.project Sample.fuel
              Sample.d Sample.start) as [[report s']|] eqn:Heq;
    [|vm_compute in Heq; discriminate].
  exists report, s'. split; [reflexivity|].
  destruct (root_report_records_the_audit Sample.env Sample.project
              Sample.fuel Sample.d Sample.start report s' Heq)
    as (Hw & _ & Hc & f & Hf & Hget).
  split; [exact Hw|]. split; [exact Hc|]. now rewrite Hf, Hget.
Defined.

(** X8.  Every report below the root of an audit is marked: either it
    loops back to a parent, or it is marked as not looping back, its
    [filesWereFresh] is the answer the catalog holds for its workspace, and
    its [fileFreshnessFromCache] is [true]: the check of lines 159 to 161
    always finds the answer the recursive call has just stored and never
    runs the detector. *)
Theorem nested_reports_are_answered_from_the_catalog :
  forall (env : Env.t) (project : Project.t) (fuel : nat)
         (workspace : Workspace.t) (s : Run.t)
         (report : WorkspaceReport.t) (s' : Run.t),
    WorkspaceAuditor.audit env project fuel workspace s = Some (report, s') ->
    forall entry r,
      In entry (WorkspaceReport.dependencies report) ->
      In r (WorkspaceReport.nodes (snd entry)) ->
      WorkspaceReport.loopsBackToParent r = Some true
      \/ (WorkspaceReport.loopsBackToParent r = Some false
          /\ WorkspaceReport.fileFreshnessFromCache r = Some true
          /\ exists f : bool,
               WorkspaceReport.filesWereFresh r = Some f
               /\ JsMap.get Workspace.eq_dec (WorkspaceReport.workspace r)
                    (Run._catalog s') = Some f).
Proof.
  intros env project fuel workspace s report s'.
  unfold WorkspaceAuditor.audit, bind, ret. intros H entry r Hentry Hr.
  destruct (WorkspaceAuditor._auditDependencyWorkspace _ _ _ _ _ _)
    as [[result s1]|] eqn:Hcall; [|discriminate].
  injection H as <- <-.
  pose proof (auditDependencyWorkspace_tracks env project fuel _ _ _ _ _ Hcall
                (Forall_nil _) (Forall_nil _)) as Hall.
  rewrite Forall_forall in Hall. apply (Hall r).
  unfold Track.nested. apply in_flat_map. exists entry. now split.
Qed.

Lemma nested_reports_are_answered_from_the_catalog_witness :
  exists report s' entry,
    WorkspaceAuditor.audit Sample.env Sample.project Sample.fuel Sample.d
      Sample.start = Some (report, s')
    /\ In entry (WorkspaceReport.dependencies report)
    /\ WorkspaceReport.workspace (snd entry) = Sample.b
    /\ WorkspaceReport.fileFreshnessFromCache (snd entry) = Some true
    /\ WorkspaceReport.filesWereFresh (snd entry)
       = JsMap.get Workspace.eq_dec Sample.b (Run._catalog s').
Proof.
  destruct (WorkspaceAuditor.audit Sample.env Sample.project Sample.fuel
              Sample.d Sample.start) as [[report s']|] eqn:Heq;
    [|vm_compute in Heq; discriminate].
  pose proof (nested_reports_are_answered_from_the_catalog Sample.env
                Sample.project Sample.fuel Sample.d Sample.start report s' Heq)
    as Hnested.
  assert (Hentry : exists entry,
             nth_error (WorkspaceReport.dependencies report) 0 = Some entry
             /\ WorkspaceReport.workspace (snd entry) = Sample.b
             /\ WorkspaceReport.loopsBackToParent (snd entry) = Some false).
  { vm_compute in Heq. injection Heq as <- _. eexists. repeat split. }
  destruct Hentry as (entry & Hnth & Hw & Hl).
  apply nth_error_In in Hnth.
  exists report, s', entry. split; [reflexivity|]. split; [exact Hnth|].
  split; [exact Hw|].
  destruct (Hnested entry (snd entry) Hnth) as [Hloop|(_ & Hc & f & Hf & Hget)].
  - rewrite nodes_unfold. now left.
  - congruence.
  - split; [exact Hc|]. rewrite Hf, <- Hget, Hw. reflexivity.
Defined.

(** X9.  A workspace none of whose descriptors resolves to a workspace of
    the project is fresh exactly when its own files are: one unit of fuel
    is enough to audit it, its report has no child, its dependencies count
    as fresh, and its verdict is the answer of the catalog for its files. *)
Theorem workspace_without_local_dependencies :
  forall (env : Env.t) (project : Project.t) (fuel : nat)
         (workspace : Workspace.t) (s : Run.t),
    (forall d, In d (Workspace.dependencies workspace) ->
               Project.tryWorkspaceByDescriptor project d = None) ->
    let answer :=
      FreshnessCatalog.isFresh env workspace (Run.with_path [] s) in
    WorkspaceAuditor.audit env project (S fuel) workspace s
    = Some (WorkspaceReport.mk workspace (Some (fst answer)) None (Some true)
              (Some (fst answer))
              (Some (fst (FreshnessCatalog.wasChecked workspace s))) [],
            snd answer).
Proof.
  intros env project fuel workspace s Hnone answer.
  unfold WorkspaceAuditor.audit, bind, ret.
  rewrite audit_unfold. cbn zeta.
  rewrite loop_ignores_unresolved.
  replace (filter _ (Workspace.dependencies workspace)) with (@nil Descriptor.t).
  - rewrite loop_done. fold answer. destruct (fst answer); reflexivity.
  - symmetry. induction (Workspace.dependencies workspace) as [|d ds IH];
      [reflexivity|].
    cbn [filter]. rewrite (Hnone d (or_introl eq_refl)).
    apply IH. intros d' Hd'. apply Hnone. now right.
Qed.

(** The sample workspace [b] has no dependency, and a changed file. *)
Lemma workspace_without_local_dependencies_witness :
  option_map (fun r => Sample.summarize (fst r))
    (WorkspaceAuditor.audit Sample.env Sample.project 1 Sample.b Sample.start)
  = Some (Sample.Summary "packages/b" (Some false) None (Some true)
            (Some false) (Some false) []).
Proof.
  rewrite (workspace_without_local_dependencies Sample.env Sample.project 0
             Sample.b Sample.start); [reflexivity|].
  intros d [].
Defined.

(** ** [WorkspaceAuditor]: the verdict and the catalog *)

(** No answer [false] of the catalog of [s'] is missing from that of
    [s]. *)
Definition noNewStale (s s' : Run.t) : Prop :=
  forall w,
    JsMap.get Workspace.eq_dec w (Run._catalog s') = Some false ->
    JsMap.get Workspace.eq_dec w (Run._catalog s) = Some false.

(** The catalog holds an answer [false]. *)
Definition someStale (s : Run.t) : Prop :=
  exists w, JsMap.get Workspace.eq_dec w (Run._catalog s) = Some false.

Lemma noNewStale_trans (a b c : Run.t) :
  noNewStale a b -> noNewStale b c -> noNewStale a c.
Proof. intros Hab Hbc w Hw. apply Hab, Hbc, Hw. Qed.

Lemma isFresh_true_noNewStale (env : Env.t) (w : Workspace.t) (s : Run.t) :
  fst (FreshnessCatalog.isFresh env w s) = true ->
  noNewStale s (snd (FreshnessCatalog.isFresh env w s)).
Proof.
  destruct (isFresh_cases env w s) as [(b & E & ->)|(E & b & n & ->)]; cbn.
  - intros _ w0 H0. exact H0.
  - intros -> w0 H0. cbn in H0.
    destruct (Workspace.eq_dec w w0) as [E0|N].
    + subst w0. rewrite get_set_same in H0. discriminate.
    + rewrite get_set_other in H0; assumption.
Qed.

Section Verdict.
Variable env : Env.t.
Variable project : Project.t.

Definition freshening (fuel : nat) : Prop :=
  forall workspace report s result s',
    WorkspaceAuditor._auditDependencyWorkspace env project fuel workspace
      report s = Some (result, s') ->
    fst result = true -> noNewStale s s'.

Definition staling (fuel : nat) : Prop :=
  forall workspace report s result s',
    WorkspaceAuditor._auditDependencyWorkspace env project fuel workspace
      report s = Some (result, s') ->
    fst result = false -> someStale s'.

(** A stale answer stays in the catalog. *)
Lemma someStale_isFresh (w : Workspace.t) (s : Run.t) :
  someStale s -> someStale (snd (FreshnessCatalog.isFresh env w s)).
Proof. intros [w0 H0]. exists w0. apply isFresh_keeps, H0. Qed.

Lemma someStale_path (p : list Descriptor.t) (s : Run.t) :
  someStale s -> someStale (Run.with_path p s).
Proof. intros H. exact H. Qed.

Lemma loop_fresh (fuel : nat) (workspace : Workspace.t) :
  freshening fuel ->
  forall descriptors report s report' s',
    WorkspaceAuditor.auditDependencies env project
      (WorkspaceAuditor._auditDependencyWorkspace env project fuel)
      workspace descriptors report s = Some (report', s') ->
    WorkspaceReport.dependenciesWereFresh report' = Some true ->
    WorkspaceReport.dependenciesWereFresh report = Some true
    /\ noNewStale s s'.
Proof.
  intros Hrec.
  induction descriptors as [|d rest IH]; intros report s report' s' H Hd.
  - rewrite loop_done in H. injection H as <- <-.
    split; [exact Hd | intros w Hw; exact Hw].
  - destruct (Project.tryWorkspaceByDescriptor project d) as [dw|] eqn:Hres.
    + destruct (in_dec Descriptor.eq_dec d (Run.path s)) as [Hon|Hoff].
      * rewrite (loop_cycle env project _ workspace d rest report s dw
                   Hres Hon) in H.
        exact (IH _ _ _ _ H Hd).
      * rewrite (loop_descend env project _ workspace d rest report s dw
                   Hres Hoff) in H.
        destruct (WorkspaceAuditor._auditDependencyWorkspace env project fuel
                    dw _ _) as [[result s1]|] eqn:Hcall; [|discriminate].
        cbn zeta in H.
        destruct (IH _ _ _ _ H Hd) as [Hd2 Hns]. cbn in Hd2.
        rewrite settleParent_verdict in Hd2.
        destruct (fst result) eqn:Hb; cbn [andb] in Hd2; [|discriminate].
        destruct (fst (FreshnessCatalog.isFresh env dw
                         (Run.with_path (removelast (Run.path s1)) s1)))
          eqn:Hf; [|discriminate].
        split; [exact Hd2|].
        apply (noNewStale_trans _ s1); [exact (Hrec _ _ _ _ _ Hcall Hb)|].
        apply (noNewStale_trans _
                 (snd (FreshnessCatalog.isFresh env dw
                         (Run.with_path (removelast (Run.path s1)) s1))));
          [|exact Hns].
        exact (isFresh_true_noNewStale env dw
                 (Run.with_path (removelast (Run.path s1)) s1) Hf).
    + rewrite (loop_skip env project _ workspace d rest report s Hres) in H.
      exact (IH _ _ _ _ H Hd).
Qed.

Lemma auditDependencyWorkspace_fresh (fuel : nat) : freshening fuel.
Proof.
  induction fuel as [|fuel IH]; intros workspace report s result s' H Hb;
    [discriminate|].
  destruct (auditDependencyWorkspace_fields env project (S fuel) _ _ _ _ _ H)
    as (_ & _ & _ & Hf & Hv & _).
  rewrite audit_unfold in H. cbn zeta in H.
  destruct (WorkspaceAuditor.auditDependencies _ _ _ _ _ _ _)
    as [[report' s1]|] eqn:Hloop; [|discriminate].
  injection H as <- <-. cbn [fst snd] in *.
  unfold WorkspaceAuditor.verdict in Hb.
  apply andb_true_iff in Hb. destruct Hb as [Hd Hfiles].
  apply truthy_true in Hd, Hfiles.
  rewrite Hf in Hfiles. injection Hfiles as Hfiles.
  destruct (loop_fresh fuel workspace IH _ _ _ _ _ Hloop Hd) as [_ Hns].
  apply (noNewStale_trans _ (snd (FreshnessCatalog.isFresh env workspace s)));
    [|exact Hns].
  exact (isFresh_true_noNewStale env workspace s Hfiles).
Qed.

Lemma loop_stale (fuel : nat) (workspace : Workspace.t) :
  staling fuel ->
  forall descriptors report s report' s',
    WorkspaceAuditor.auditDependencies env project
      (WorkspaceAuditor._auditDependencyWorkspace env project fuel)
      workspace descriptors report s = Some (report', s') ->
    WorkspaceReport.dependenciesWereFresh report' = Some false ->
    WorkspaceReport.dependenciesWereFresh report = Some false
    \/ someStale s'.
Proof.
  intros Hrec.
  induction descriptors as [|d rest IH]; intros report s report' s' H Hd.
  - rewrite loop_done in H. injection H as <- <-. now left.
  - destruct (Project.tryWorkspaceByDescriptor project d) as [dw|] eqn:Hres.
    + destruct (in_dec Descriptor.eq_dec d (Run.path s)) as [Hon|Hoff].
      * rewrite (loop_cycle env project _ workspace d rest report s dw
                   Hres Hon) in H.
        exact (IH _ _ _ _ H Hd).
      * rewrite (loop_descend env project _ workspace d rest report s dw
                   Hres Hoff) in H.
        destruct (WorkspaceAuditor._auditDependencyWorkspace env project fuel
                    dw _ _) as [[result s1]|] eqn:Hcall; [|discriminate].
        cbn zeta in H.
        assert (Hkeep : someStale
                          (snd (FreshnessCatalog.isFresh env dw
                                  (Run.with_path (removelast (Run.path s1)) s1)))
                        -> someStale s').
        { exact (loop_keeps env project someStale someStale_isFresh
                   someStale_path _ workspace
                   (auditDependencyWorkspace_keeps env project someStale
                      someStale_isFresh someStale_path fuel)
                   _ _ _ _ _ H). }
        destruct (IH _ _ _ _ H Hd) as [Hd2|Hs]; [|now right].
        cbn in Hd2. rewrite settleParent_verdict in Hd2.
        destruct (fst result) eqn:Hb; cbn [andb] in Hd2.
        -- destruct (fst (FreshnessCatalog.isFresh env dw
                            (Run.with_path (removelast (Run.path s1)) s1)))
             eqn:Hf; [now left|].
           right. apply Hkeep. exists dw.
           rewrite isFresh_stores. now rewrite Hf.
        -- right. apply Hkeep, someStale_isFresh.
           exact (Hrec _ _ _ _ _ Hcall Hb).
    + rewrite (loop_skip env project _ workspace d rest report s Hres) in H.
      exact (IH _ _ _ _ H Hd).
Qed.

Lemma auditDependencyWorkspace_stale (fuel : nat) : staling fuel.
Proof.
  induction fuel as [|fuel IH]; intros workspace report s result s' H Hb;
    [discriminate|].
  destruct (auditDependencyWorkspace_fields env project (S fuel) _ _ _ _ _ H)
    as (_ & _ & _ & Hf & Hv & Hd).
  rewrite audit_unfold in H. cbn zeta in H.
  destruct (WorkspaceAuditor.auditDependencies _ _ _ _ _ _ _)
    as [[report' s1]|] eqn:Hloop; [|discriminate].
  injection H as <- <-. cbn [fst snd] in *.
  unfold WorkspaceAuditor.verdict in Hb. rewrite Hf in Hb.
  destruct (fst (FreshnessCatalog.isFresh env workspace s)) eqn:Hfiles.
  - destruct Hd as [Hd|Hd]; rewrite Hd in Hb; [discriminate|].
    destruct (loop_stale fuel workspace IH _ _ _ _ _ Hloop Hd) as [Hin|Hs];
      [|exact Hs].
    destruct (negb true); discriminate.
  - apply (loop_keeps env project someStale someStale_isFresh someStale_path
             _ workspace
             (auditDependencyWorkspace_keeps env project someStale
                someStale_isFresh someStale_path fuel)
             _ _ _ _ _ Hloop).
    exists workspace. rewrite isFresh_stores. now rewrite Hfiles.
Qed.

End Verdict.

(** X10.  When the catalog holds no answer [false] before an audit (a new
    catalog holds none), the audited workspace is reported fresh exactly
    when the catalog holds no answer [false] after the audit: a stale
    workspace met by the walk, at any depth, makes the root stale, and a
    stale root always has a stale workspace behind it. *)
Theorem root_is_fresh_iff_catalog_has_no_stale_answer :
  forall (env : Env.t) (project : Project.t) (fuel : nat)
         (workspace : Workspace.t) (s : Run.t)
         (report : WorkspaceReport.t) (s' : Run.t),
    WorkspaceAuditor.audit env project fuel workspace s = Some (report, s') ->
    (forall w, JsMap.get Workspace.eq_dec w (Run._catalog s) <> Some false) ->
    (WorkspaceReport.isFresh report = Some true
     <-> forall w,
           JsMap.get Workspace.eq_dec w (Run._catalog s') <> Some false).
Proof.
  intros env project fuel workspace s report s'.
  unfold WorkspaceAuditor.audit, bind, ret. intros H Hclean.
  destruct (WorkspaceAuditor._auditDependencyWorkspace _ _ _ _ _ _)
    as [[result s1]|] eqn:Hcall; [|discriminate].
  injection H as <- <-. cbn. split.
  - intros [= Hb] w Hw.
    apply (auditDependencyWorkspace_fresh env project fuel _ _ _ _ _ Hcall Hb)
      in Hw.
    exact (Hclean w Hw).
  - intros Hnone. destruct (fst result) eqn:Hb; [reflexivity|].
    destruct (auditDependencyWorkspace_stale env project fuel _ _ _ _ _ Hcall Hb)
      as [w Hw].
    now destruct (Hnone w).
Qed.

(** The audit of the sample workspace [a] on a new catalog: [a] is not
    fresh, and the catalog holds the answer [false] for [b]. *)
Lemma root_is_fresh_iff_catalog_has_no_stale_answer_witness :
  exists report s',
    WorkspaceAuditor.audit Sample.env Sample.project Sample.fuel Sample.a
      Sample.start = Some (report, s')
    /\ JsMap.get Workspace.eq_dec Sample.b (Run._catalog s') = Some false
    /\ WorkspaceReport.isFresh report <> Some true.
Proof.
  destruct (WorkspaceAuditor.audit Sample.env Sample.project Sample.fuel
              Sample.a Sample.start) as [[report s']|] eqn:Heq;
    [|vm_compute in Heq; discriminate].
  exists report, s'. split; [reflexivity|].
  assert (Hb : JsMap.get Workspace.eq_dec Sample.b (Run._catalog s')
               = Some false).
  { vm_compute in Heq. injection Heq as _ <-. reflexivity. }
  split; [exact Hb|].
  intros Hfresh.
  apply (proj1 (root_is_fresh_iff_catalog_has_no_stale_answer Sample.env
                  Sample.project Sample.fuel Sample.a Sample.start report s'
                  Heq (fun w => ltac:(cbn; discriminate))) Hfresh Sample.b).
  exact Hb.
Defined.

(** ** [ReportInspector]: what the instructions are *)

(** Induction on a report, with the property at hand for every child. *)
Lemma report_induction (P : WorkspaceReport.t -> Prop) :
  (forall r,
      Forall (fun entry => P (snd entry)) (WorkspaceReport.dependencies r) ->
      P r) ->
  forall r, P r.
Proof.
  intros step. fix IH 1. intros [w i l d f c deps]. apply step. cbn.
  induction deps as [|entry deps IHdeps]; constructor.
  - apply IH.
  - exact IHdeps.
Qed.

(** The instructions of a report when none was collected before. *)
Definition own (r : WorkspaceReport.t) : list BuildInstruction.t :=
  ReportInspector._unrollWorkspaceReport r [].

Lemma unroll_children_appends
    (children : list (string * WorkspaceReport.t)) :
  Forall (fun entry =>
            forall instructions,
              ReportInspector._unrollWorkspaceReport (snd entry) instructions
              = instructions ++ own (snd entry)) children ->
  forall instructions,
    fold_left (fun instructions entry =>
                 ReportInspector._unrollWorkspaceReport (snd entry) instructions)
      children instructions
    = instructions ++ flat_map (fun entry => own (snd entry)) children.
Proof.
  induction 1 as [|entry children Hentry _ IH]; intros instructions; cbn.
  - now rewrite app_nil_r.
  - rewrite Hentry, IH, app_assoc. reflexivity.
Qed.

(** The inspector only appends, and what it appends does not depend on
    what was collected before. *)
Lemma unroll_appends (r : WorkspaceReport.t) :
  forall instructions,
    ReportInspector._unrollWorkspaceReport r instructions
    = instructions ++ own r.
Proof.
  induction r as [r IH] using report_induction. intros instructions.
  unfold own. rewrite !unroll_unfold.
  destruct (truthy (WorkspaceReport.loopsBackToParent r));
    [now rewrite app_nil_r|].
  destruct (truthy (WorkspaceReport.isFresh r)); [now rewrite app_nil_r|].
  destruct (negb (truthy (WorkspaceReport.dependenciesWereFresh r))).
  - rewrite !(unroll_children_appends _ IH). cbn [app].
    now rewrite <- app_assoc.
  - destruct (negb (truthy (WorkspaceReport.filesWereFresh r)));
      [reflexivity | now rewrite app_nil_r].
Qed.

(** X11.  The instructions of a project report are the instructions of
    its reports one after the other, in the order of the report, each list
    being what the report gives on its own: nothing is merged or dropped,
    so the instructions of two reports put together are those of the first
    followed by those of the second, and an empty report gives none. *)
Theorem unroll_concatenates :
  forall report report' : ProjectAuditor.ProjectReport,
    ReportInspector.unroll report
    = flat_map (fun entry =>
                  ReportInspector._unrollWorkspaceReport (snd entry) [])
        report
    /\ ReportInspector.unroll (report ++ report')
       = ReportInspector.unroll report ++ ReportInspector.unroll report'
    /\ ReportInspector.unroll [] = [].
Proof.
  assert (Hflat : forall (report : ProjectAuditor.ProjectReport) instructions,
             fold_left (fun instructions (entry : Workspace.t * WorkspaceReport.t) =>
                          ReportInspector._unrollWorkspaceReport (snd entry)
                            instructions)
               report instructions
             = instructions ++ flat_map (fun entry => own (snd entry)) report).
  { induction report as [|entry report IH]; intros instructions; cbn.
    - now rewrite app_nil_r.
    - rewrite unroll_appends, IH, app_assoc. reflexivity. }
  intros report report'. unfold ReportInspector.unroll.
  rewrite !Hflat. cbn [app]. split; [reflexivity|]. split; [|reflexivity].
  apply flat_map_app.
Qed.

(** X12.  The inspector emits only for reports that need a build: every
    instruction it adds names the workspace of a node of the report that
    neither loops back to a parent nor is fresh; and it adds at most one
    instruction per node. *)
Theorem instructions_name_stale_nodes :
  forall (r : WorkspaceReport.t) (instructions : list BuildInstruction.t),
    (forall i,
        In i (ReportInspector._unrollWorkspaceReport r instructions) ->
        In i instructions
        \/ exists n,
             In n (WorkspaceReport.nodes r)
             /\ BuildInstruction.workspace i = WorkspaceReport.workspace n
             /\ WorkspaceReport.loopsBackToParent n <> Some true
             /\ WorkspaceReport.isFresh n <> Some true)
    /\ List.length (ReportInspector._unrollWorkspaceReport r instructions)
       <= List.length instructions + List.length (WorkspaceReport.nodes r).
Proof.
  intros r instructions. rewrite unroll_appends, length_app.
  assert (Hown :
    (forall i, In i (own r) ->
       exists n,
         In n (WorkspaceReport.nodes r)
         /\ BuildInstruction.workspace i = WorkspaceReport.workspace n
         /\ WorkspaceReport.loopsBackToParent n <> Some true
         /\ WorkspaceReport.isFresh n <> Some true)
    /\ List.length (own r) <= List.length (WorkspaceReport.nodes r)).
  { clear instructions.
    induction r as [r IH] using report_induction.
    rewrite nodes_unfold. unfold own. rewrite unroll_unfold.
    destruct (truthy (WorkspaceReport.loopsBackToParent r)) eqn:Hl;
      [split; [intros i [] | cbn; lia]|].
    destruct (truthy (WorkspaceReport.isFresh r)) eqn:Hi;
      [split; [intros i [] | cbn; lia]|].
    apply truthy_false in Hl, Hi.
    assert (Hself : forall i,
               In i [BuildInstruction.mk (WorkspaceReport.workspace r)] ->
               exists n,
                 In n (r :: flat_map (fun entry => WorkspaceReport.nodes (snd entry))
                                (WorkspaceReport.dependencies r))
                 /\ BuildInstruction.workspace i = WorkspaceReport.workspace n
                 /\ WorkspaceReport.loopsBackToParent n <> Some true
                 /\ WorkspaceReport.isFresh n <> Some true).
    { intros i [<-|[]]. exists r. repeat split; try assumption. now left. }
    destruct (negb (truthy (WorkspaceReport.dependenciesWereFresh r))).
    - assert (Happ : Forall (fun entry =>
                 forall instructions,
                   ReportInspector._unrollWorkspaceReport (snd entry) instructions
                   = instructions ++ own (snd entry))
               (WorkspaceReport.dependencies r)).
      { apply Forall_forall. intros entry _. apply unroll_appends. }
      rewrite (unroll_children_appends _ Happ). cbn [app]. split.
      + intros i [<-|Hi'].
        * apply Hself. now left.
        * apply in_flat_map in Hi'. destruct Hi' as (entry & Hentry & Hi').
          rewrite Forall_forall in IH.
          destruct (proj1 (IH entry Hentry) i Hi') as (n & Hn & Hrest).
          exists n. split; [|exact Hrest]. right.
          apply in_flat_map. exists entry. now split.
      + cbn [List.length]. apply le_n_S. clear Hself Happ.
        induction IH as [|entry deps [_ Hlen] _ IHdeps]; cbn [flat_map];
          [cbn; lia|].
        rewrite !length_app. lia.
    - destruct (negb (truthy (WorkspaceReport.filesWereFresh r))).
      + split; [exact Hself | cbn; lia].
      + split; [intros i [] | cbn; lia]. }
  destruct Hown as [Hin Hlen]. split; [|lia].
  intros i Hi. apply in_app_or in Hi. destruct Hi as [Hi|Hi]; [now left|].
  right. exact (Hin i Hi).
Qed.

(** A settled report that is not fresh gives an instruction for its own
    workspace first. *)
Lemma own_of_stale (r : WorkspaceReport.t) :
  WorkspaceReport.loopsBackToParent r <> Some true ->
  Shape.settled r ->
  WorkspaceReport.isFresh r <> Some true ->
  exists rest,
    own r = BuildInstruction.mk (WorkspaceReport.workspace r) :: rest.
Proof.
  intros Hl (d & f & Hd & Hf & Hi) Hstale.
  unfold own. rewrite unroll_unfold.
  apply truthy_false in Hl. rewrite Hl.
  rewrite (proj2 (truthy_false _) Hstale), Hd, Hf.
  rewrite Hi in Hstale.
  destruct d; cbn.
  - destruct f; cbn; [now contradiction Hstale | now exists []].
  - assert (Happ : Forall (fun entry =>
               forall instructions,
                 ReportInspector._unrollWorkspaceReport (snd entry) instructions
                 = instructions ++ own (snd entry))
             (WorkspaceReport.dependencies r)).
    { apply Forall_forall. intros entry _. apply unroll_appends. }
    rewrite (unroll_children_appends _ Happ). cbn. eauto.
Qed.

(** The root of an audit: its overall verdict is set, it does not loop
    back, and it carries the audited workspace. *)
Lemma audit_root (env : Env.t) (project : Project.t) (fuel : nat)
    (workspace : Workspace.t) (s : Run.t) (report : WorkspaceReport.t)
    (s' : Run.t) :
  WorkspaceAuditor.audit env project fuel workspace s = Some (report, s') ->
  WorkspaceReport.workspace report = workspace
  /\ WorkspaceReport.loopsBackToParent report = None
  /\ Shape.settled report
  /\ (WorkspaceReport.isFresh report = Some true
      \/ (WorkspaceReport.isFresh report = Some false /\ someStale s')).
Proof.
  intros H.
  destruct (audit_finished env project fuel workspace s report s' H)
    as [Hall Hl].
  apply allFinished_split in Hall. destruct Hall as [[_ Hsettled] _].
  assert (Hs : Shape.settled report)
    by (apply Hsettled; rewrite Hl; discriminate).
  revert H. unfold WorkspaceAuditor.audit, bind, ret. intros H.
  destruct (WorkspaceAuditor._auditDependencyWorkspace _ _ _ _ _ _)
    as [[result s1]|] eqn:Hcall; [|discriminate].
  injection H as <- <-.
  destruct (auditDependencyWorkspace_fields env project fuel _ _ _ _ _ Hcall)
    as (Hw & _).
  split; [exact Hw|]. split; [exact Hl|]. split; [exact Hs|]. cbn.
  destruct (fst result) eqn:Hb; [now left|]. right. split; [reflexivity|].
  exact (auditDependencyWorkspace_stale env project fuel _ _ _ _ _ Hcall Hb).
Qed.

(** X13.  For the report of an audited workspace the inspector emits
    nothing exactly when the workspace is fresh, and when it is not, the
    first instruction is the one for the audited workspace itself. *)
Theorem target_is_built_iff_not_fresh :
  forall (env : Env.t) (project : Project.t) (fuel : nat)
         (workspace : Workspace.t) (s : Run.t)
         (report : WorkspaceReport.t) (s' : Run.t),
    WorkspaceAuditor.audit env project fuel workspace s = Some (report, s') ->
    (ReportInspector._unrollWorkspaceReport report [] = []
     <-> WorkspaceReport.isFresh report = Some true)
    /\ (WorkspaceReport.isFresh report <> Some true ->
        hd_error (ReportInspector._unrollWorkspaceReport report [])
        = Some (BuildInstruction.mk workspace)).
Proof.
  intros env project fuel workspace s report s' H.
  destruct (audit_root env project fuel workspace s report s' H)
    as (Hw & Hl & Hs & _).
  assert (Hstale : WorkspaceReport.isFresh report <> Some true ->
                   exists rest,
                     ReportInspector._unrollWorkspaceReport report []
                     = BuildInstruction.mk workspace :: rest).
  { intros Hi. rewrite <- Hw. apply own_of_stale; [|exact Hs|exact Hi].
    rewrite Hl. discriminate. }
  split; [split|].
  - intros Hnil.
    destruct Hs as (d & f & _ & _ & Hi). rewrite Hi.
    destruct (d && f) eqn:Hb; [reflexivity|].
    destruct Hstale as [rest Hrest]; [rewrite Hi; discriminate|].
    rewrite Hrest in Hnil. discriminate.
  - intros Hi. rewrite unroll_unfold, Hl, Hi. reflexivity.
  - intros Hi. destruct (Hstale Hi) as [rest ->]. reflexivity.
Qed.

(** The sample workspaces [d], which is stale through [b], and [c], which
    is fresh. *)
Lemma target_is_built_iff_not_fresh_witness :
  (exists report s',
      WorkspaceAuditor.audit Sample.env Sample.project Sample.fuel Sample.d
        Sample.start = Some (report, s')
      /\ hd_error (ReportInspector._unrollWorkspaceReport report [])
         = Some (BuildInstruction.mk Sample.d))
  /\ (exists report s',
         WorkspaceAuditor.audit Sample.env Sample.project Sample.fuel Sample.c
           Sample.start = Some (report, s')
         /\ ReportInspector._unrollWorkspaceReport report [] = []).
Proof.
  split.
  - destruct (WorkspaceAuditor.audit Sample.env Sample.project Sample.fuel
                Sample.d Sample.start) as [[report s']|] eqn:Heq;
      [|vm_compute in Heq; discriminate].
    exists report, s'. split; [reflexivity|].
    apply (proj2 (target_is_built_iff_not_fresh Sample.env Sample.project
                    Sample.fuel Sample.d Sample.start report s' Heq)).
    vm_compute in Heq. injection Heq as <- _. discriminate.
  - destruct (WorkspaceAuditor.audit Sample.env Sample.project Sample.fuel
                Sample.c Sample.start) as [[report s']|] eqn:Heq;
      [|vm_compute in Heq; discriminate].
    exists report, s'. split; [reflexivity|].
    apply (proj1 (target_is_built_iff_not_fresh Sample.env Sample.project
                    Sample.fuel Sample.c Sample.start report s' Heq)).
    vm_compute in Heq. injection Heq as <- _. reflexivity.
Defined.

(** ** [ProjectAuditor]: whole runs *)

(** A property of the state of the run that [isFresh] keeps on the
    workspaces of [member] is kept by the audit of a member, when every
    descriptor resolves to a member. *)
Section RunInvariantOn.
Variable env : Env.t.
Variable project : Project.t.
Variable member : Workspace.t -> Prop.
Variable inv : Run.t -> Prop.
Hypothesis resolves_member :
  forall d w, Project.tryWorkspaceByDescriptor project d = Some w -> member w.
Hypothesis inv_isFresh :
  forall w s, member w -> inv s ->
              inv (snd (FreshnessCatalog.isFresh env w s)).
Hypothesis inv_path : forall p s, inv s -> inv (Run.with_path p s).

Definition keepingOn
    (recurse : Workspace.t -> WorkspaceReport.t -> M (bool * WorkspaceReport.t))
    : Prop :=
  forall workspace report s result s',
    member workspace ->
    recurse workspace report s = Some (result, s') -> inv s -> inv s'.

Lemma loop_keepsOn
    (recurse : Workspace.t -> WorkspaceReport.t -> M (bool * WorkspaceReport.t))
    (workspace : Workspace.t) :
  keepingOn recurse ->
  forall descriptors report s report' s',
    WorkspaceAuditor.auditDependencies env project recurse workspace
      descriptors report s = Some (report', s') ->
    inv s -> inv s'.
Proof.
  intros Hrec.
  induction descriptors as [|d rest IH]; intros report s report' s' H Hs.
  - rewrite loop_done in H. now injection H as _ <-.
  - destruct (Project.tryWorkspaceByDescriptor project d) as [dw|] eqn:Hres.
    + destruct (in_dec Descriptor.eq_dec d (Run.path s)) as [Hon|Hoff].
      * rewrite (loop_cycle env project recurse workspace d rest report s dw
                   Hres Hon) in H.
        exact (IH _ _ _ _ H Hs).
      * rewrite (loop_descend env project recurse workspace d rest report s dw
                   Hres Hoff) in H.
        destruct (recurse dw _ _) as [[result s1]|] eqn:Hcall; [|discriminate].
        cbn zeta in H. apply (IH _ _ _ _ H).
        pose proof (resolves_member d dw Hres) as Hdw.
        apply (inv_isFresh _ _ Hdw), inv_path.
        apply (Hrec _ _ _ _ _ Hdw Hcall), inv_path, Hs.
    + rewrite (loop_skip env project recurse workspace d rest report s Hres) in H.
      exact (IH _ _ _ _ H Hs).
Qed.

Lemma auditDependencyWorkspace_keepsOn (fuel : nat) :
  keepingOn (WorkspaceAuditor._auditDependencyWorkspace env project fuel).
Proof.
  induction fuel as [|fuel IH]; intros workspace report s result s' Hm H Hs;
    [discriminate|].
  rewrite audit_unfold in H. cbn zeta in H.
  destruct (WorkspaceAuditor.auditDependencies _ _ _ _ _ _ _)
    as [[report' s1]|] eqn:Hloop; [|discriminate].
  injection H as _ <-.
  apply (loop_keepsOn _ workspace IH _ _ _ _ _ Hloop), (inv_isFresh _ _ Hm), Hs.
Qed.

Lemma audit_keepsOn (fuel : nat) (workspace : Workspace.t) (s : Run.t)
    (report : WorkspaceReport.t) (s' : Run.t) :
  member workspace ->
  WorkspaceAuditor.audit env project fuel workspace s = Some (report, s') ->
  inv s -> inv s'.
Proof.
  unfold WorkspaceAuditor.audit, bind, ret. intros Hm H Hs.
  destruct (WorkspaceAuditor._auditDependencyWorkspace _ _ _ _ _ _)
    as [[result s1]|] eqn:Hcall; [|discriminate].
  injection H as _ <-.
  apply (auditDependencyWorkspace_keepsOn fuel _ _ _ _ _ Hm Hcall), inv_path, Hs.
Qed.

End RunInvariantOn.

Section JsMapEntries.
Variables K V : Type.
Variable K_eq_dec : forall a b : K, {a = b} + {a <> b}.
Variable Q : K * V -> Prop.

Lemma Forall_set_entry (k : K) (v : V) (m : JsMap.t K V) :
  Forall Q m -> Q (k, v) -> Forall Q (JsMap.set K_eq_dec k v m).
Proof.
  intros Hm Hv. induction Hm as [|[k' v'] m Hx Hm IH]; cbn.
  - repeat constructor. exact Hv.
  - destruct (K_eq_dec k k') as [<-|N]; constructor; assumption.
Qed.

Lemma Forall_copy (l acc : JsMap.t K V) :
  Forall Q l -> Forall Q acc ->
  Forall Q (fold_left
              (fun reports entry =>
                 JsMap.set K_eq_dec (fst entry) (snd entry) reports) l acc).
Proof.
  intros Hl. revert acc. induction Hl as [|[k v] l Hx Hl IH]; intros acc Hacc.
  - exact Hacc.
  - cbn. apply IH, Forall_set_entry; assumption.
Qed.

End JsMapEntries.

(** What every audit of the loop establishes is established for every
    entry of the project report. *)
Section ProjectValues.
Variable env : Env.t.
Variable project : Project.t.
Variable targets : list string.
Variable fuel : nat.
Variable inv : Run.t -> Prop.
Variable P : Workspace.t -> WorkspaceReport.t -> Prop.
Hypothesis audit_gives :
  forall w s report s1,
    In w (Project.workspaces project) ->
    WorkspaceAuditor.audit env project fuel w s = Some (report, s1) ->
    inv s -> inv s1 /\ P w report.

Lemma auditWorkspaces_values :
  forall workspaces pendingAudits s reports s',
    incl workspaces (Project.workspaces project) ->
    Answered.auditWorkspaces env project targets fuel workspaces
      pendingAudits s = Some (reports, s') ->
    inv s ->
    Forall (fun entry => P (fst entry) (snd entry)) pendingAudits ->
    inv s' /\ Forall (fun entry => P (fst entry) (snd entry)) reports.
Proof.
  induction workspaces as [|w rest IH]; intros pending s reports s' Hincl H Hs Hp.
  - injection H as <- <-. now split.
  - assert (Hrest : incl rest (Project.workspaces project))
      by (intros e He; apply Hincl; now right).
    cbn [Answered.auditWorkspaces] in H.
    destruct (Workspace.eq_dec w (Project.topLevelWorkspace project));
      [exact (IH _ _ _ _ Hrest H Hs Hp)|].
    destruct (negb _); [exact (IH _ _ _ _ Hrest H Hs Hp)|].
    unfold bind in H.
    destruct (WorkspaceAuditor.audit env project fuel w s)
      as [[report s1]|] eqn:Haudit; [|discriminate].
    destruct (audit_gives w s report s1 (Hincl w (or_introl eq_refl)) Haudit Hs)
      as [Hs1 Hw].
    apply (IH _ _ _ _ Hrest H Hs1).
    apply Forall_set_entry; assumption.
Qed.

Lemma project_audit_values (s : Run.t)
    (report : ProjectAuditor.ProjectReport) (s' : Run.t) :
  Answered.audit env project targets fuel s = Some (report, s') ->
  inv (FreshnessCatalog.loadPreviousState (Configuration.asLog (Project.configuration project))
         (FreshnessCatalog.create s)) ->
  inv s' /\ Forall (fun entry => P (fst entry) (snd entry)) report.
Proof.
  unfold Answered.audit, bind, ret. intros H Hs.
  destruct (Answered.auditWorkspaces _ _ _ _ _ _ _)
    as [[pending s1]|] eqn:Hloop; [|discriminate].
  injection H as <- <-.
  destruct (auditWorkspaces_values _ _ _ _ _ (fun w Hw => Hw) Hloop Hs
              (Forall_nil _)) as [Hs1 Hp].
  split; [exact Hs1|].
  apply Forall_copy; [exact Hp | constructor].
Qed.

End ProjectValues.

(** The log holds, for the workspace, the time its newest file has now. *)
Definition builtAt (env : Env.t) (log : RunLog.t) (w : Workspace.t) : Prop :=
  log (Workspace.relativeCwd w ++ "#build")%string
  = Some (RunLog.mkEntry (Some (FreshnessDetector.timeSource env w))).

(** The log is loaded and the catalog holds no answer [false]. *)
Definition quiet (log : RunLog.t) (s : Run.t) : Prop :=
  Run._previousState s = Some log
  /\ forall w, JsMap.get Workspace.eq_dec w (Run._catalog s) <> Some false.

Lemma isFresh_logged (env : Env.t) (w : Workspace.t) (s : Run.t)
    (log : RunLog.t) (t : Z) :
  JsMap.get Workspace.eq_dec w (Run._catalog s) = None ->
  Run._previousState s = Some log ->
  log (Workspace.relativeCwd w ++ "#build")%string
  = Some (RunLog.mkEntry (Some t)) ->
  fst (FreshnessCatalog.isFresh env w s)
  = (FreshnessDetector.timeSource env w =? t)%Z.
Proof.
  intros Hmiss Hlog Hentry.
  unfold FreshnessCatalog.isFresh, FreshnessCatalog.isFresh_enter,
    FreshnessCatalog.wasChecked, JsMap.has.
  rewrite Hmiss.
  unfold Run.getTime, Run.with_catalog, Run.with_detectorRuns,
    Run.with_dateReads. cbn.
  rewrite Hlog. cbn. rewrite Hentry. cbn. apply detector_isFresh_eqb.
Qed.

Lemma isFresh_quiet (env : Env.t) (log : RunLog.t) (w : Workspace.t)
    (s : Run.t) :
  builtAt env log w -> quiet log s ->
  quiet log (snd (FreshnessCatalog.isFresh env w s)).
Proof.
  intros Hbuilt [Hlog Hclean].
  destruct (isFresh_cases env w s) as [(b & E & ->)|(E & b & n & Heq)];
    [now split|].
  pose proof (isFresh_logged env w s log _ E Hlog Hbuilt) as Hb.
  rewrite Heq in Hb |- *. cbn in Hb |- *.
  rewrite Z.eqb_refl in Hb. subst b.
  split; [exact Hlog|]. intros w0. cbn.
  destruct (Workspace.eq_dec w w0) as [E0|N].
  - subst w0. rewrite get_set_same. discriminate.
  - rewrite get_set_other by assumption. apply Hclean.
Qed.

Lemma unroll_fresh (report : ProjectAuditor.ProjectReport) :
  Forall (fun entry =>
            WorkspaceReport.isFresh (snd entry) = Some true
            /\ WorkspaceReport.loopsBackToParent (snd entry) = None) report ->
  ReportInspector.unroll report = [].
Proof.
  unfold ReportInspector.unroll. intros H.
  assert (Hacc : forall instructions,
             fold_left (fun instructions (entry : Workspace.t * WorkspaceReport.t) =>
                          ReportInspector._unrollWorkspaceReport (snd entry)
                            instructions) report instructions
             = instructions); [|apply Hacc].
  induction H as [|entry report [Hi Hl] _ IH]; intros instructions; cbn.
  - reflexivity.
  - rewrite unroll_unfold, Hl, Hi. cbn. apply IH.
Qed.

Lemma builtAt_answers (env : Env.t) (configuration : Configuration.t)
    (w : Workspace.t) :
  builtAt env (Configuration.asLog configuration) w ->
  answers configuration w.
Proof.
  unfold builtAt, answers, Configuration.asLog.
  destruct (configuration _) as [value|message];
    [eexists; reflexivity | discriminate].
Qed.

(** X14.  A run in which nothing changed: when the configuration that is
    loaded as the log holds for every workspace of a finite project the
    time its newest file has now, the audit of the project with every
    workspace awaited, for any targets, reports every target fresh and the
    inspector emits no instruction. *)
Theorem unchanged_project_needs_no_build :
  forall (env : Env.t) (project : Project.t) (targets : list string)
         (interleaved : list Workspace.t -> E (Workspace.t -> WorkspaceReport.t))
         (fuel : nat) (s : Run.t),
    Project.closed project ->
    List.length (Project.descriptors project) < fuel ->
    (forall w, In w (Project.workspaces project) ->
               builtAt env (Configuration.asLog (Project.configuration project)) w) ->
    exists report s',
      ProjectAuditor.audit env project targets interleaved
        (ProjectAuditor.mkOptions true) fuel s = Some (Returned report, s')
      /\ Forall (fun entry => WorkspaceReport.isFresh (snd entry) = Some true)
           report
      /\ ReportInspector.unroll report = [].
Proof.
  intros env project targets interleaved fuel s Hclosed Hfuel Hbuilt.
  destruct (project_audit_keys env project targets fuel Hclosed Hfuel s)
    as (report & s' & Heq & _).
  exists report, s'. split.
  { rewrite (project_audit_over_answers env project targets interleaved fuel s
               Hclosed
               (fun w Hw => builtAt_answers env _ w (Hbuilt w Hw))).
    now rewrite Heq. }
  destruct (project_audit_values env project targets fuel
              (quiet (Configuration.asLog (Project.configuration project)))
              (fun _ r => WorkspaceReport.isFresh r = Some true
                          /\ WorkspaceReport.loopsBackToParent r = None))
    with (s := s) (report := report) (s' := s') as [_ Hall].
  - intros w s0 r s1 Hw Haudit Hs0.
    assert (Hs1 : quiet (Configuration.asLog (Project.configuration project)) s1).
    { apply (audit_keepsOn env project
               (fun w => In w (Project.workspaces project))
               (quiet (Configuration.asLog (Project.configuration project)))
               Hclosed
               (fun w s Hw => isFresh_quiet env _ w s (Hbuilt w Hw))
               (fun p s H => H)
               fuel w s0 r s1 Hw Haudit Hs0). }
    split; [exact Hs1|].
    destruct (audit_root env project fuel w s0 r s1 Haudit)
      as (_ & Hl & _ & [Hi|[_ [w0 Hw0]]]); [now split|].
    now destruct (proj2 Hs1 w0).
  - exact Heq.
  - split; [reflexivity | intros w; cbn; discriminate].
  - split; [|exact (unroll_fresh report Hall)].
    refine (Forall_impl _ _ Hall). intros entry [Hi _]. exact Hi.
Qed.

(** The sample project with every source folder as the log has it. *)
Definition quietEnv : Env.t := Env.mk (fun _ => Sample.unchanged) (fun _ => 0%Z).

Definition quietProject : Project.t :=
  Project.mk (Project.workspaces Sample.project)
    (Project.topLevelWorkspace Sample.project)
    Sample.tryWorkspaceByDescriptor
    (fun _ => Configuration.Value (Some (RunLog.mkEntry (Some 100%Z)))).

Lemma unchanged_project_needs_no_build_witness :
  exists report s',
    ProjectAuditor.audit quietEnv quietProject
      ["packages/a"; "packages/d"; "packages/x"]%string Sample.interleaved
      (ProjectAuditor.mkOptions true) Sample.fuel Run.initial
    = Some (Returned report, s')
    /\ List.length report = 3
    /\ ReportInspector.unroll report = [].
Proof.
  destruct (unchanged_project_needs_no_build quietEnv quietProject
              ["packages/a"; "packages/d"; "packages/x"]%string
              Sample.interleaved Sample.fuel Run.initial)
    as (report & s' & Heq & _ & Hnone).
  - exact sample_closed.
  - vm_compute. lia.
  - intros w _. reflexivity.
  - exists report, s'. split; [exact Heq|]. split; [|exact Hnone].
    assert (Hsome : option_map
                      (fun x => match fst x with
                                | Returned report => List.length report
                                | Threw _ => 0
                                end)
                      (ProjectAuditor.audit quietEnv quietProject
                         ["packages/a"; "packages/d"; "packages/x"]%string
                         Sample.interleaved (ProjectAuditor.mkOptions true)
                         Sample.fuel Run.initial) = Some 3)
      by (vm_compute; reflexivity).
    rewrite Heq in Hsome. injection Hsome as Hlen. exact Hlen.
Defined.

(** *** The keys of the project report *)

(** The two tests the loop makes on a workspace. *)
Definition audited (project : Project.t) (targets : list string)
    (w : Workspace.t) : bool :=
  if Workspace.eq_dec w (Project.topLevelWorkspace project) then false
  else if in_dec string_dec (Workspace.relativeCwd w) targets
       then true else false.

Lemma audited_targeted (project : Project.t) (targets : list string)
    (w : Workspace.t) :
  audited project targets w = true <-> targeted project targets w.
Proof.
  unfold audited, targeted.
  destruct (Workspace.eq_dec w (Project.topLevelWorkspace project));
    [split; [discriminate | tauto]|].
  destruct (in_dec string_dec (Workspace.relativeCwd w) targets);
    split; try discriminate; tauto.
Qed.

(** The loop of lines 87 to 109, whatever starting an audit comes to:
    when the loop ends without a throw, [pendingAudits] has got one key for
    every workspace that passes the two tests, in the order of the
    workspaces. *)
Section Started.
Variable project : Project.t.
Variable targets : list string.
Variable P : Type.
Variable start : Workspace.t -> E P.

Lemma auditWorkspaces_started :
  forall workspaces (pendingAudits : JsMap.t Workspace.t P) s reports s',
    ProjectAuditor.auditWorkspaces project targets start workspaces
      pendingAudits s = Some (Returned reports, s') ->
    (forall w, In w (JsMap.keys reports)
               <-> In w (JsMap.keys pendingAudits)
                   \/ (In w workspaces /\ targeted project targets w))
    /\ (NoDup (JsMap.keys pendingAudits) -> NoDup (JsMap.keys reports))
    /\ (NoDup (JsMap.keys pendingAudits ++ workspaces) ->
        JsMap.keys reports
        = JsMap.keys pendingAudits ++ filter (audited project targets) workspaces).
Proof.
  induction workspaces as [|w rest IH]; intros pending s reports s' H.
  - injection H as <- <-. split; [|split].
    + intros w. cbn. tauto.
    + trivial.
    + intros _. cbn. now rewrite app_nil_r.
  - cbn [ProjectAuditor.auditWorkspaces filter] in H |- *.
    unfold audited at 1. unfold ProjectAuditor.targets_includes in H.
    destruct (Workspace.eq_dec w (Project.topLevelWorkspace project)) as [Htop|Hnot].
    + destruct (IH _ _ _ _ H) as (Hkeys & Hnd & Horder).
      split; [|split].
      * intros w0. rewrite Hkeys. unfold targeted. cbn.
        intuition (subst; tauto).
      * exact Hnd.
      * intros H0. apply Horder. exact (NoDup_remove_1 _ _ _ H0).
    + destruct (in_dec string_dec (Workspace.relativeCwd w) targets) as [Hin|Hout];
        cbn [negb] in H.
      * unfold bindE in H.
        destruct (start w s) as [[[pendingAudit|message] s1]|];
          [|discriminate|discriminate].
        destruct (IH _ _ _ _ H) as (Hkeys & Hnd & Horder).
        split; [|split].
        -- intros w0. rewrite Hkeys, in_keys_set. unfold targeted. cbn.
           intuition (subst; tauto).
        -- intros H0. apply Hnd, NoDup_keys_set, H0.
        -- intros H0.
           assert (Hw : ~ In w (JsMap.keys pending)).
           { intros Hk. apply (NoDup_remove_2 _ _ _ H0), in_or_app. now left. }
           rewrite (set_absent _ _ Workspace.eq_dec w pendingAudit pending Hw)
             in Horder.
           unfold JsMap.keys in Horder |- *. rewrite map_app in Horder.
           cbn [map fst] in Horder. rewrite <- !app_assoc in Horder.
           exact (Horder H0).
      * destruct (IH _ _ _ _ H) as (Hkeys & Hnd & Horder).
        split; [|split].
        -- intros w0. rewrite Hkeys. unfold targeted. cbn.
           intuition (subst; tauto).
        -- exact Hnd.
        -- intros H0. apply Horder. exact (NoDup_remove_1 _ _ _ H0).
Qed.

(** Where no workspace passes the tests, no audit is started. *)
Lemma auditWorkspaces_none :
  forall workspaces (pendingAudits : JsMap.t Workspace.t P) s,
    (forall w, In w workspaces -> ~ targeted project targets w) ->
    ProjectAuditor.auditWorkspaces project targets start workspaces
      pendingAudits s = Some (Returned pendingAudits, s).
Proof.
  induction workspaces as [|w rest IH]; intros pending s Hnone; [reflexivity|].
  cbn [ProjectAuditor.auditWorkspaces].
  assert (Hrest : forall w, In w rest -> ~ targeted project targets w)
    by (intros e He; apply Hnone; now right).
  destruct (Workspace.eq_dec w (Project.topLevelWorkspace project));
    [exact (IH pending s Hrest)|].
  unfold ProjectAuditor.targets_includes.
  destruct (in_dec string_dec (Workspace.relativeCwd w) targets) as [Hin|Hout];
    cbn [negb]; [|exact (IH pending s Hrest)].
  exfalso. apply (Hnone w (or_introl eq_refl)). now split.
Qed.

End Started.

Lemma keys_settled (P : Type) (settled : Workspace.t -> WorkspaceReport.t)
    (pendingAudits : JsMap.t Workspace.t P) :
  JsMap.keys (map (fun entry => (fst entry, settled (fst entry))) pendingAudits)
  = JsMap.keys pendingAudits.
Proof.
  unfold JsMap.keys. rewrite map_map. reflexivity.
Qed.

Lemma collect_copies (pendingAudits : ProjectAuditor.ProjectReport) :
  NoDup (JsMap.keys pendingAudits) ->
  ProjectAuditor.collect pendingAudits = pendingAudits.
Proof.
  intros Hnd. unfold ProjectAuditor.collect.
  now rewrite (copy_entries _ _ Workspace.eq_dec pendingAudits (JsMap.empty _ _)).
Qed.

(** The keys of a report that [audit] returns, with [sequential] set or
    not. *)
Lemma project_audit_returned (env : Env.t) (project : Project.t)
    (targets : list string)
    (interleaved : list Workspace.t -> E (Workspace.t -> WorkspaceReport.t))
    (options : ProjectAuditor.AuditOptions) (fuel : nat) (s : Run.t)
    (report : ProjectAuditor.ProjectReport) (s' : Run.t) :
  ProjectAuditor.audit env project targets interleaved options fuel s
  = Some (Returned report, s') ->
  (forall w, In w (JsMap.keys report)
             <-> In w (Project.workspaces project)
                 /\ targeted project targets w)
  /\ NoDup (JsMap.keys report)
  /\ (NoDup (Project.workspaces project) ->
      JsMap.keys report
      = filter (audited project targets) (Project.workspaces project)).
Proof.
  unfold ProjectAuditor.audit. unfold bindE at 1. unfold liftE at 1.
  destruct (ProjectAuditor.sequential options).
  - unfold bindE, retE.
    destruct (ProjectAuditor.auditWorkspaces _ _ _ _ _ _)
      as [[[pending|message] s1]|] eqn:Hloop; [|discriminate|discriminate].
    intros H. injection H as <- <-.
    destruct (auditWorkspaces_started _ _ _ _ _ _ _ _ _ Hloop)
      as (Hkeys & Hnd & Horder).
    rewrite collect_copies by (apply Hnd; constructor).
    split; [|split].
    + intros w. rewrite Hkeys. cbn. tauto.
    + apply Hnd. constructor.
    + exact Horder.
  - unfold bindE at 1.
    destruct (ProjectAuditor.auditWorkspaces _ _ _ _ _ _)
      as [[[pending|message] s1]|] eqn:Hloop; [|discriminate|discriminate].
    destruct (auditWorkspaces_started _ _ _ _ _ _ _ _ _ Hloop)
      as (Hkeys & Hnd & Horder).
    assert (Hpending : NoDup (JsMap.keys pending)) by (apply Hnd; constructor).
    destruct pending as [|entry pending].
    + unfold retE. intros H. injection H as <- <-.
      split; [|split]; [| constructor | exact Horder].
      intros w. specialize (Hkeys w). cbn in Hkeys |- *. tauto.
    + unfold bindE, retE.
      destruct (interleaved _ _) as [[[settled|message] s2]|];
        [|discriminate|discriminate].
      intros H. injection H as <- <-.
      match goal with
      | |- context [ProjectAuditor.collect ?l] =>
          change l
            with (map (fun entry : Workspace.t * unit =>
                         (fst entry, settled (fst entry)))
                    (entry :: pending))
      end.
      rewrite collect_copies by (now rewrite keys_settled).
      rewrite keys_settled.
      split; [|split].
      * intros w. rewrite Hkeys. cbn. tauto.
      * exact Hpending.
      * exact Horder.
Qed.

(** X19.  The keys of the report of a project.  Whenever [audit] returns a
    report, with [sequential] set or not, the keys of the report are
    exactly the workspaces of the project that are not the top-level
    workspace and whose relative path is among the targets, each once, and
    in the order of the project when the project lists no workspace twice.
    When no workspace passes these tests (as with no target) [audit]
    returns the empty report, whatever the configuration holds.  And with
    every workspace awaited, a finite project and a configuration that has
    a value under the key of every workspace, [audit] does return a
    report. *)
Theorem project_report_keys :
  forall (env : Env.t) (project : Project.t) (targets : list string)
         (interleaved : list Workspace.t -> E (Workspace.t -> WorkspaceReport.t))
         (options : ProjectAuditor.AuditOptions) (fuel : nat) (s : Run.t),
    (forall report s',
        ProjectAuditor.audit env project targets interleaved options fuel s
        = Some (Returned report, s') ->
        (forall w,
            In w (JsMap.keys report)
            <-> In w (Project.workspaces project)
                /\ w <> Project.topLevelWorkspace project
                /\ In (Workspace.relativeCwd w) targets)
        /\ NoDup (JsMap.keys report)
        /\ (NoDup (Project.workspaces project) ->
            JsMap.keys report
            = filter (audited project targets) (Project.workspaces project)))
    /\ ((forall w, In w (Project.workspaces project) ->
                   w <> Project.topLevelWorkspace project ->
                   ~ In (Workspace.relativeCwd w) targets) ->
        exists s',
          ProjectAuditor.audit env project targets interleaved options fuel s
          = Some (Returned [], s'))
    /\ (ProjectAuditor.sequential options = true ->
        Project.closed project ->
        List.length (Project.descriptors project) < fuel ->
        (forall w, In w (Project.workspaces project) ->
                   answers (Project.configuration project) w) ->
        exists report s',
          ProjectAuditor.audit env project targets interleaved options fuel s
          = Some (Returned report, s')).
Proof.
  intros env project targets interleaved options fuel s.
  split; [|split].
  - intros report s' H.
    exact (project_audit_returned env project targets interleaved options fuel
             s report s' H).
  - intros Hnone. eexists.
    unfold ProjectAuditor.audit. unfold bindE at 1. unfold liftE at 1.
    destruct (ProjectAuditor.sequential options); unfold bindE at 1;
      rewrite auditWorkspaces_none
        by (intros w Hw [Hnot Hin]; exact (Hnone w Hw Hnot Hin));
      reflexivity.
  - intros Hseq Hclosed Hfuel Hanswers.
    destruct options as [sequential]. cbn in Hseq. subst sequential.
    rewrite (project_audit_over_answers env project targets interleaved fuel s
               Hclosed Hanswers).
    destruct (project_audit_keys env project targets fuel Hclosed Hfuel s)
      as (report & s' & -> & _).
    exists report, s'. reflexivity.
Qed.

(** The sample project audited for [a], [x], the top-level workspace and a
    path no workspace has: the report has the keys [a] and [x]. *)
Lemma project_report_keys_witness :
  exists report s',
    ProjectAuditor.audit Sample.env Sample.project
      ["packages/x"; "."; "packages/a"; "packages/none"]%string
      Sample.interleaved (ProjectAuditor.mkOptions true)
      Sample.fuel Run.initial = Some (Returned report, s')
    /\ JsMap.keys report = [Sample.a; Sample.x].
Proof.
  destruct (proj2 (proj2 (project_report_keys Sample.env
              Sample.project
              ["packages/x"; "."; "packages/a"; "packages/none"]%string
              Sample.interleaved (ProjectAuditor.mkOptions true)
              Sample.fuel Run.initial)) eq_refl sample_closed)
    as (report & s' & Heq).
  - vm_compute. lia.
  - intros w _. eexists. reflexivity.
  - exists report, s'. split; [exact Heq|].
    destruct (proj1 (project_report_keys Sample.env
                Sample.project
                ["packages/x"; "."; "packages/a"; "packages/none"]%string
                Sample.interleaved (ProjectAuditor.mkOptions true)
                Sample.fuel Run.initial) report s' Heq) as (_ & _ & Horder).
    rewrite Horder; [reflexivity|].
    repeat constructor; cbn; intuition discriminate.
Defined.

(** X15.  [forProjectPath] makes an auditor for the project that was
    found.  Whenever that auditor returns a report, the keys of the report
    are, when the path led to the top-level workspace, every workspace of
    the project but the top-level one; when it led to another workspace,
    the workspaces with that relative path; when it led to no workspace,
    none. *)
Theorem forProjectPath_targets :
  forall (env : Env.t)
         (interleaved : list Workspace.t -> E (Workspace.t -> WorkspaceReport.t))
         (found : ProjectAuditor.ProjectFindResult)
         (options : ProjectAuditor.AuditOptions) (fuel : nat) (s : Run.t)
         (report : ProjectAuditor.ProjectReport) (s' : Run.t),
    ProjectAuditor.auditWith env interleaved
      (ProjectAuditor.forProjectPath found) options fuel s
    = Some (Returned report, s') ->
    ProjectAuditor._project (ProjectAuditor.forProjectPath found)
    = ProjectAuditor.project found
    /\ forall w,
         In w (JsMap.keys report)
         <-> In w (Project.workspaces (ProjectAuditor.project found))
             /\ w <> Project.topLevelWorkspace (ProjectAuditor.project found)
             /\ match ProjectAuditor.workspace found with
                | Some at_path =>
                    at_path
                    = Project.topLevelWorkspace (ProjectAuditor.project found)
                    \/ Workspace.relativeCwd w = Workspace.relativeCwd at_path
                | None => False
                end.
Proof.
  intros env interleaved found options fuel s report s' H.
  split; [reflexivity|].
  unfold ProjectAuditor.auditWith in H.
  destruct (project_audit_returned env _ _ interleaved options fuel s report s' H)
    as (Hkeys & _).
  intros w. rewrite Hkeys. unfold targeted.
  unfold ProjectAuditor.forProjectPath.
  cbn [ProjectAuditor._project ProjectAuditor._targets].
  destruct (ProjectAuditor.workspace found) as [at_path|]; cbn.
  - destruct (Workspace.eq_dec at_path
                (Project.topLevelWorkspace (ProjectAuditor.project found)))
      as [Htop|Hnot]; cbn.
    + rewrite in_map_iff. split.
      * intros (Hw & Hn & _). repeat split; auto.
      * intros (Hw & Hn & _). repeat split; auto. exists w. now split.
    + split.
      * intros (Hw & Hn & [E|[]]). repeat split; auto.
      * intros (Hw & Hn & [E|E]); [contradiction|].
        repeat split; auto.
  - tauto.
Qed.

(** The sample project found at its root, and found at [packages/b]. *)
Lemma forProjectPath_targets_witness :
  (exists report s',
      ProjectAuditor.auditWith Sample.env Sample.interleaved
        (ProjectAuditor.forProjectPath
           (ProjectAuditor.mkFound Sample.project (Some Sample.top)))
        (ProjectAuditor.mkOptions true) Sample.fuel Run.initial
      = Some (Returned report, s')
      /\ forall w, In w (JsMap.keys report)
                   <-> In w (Project.workspaces Sample.project)
                       /\ w <> Sample.top)
  /\ (exists report s',
         ProjectAuditor.auditWith Sample.env Sample.interleaved
           (ProjectAuditor.forProjectPath
              (ProjectAuditor.mkFound Sample.project (Some Sample.b)))
           (ProjectAuditor.mkOptions true) Sample.fuel Run.initial
         = Some (Returned report, s')
         /\ JsMap.keys report = [Sample.b]).
Proof.
  split.
  - destruct (ProjectAuditor.auditWith Sample.env Sample.interleaved
                (ProjectAuditor.forProjectPath
                   (ProjectAuditor.mkFound Sample.project (Some Sample.top)))
                (ProjectAuditor.mkOptions true) Sample.fuel Run.initial)
      as [[[report|message] s']|] eqn:Haudit;
      [|vm_compute in Haudit; discriminate|vm_compute in Haudit; discriminate].
    exists report, s'. split; [reflexivity|].
    destruct (forProjectPath_targets Sample.env Sample.interleaved _ _ _ _ _ _
                Haudit) as (_ & Hkeys).
    intros w. rewrite (Hkeys w). cbn. tauto.
  - destruct (ProjectAuditor.auditWith Sample.env Sample.interleaved
                (ProjectAuditor.forProjectPath
                   (ProjectAuditor.mkFound Sample.project (Some Sample.b)))
                (ProjectAuditor.mkOptions true) Sample.fuel Run.initial)
      as [[[report|message] s']|] eqn:Haudit;
      [|vm_compute in Haudit; discriminate|vm_compute in Haudit; discriminate].
    exists report, s'. split; [reflexivity|].
    pose proof (forProjectPath_targets Sample.env Sample.interleaved _ _ _ _ _ _
                  Haudit) as _.
    vm_compute in Haudit. injection Haudit as <- _. reflexivity.
Defined.

(** *** The entries of the project report *)

(** The workspaces audited in turn: each by [WorkspaceAuditor.audit], from
    the state in which the audit before it left the run. *)
Fixpoint inTurn (env : Env.t) (project : Project.t) (fuel : nat)
    (workspaces : list Workspace.t) (s : Run.t)
    : option (list (Workspace.t * WorkspaceReport.t) * Run.t) :=
  match workspaces with
  | [] => Some ([], s)
  | w :: rest =>
      match WorkspaceAuditor.audit env project fuel w s with
      | Some (report, s1) =>
          match inTurn env project fuel rest s1 with
          | Some (reports, s') => Some ((w, report) :: reports, s')
          | None => None
          end
      | None => None
      end
  end.

Lemma inTurn_entries (env : Env.t) (project : Project.t) (fuel : nat) :
  forall workspaces s reports s',
    inTurn env project fuel workspaces s = Some (reports, s') ->
    JsMap.keys reports = workspaces
    /\ Forall (fun entry =>
                 exists s0 s1,
                   WorkspaceAuditor.audit env project fuel (fst entry) s0
                   = Some (snd entry, s1)) reports.
Proof.
  induction workspaces as [|w rest IH]; intros s reports s' H.
  - injection H as <- <-. split; [reflexivity | constructor].
  - cbn [inTurn] in H.
    destruct (WorkspaceAuditor.audit env project fuel w s)
      as [[report s1]|] eqn:Haudit; [|discriminate].
    destruct (inTurn env project fuel rest s1) as [[reports' s2]|] eqn:Hrest;
      [|discriminate].
    injection H as <- <-.
    destruct (IH _ _ _ Hrest) as (Hkeys & Hall).
    split; [unfold JsMap.keys in Hkeys |- *; cbn [map fst]; now rewrite Hkeys|].
    constructor; [|exact Hall]. exists s, s1. exact Haudit.
Qed.

Lemma auditWorkspaces_inTurn (env : Env.t) (project : Project.t)
    (targets : list string) (fuel : nat) :
  forall (workspaces : list Workspace.t)
         (pendingAudits : ProjectAuditor.ProjectReport) (s : Run.t),
    NoDup (JsMap.keys pendingAudits ++ workspaces) ->
    Answered.auditWorkspaces env project targets fuel workspaces
      pendingAudits s
    = option_map (fun r => (pendingAudits ++ fst r, snd r))
        (inTurn env project fuel
           (filter (audited project targets) workspaces) s).
Proof.
  induction workspaces as [|w rest IH]; intros pending s Hnd.
  - cbn. now rewrite app_nil_r.
  - pose proof (NoDup_remove_1 _ _ _ Hnd) as Hnd1.
    pose proof (NoDup_remove_2 _ _ _ Hnd) as Hout.
    cbn [Answered.auditWorkspaces filter]. unfold audited at 1.
    unfold ProjectAuditor.targets_includes.
    destruct (Workspace.eq_dec w (Project.topLevelWorkspace project));
      [exact (IH pending s Hnd1)|].
    destruct (in_dec string_dec (Workspace.relativeCwd w) targets);
      cbn [negb]; [|exact (IH pending s Hnd1)].
    unfold bind. cbn [inTurn].
    destruct (WorkspaceAuditor.audit env project fuel w s)
      as [[report s1]|]; [|reflexivity].
    assert (Hw : ~ In w (JsMap.keys pending))
      by (intros H; apply Hout, in_or_app; now left).
    rewrite (set_absent _ _ Workspace.eq_dec w report pending Hw).
    rewrite IH.
    + destruct (inTurn env project fuel _ s1) as [[reports s']|];
        [|reflexivity].
      cbn. now rewrite <- app_assoc.
    + unfold JsMap.keys. rewrite map_app. cbn. rewrite <- app_assoc. exact Hnd.
Qed.

(** X16.  The report of a project is made of the audits of its keys, in
    the order of the project.  For a finite project that lists no
    workspace twice and a configuration that has a value under the key of
    every workspace, the audit with every workspace awaited returns a
    report whose keys are the workspaces of the project that pass the two
    tests of the loop, in the order [project.workspaces] lists them, and
    whose entries are what [WorkspaceAuditor.audit] returns for these
    workspaces when they are audited in that order, the first from the new
    catalog that has loaded the configuration, each of the others from the
    state the audit before it left. *)
Theorem project_report_follows_the_project :
  forall (env : Env.t) (project : Project.t) (targets : list string)
         (interleaved : list Workspace.t -> E (Workspace.t -> WorkspaceReport.t))
         (fuel : nat) (s : Run.t),
    Project.closed project ->
    List.length (Project.descriptors project) < fuel ->
    NoDup (Project.workspaces project) ->
    (forall w, In w (Project.workspaces project) ->
               answers (Project.configuration project) w) ->
    exists report s',
      ProjectAuditor.audit env project targets interleaved
        (ProjectAuditor.mkOptions true) fuel s = Some (Returned report, s')
      /\ JsMap.keys report
         = filter
             (fun w =>
                if Workspace.eq_dec w (Project.topLevelWorkspace project)
                then false
                else if in_dec string_dec (Workspace.relativeCwd w) targets
                     then true else false)
             (Project.workspaces project)
      /\ inTurn env project fuel (JsMap.keys report)
           (FreshnessCatalog.loadPreviousState
              (Configuration.asLog (Project.configuration project))
              (FreshnessCatalog.create s))
         = Some (report, s')
      /\ Forall (fun entry =>
                   exists s0 s1,
                     WorkspaceAuditor.audit env project fuel (fst entry) s0
                     = Some (snd entry, s1)) report.
Proof.
  intros env project targets interleaved fuel s Hclosed Hfuel Hnd Hanswers.
  destruct (project_audit_keys env project targets fuel Hclosed Hfuel s)
    as (report & s' & Heq & _ & Hkeysnd).
  exists report, s'. split.
  { rewrite (project_audit_over_answers env project targets interleaved fuel s
               Hclosed Hanswers).
    now rewrite Heq. }
  revert Heq. unfold Answered.audit, bind, ret.
  rewrite (auditWorkspaces_inTurn env project targets fuel
             (Project.workspaces project) (JsMap.empty _ _) _ Hnd).
  destruct (inTurn env project fuel _ _) as [[reports s1]|] eqn:Hturn;
    [|discriminate].
  cbn [option_map fst snd JsMap.empty app]. intros Heq.
  destruct (inTurn_entries env project fuel _ _ _ _ Hturn) as (Hkeys & Hall).
  rewrite collect_copies in Heq
    by (rewrite Hkeys; apply NoDup_filter, Hnd).
  injection Heq as <- <-.
  split; [exact Hkeys|]. split; [|exact Hall].
  rewrite Hkeys. exact Hturn.
Qed.

(** The sample project with targets given in another order than the
    project has them. *)
Lemma project_report_follows_the_project_witness :
  exists report s',
    ProjectAuditor.audit Sample.env Sample.project
      ["packages/x"; "packages/c"; "packages/a"]%string Sample.interleaved
      (ProjectAuditor.mkOptions true) Sample.fuel Run.initial
    = Some (Returned report, s')
    /\ JsMap.keys report = [Sample.a; Sample.c; Sample.x]
    /\ Forall (fun entry =>
                 exists s0 s1,
                   WorkspaceAuditor.audit Sample.env Sample.project Sample.fuel
                     (fst entry) s0
                   = Some (snd entry, s1)) report.
Proof.
  destruct (project_report_follows_the_project Sample.env Sample.project
              ["packages/x"; "packages/c"; "packages/a"]%string
              Sample.interleaved Sample.fuel Run.initial sample_closed)
    as (report & s' & Heq & Hkeys & _ & Hall).
  - vm_compute. lia.
  - repeat constructor; cbn; intuition discriminate.
  - intros w _. eexists. reflexivity.
  - exists report, s'. split; [exact Heq|]. split; [|exact Hall].
    rewrite Hkeys. vm_compute. reflexivity.
Defined.

(** X17.  Every report of an audit has at most one child, and the child
    of the root is stored under the relative path of the audited workspace
    itself: line 130 uses the key of the workspace being audited for each
    of its dependencies. *)
Theorem reports_hold_at_most_one_child :
  forall (env : Env.t) (project : Project.t) (fuel : nat)
         (workspace : Workspace.t) (s : Run.t)
         (report : WorkspaceReport.t) (s' : Run.t),
    WorkspaceAuditor.audit env project fuel workspace s = Some (report, s') ->
    (forall r, In r (WorkspaceReport.nodes report) ->
               List.length (WorkspaceReport.dependencies r) <= 1)
    /\ (forall key, In key (JsMap.keys (WorkspaceReport.dependencies report)) ->
                    key = Workspace.relativeCwd workspace).
Proof.
  intros env project fuel workspace s report s' H. split.
  - exact (audit_reports_hold_one_child env project fuel workspace s report s' H).
  - revert H. unfold WorkspaceAuditor.audit, bind, ret. intros H.
    destruct (WorkspaceAuditor._auditDependencyWorkspace _ _ _ _ _ _)
      as [[result s1]|] eqn:Hcall; [|discriminate].
    injection H as <- <-.
    destruct (auditDependencyWorkspace_narrows env project fuel _ _ _ _ _ Hcall)
      as [[_ Hkey] _].
    + split; [cbn; lia | intros k []].
    + constructor.
    + exact Hkey.
Qed.

(** The sample workspace [a], with two dependencies in the project. *)
Lemma reports_hold_at_most_one_child_witness :
  exists report s',
    WorkspaceAuditor.audit Sample.env Sample.project Sample.fuel Sample.a
      Sample.start = Some (report, s')
    /\ List.length (WorkspaceReport.dependencies report) <= 1
    /\ JsMap.keys (WorkspaceReport.dependencies report) = ["packages/a"%string].
Proof.
  destruct (WorkspaceAuditor.audit Sample.env Sample.project Sample.fuel
              Sample.a Sample.start) as [[report s']|] eqn:Heq;
    [|vm_compute in Heq; discriminate].
  exists report, s'. split; [reflexivity|].
  destruct (reports_hold_at_most_one_child Sample.env Sample.project
              Sample.fuel Sample.a Sample.start report s' Heq) as [Hlen _].
  split.
  - apply Hlen. rewrite nodes_unfold. now left.
  - vm_compute in Heq. injection Heq as <- _. reflexivity.
Defined.

(** X20.  In an audit of a project with every workspace awaited, no two
    calls of the catalog are under way together, and the detector runs at
    most once on any workspace, however many workspaces depend on it: for
    a finite project and a configuration that has a value under the key of
    every workspace, the detector has run at most once on each workspace
    when the audit returns. *)
Theorem project_audit_scans_each_workspace_once :
  forall (env : Env.t) (project : Project.t) (targets : list string)
         (interleaved : list Workspace.t -> E (Workspace.t -> WorkspaceReport.t))
         (fuel : nat) (s : Run.t)
         (report : ProjectAuditor.ProjectReport) (s' : Run.t),
    Project.closed project ->
    (forall w, In w (Project.workspaces project) ->
               answers (Project.configuration project) w) ->
    ProjectAuditor.audit env project targets interleaved
      (ProjectAuditor.mkOptions true) fuel (Run.with_detectorRuns [] s)
    = Some (Returned report, s') ->
    forall w, CatalogUse.detections w s' <= 1.
Proof.
  intros env project targets interleaved fuel s report s' Hclosed Hanswers H.
  rewrite (project_audit_over_answers env project targets interleaved fuel _
             Hclosed Hanswers) in H.
  destruct (Answered.audit env project targets fuel
              (Run.with_detectorRuns [] s)) as [[report0 s0]|] eqn:Haudit;
    [|discriminate].
  cbn in H. injection H as <- <-.
  exact (project_audit_scans_once env project targets fuel
           (Run.with_detectorRuns [] s) report0 s0 eq_refl Haudit).
Qed.

(** The sample project audited for [a] and [d], which both depend on [b]:
    the detector runs once on [b]. *)
Lemma project_audit_scans_each_workspace_once_witness :
  exists report s',
    ProjectAuditor.audit Sample.env Sample.project
      ["packages/a"; "packages/d"]%string Sample.interleaved
      (ProjectAuditor.mkOptions true) Sample.fuel Run.initial
    = Some (Returned report, s')
    /\ Run.detectorRuns s' = [Sample.a; Sample.b; Sample.c; Sample.d]
    /\ CatalogUse.detections Sample.b s' <= 1.
Proof.
  destruct (ProjectAuditor.audit Sample.env Sample.project
              ["packages/a"; "packages/d"]%string Sample.interleaved
              (ProjectAuditor.mkOptions true) Sample.fuel Run.initial)
    as [[[report|message] s']|] eqn:Haudit;
    [|vm_compute in Haudit; discriminate|vm_compute in Haudit; discriminate].
  exists report, s'. split; [reflexivity|]. split.
  - vm_compute in Haudit. injection Haudit as _ <-. reflexivity.
  - refine (project_audit_scans_each_workspace_once Sample.env Sample.project
              ["packages/a"; "packages/d"]%string Sample.interleaved
              Sample.fuel Run.initial report s' sample_closed _ Haudit Sample.b).
    intros w _. eexists. reflexivity.
Defined.
